(** * Paper Birthdays: the API client, the response validators, the history
      query and the daily selection algorithm, embedded and verified.

    Sources embedded here:
    - [src/lib/api/types.ts]   (validators and constants),
    - [src/lib/config.ts]      (where the retry count comes from),
    - [src/lib/api/client.ts]  (retry policy and the request loop),
    - [src/lib/api/queries.ts] (parameter validation and [historyQuery]),
    - [project_info.md]        (the [selectDailyPaper] algorithm, section 7.1,
                                and the [papers] table, section 4.1). *)

From Stdlib Require Import ZArith QArith Qround Qminmax Qcanon List String Ascii Bool Lia.
From Stdlib Require Import Permutation Sorted Lqa Qpower.
From stdpp Require Import gmap strings.
Import ListNotations.

Set Warnings "-register-all".

Open Scope string_scope.
Open Scope Z_scope.

(** ** JavaScript values, as far as the validators inspect them *)

Module Js.

(** A JavaScript number: a finite value (every finite double is a rational),
    or one of the three non-finite values. *)
Inductive JsNumber : Type :=
| Finite (q : Q)
| NaN
| PosInfinity
| NegInfinity.

(** JSON-shaped values: what a parsed response body or a caller-supplied
    parameter can be. *)
Inductive JsValue : Type :=
| JUndefined
| JNull
| JBool (b : bool)
| JNum (n : JsNumber)
| JStr (s : string)
| JArr (items : list JsValue)
| JObj (fields : list (string * JsValue)).

Inductive JsType : Type :=
| TUndefined | TObject | TBoolean | TNumber | TString.

Definition JsType_eqb (a b : JsType) : bool :=
  match a, b with
  | TUndefined, TUndefined | TObject, TObject | TBoolean, TBoolean
  | TNumber, TNumber | TString, TString => true
  | _, _ => false
  end.

(** [typeof v]; note [typeof null === 'object'] and arrays are objects. *)
Definition typeof (v : JsValue) : JsType :=
  match v with
  | JUndefined => TUndefined
  | JNull => TObject
  | JBool _ => TBoolean
  | JNum _ => TNumber
  | JStr _ => TString
  | JArr _ => TObject
  | JObj _ => TObject
  end.

Definition of_Z (z : Z) : JsValue := JNum (Finite (inject_Z z)).

(** Truthiness, as used by [!v], [v || d] and [v && w]. *)
Definition truthy (v : JsValue) : bool :=
  match v with
  | JUndefined | JNull => false
  | JBool b => b
  | JNum (Finite q) => negb (Qeq_bool q 0)
  | JNum NaN => false
  | JNum _ => true
  | JStr s => negb (String.eqb s "")
  | JArr _ | JObj _ => true
  end.

Definition is_undefined (v : JsValue) : bool :=
  match v with JUndefined => true | _ => false end.

Definition is_null (v : JsValue) : bool :=
  match v with JNull => true | _ => false end.

Definition isArray (v : JsValue) : bool :=
  match v with JArr _ => true | _ => false end.

Fixpoint assoc (k : string) (fs : list (string * JsValue)) : option JsValue :=
  match fs with
  | [] => None
  | (k', v) :: rest => if String.eqb k k' then Some v else assoc k rest
  end.

(** [v.k] for a named (non-index) property [k]; the validators only read
    properties of values already known to be non-null objects, where a
    missing property reads as [undefined]. *)
Definition get (v : JsValue) (k : string) : JsValue :=
  match v with
  | JObj fs => match assoc k fs with Some x => x | None => JUndefined end
  | _ => JUndefined
  end.

(** ['k' in v] for the data keys the validators test. *)
Definition has (k : string) (v : JsValue) : bool :=
  match v with
  | JObj fs => match assoc k fs with Some _ => true | None => false end
  | _ => false
  end.

Definition items_of (v : JsValue) : list JsValue :=
  match v with JArr xs => xs | _ => [] end.

(** [Number.isInteger v]. *)
Definition isInteger (v : JsValue) : bool :=
  match v with
  | JNum (Finite q) => Pos.eqb (Qden (Qred q)) 1
  | _ => false
  end.

(** [v < k] and [v > k] for an integer literal [k]; the source evaluates
    them only behind [!Number.isInteger(v) ||], that is on finite numbers. *)
Definition lt_lit (v : JsValue) (k : Z) : bool :=
  match v with
  | JNum (Finite q) => negb (Qle_bool (inject_Z k) q)
  | JNum NegInfinity => true
  | _ => false
  end.

Definition gt_lit (v : JsValue) (k : Z) : bool :=
  match v with
  | JNum (Finite q) => negb (Qle_bool q (inject_Z k))
  | JNum PosInfinity => true
  | _ => false
  end.

(** White space and line terminators stripped by [String.prototype.trim],
    among the code units a [string] of this development can hold
    (U+0000..U+00FF): TAB, LF, VT, FF, CR, SPACE and NBSP. *)
Definition isWhiteSpace (c : ascii) : bool :=
  let n := nat_of_ascii c in
  existsb (Nat.eqb n) [9; 10; 11; 12; 13; 32; 160]%nat.

Fixpoint trimStart (s : string) : string :=
  match s with
  | EmptyString => EmptyString
  | String c rest => if isWhiteSpace c then trimStart rest else s
  end.

Fixpoint trimEnd (s : string) : string :=
  match s with
  | EmptyString => EmptyString
  | String c rest =>
      match trimEnd rest with
      | EmptyString => if isWhiteSpace c then EmptyString else String c EmptyString
      | t => String c t
      end
  end.

Definition trim (s : string) : string := trimEnd (trimStart s).

Fixpoint all_white (s : string) : bool :=
  match s with
  | EmptyString => true
  | String c rest => isWhiteSpace c && all_white rest
  end.

End Js.
Import Js.

(** ** [types.ts]: data types, constants and runtime validators *)

Module Types.

Record Author : Type := { name : string }.

(** [interface Paper]; the citation count is integral (it is read from the
    [citation_count INTEGER] column). *)
Record Paper : Type := {
  id : string;
  arxivId : string;
  title : string;
  abstract : string;
  authors : list Author;
  categories : list string;
  primaryCategory : string;
  submittedDate : string;
  citationCount : Z;
  pdfUrl : string;
  abstractUrl : string
}.

(** [interface FeaturedPaperEntry]; [category?] is optional. *)
Record FeaturedPaperEntry : Type := {
  paper : Paper;
  featuredDate : string;
  category : option string
}.

(** [interface PaginationMeta], as [types.ts] declares it. *)
Record PaginationMeta : Type := {
  page : Z;
  limit : Z;
  total : Z;
  hasNext : bool
}.

Record HistoryResponse : Type := {
  papers : list FeaturedPaperEntry;
  pagination : PaginationMeta
}.

(** [interface ValidationError] *)
Record ValidationError : Type := {
  v_message : string;
  v_field : option string;
  v_value : JsValue
}.

Definition DEFAULT_PAGE_SIZE : Z := 20.
Definition MAX_PAGE_SIZE : Z := 100.
Definition DEFAULT_ERROR_RETRY_COUNT : Z := 3.
Definition DEFAULT_ERROR_RETRY_INTERVAL : Z := 1000.

(** The JSON bodies these records are serialised to. *)
Definition author_json (a : Author) : JsValue :=
  JObj [("name", JStr (name a))].

Definition paper_json (p : Paper) : JsValue :=
  JObj [("id", JStr (id p));
        ("arxivId", JStr (arxivId p));
        ("title", JStr (title p));
        ("abstract", JStr (abstract p));
        ("authors", JArr (map author_json (authors p)));
        ("categories", JArr (map JStr (categories p)));
        ("primaryCategory", JStr (primaryCategory p));
        ("submittedDate", JStr (submittedDate p));
        ("citationCount", of_Z (citationCount p));
        ("pdfUrl", JStr (pdfUrl p));
        ("abstractUrl", JStr (abstractUrl p))].

Definition entry_json (e : FeaturedPaperEntry) : JsValue :=
  JObj ([("paper", paper_json (paper e));
         ("featuredDate", JStr (featuredDate e))]
        ++ match category e with
           | Some c => [("category", JStr c)]
           | None => []
           end).

Definition pagination_json (m : PaginationMeta) : JsValue :=
  JObj [("page", of_Z (page m));
        ("limit", of_Z (limit m));
        ("total", of_Z (total m));
        ("hasNext", JBool (hasNext m))].

Definition history_json (r : HistoryResponse) : JsValue :=
  JObj [("papers", JArr (map entry_json (papers r)));
        ("pagination", pagination_json (pagination r))].

(** The history body exactly as the Read API contract of [project_info.md]
    (section 5.1) lists it: [pagination: {page, limit, total}]. *)
Definition contract_pagination_json (pg lim tot : Z) : JsValue :=
  JObj [("page", of_Z pg); ("limit", of_Z lim); ("total", of_Z tot)].

Definition contract_history_json
    (es : list FeaturedPaperEntry) (pg lim tot : Z) : JsValue :=
  JObj [("papers", JArr (map entry_json es));
        ("pagination", contract_pagination_json pg lim tot)].

Definition is_type (v : JsValue) (t : JsType) : bool := JsType_eqb (typeof v) t.

(** [validatePaper] *)
Definition validatePaper (paper : JsValue) : bool :=
  if negb (truthy paper) || negb (is_type paper TObject) || is_null paper
  then false
  else
    let p := paper in
    is_type (get p "id") TString &&
    is_type (get p "arxivId") TString &&
    is_type (get p "title") TString &&
    is_type (get p "abstract") TString &&
    isArray (get p "authors") &&
    isArray (get p "categories") &&
    is_type (get p "primaryCategory") TString &&
    is_type (get p "submittedDate") TString &&
    is_type (get p "citationCount") TNumber &&
    is_type (get p "pdfUrl") TString &&
    is_type (get p "abstractUrl") TString.

(** [validateTodayPaperResponse] *)
Definition validateTodayPaperResponse (response : JsValue) : bool :=
  if negb (truthy response) || negb (is_type response TObject) || is_null response
  then false
  else
    let r := response in
    validatePaper (get r "paper") && is_type (get r "featuredDate") TString.

(** The callback of [r.papers.every(...)]. *)
Definition validateEntry (entry : JsValue) : bool :=
  if negb (truthy entry) || negb (is_type entry TObject) || is_null entry
  then false
  else
    let e := entry in
    validatePaper (get e "paper") && is_type (get e "featuredDate") TString.

(** [validateHistoryResponse] *)
Definition validateHistoryResponse (response : JsValue) : bool :=
  if negb (truthy response) || negb (is_type response TObject) || is_null response
  then false
  else
    let r := response in
    if negb (has "papers" r) || negb (isArray (get r "papers")) then false
    else
      let papersValid := forallb validateEntry (items_of (get r "papers")) in
      if negb papersValid || negb (has "pagination" r)
         || negb (truthy (get r "pagination"))
         || negb (is_type (get r "pagination") TObject)
      then false
      else
        let p := get r "pagination" in
        is_type (get p "page") TNumber &&
        is_type (get p "limit") TNumber &&
        is_type (get p "total") TNumber &&
        is_type (get p "hasNext") TBoolean.

End Types.
Import Types.

(** ** [config.ts] and [client.ts]: the retrying HTTP client *)

Module Client.

(** What [parseInt] makes of an environment variable: an integer of either
    sign, or [NaN] when the text does not start with one. *)
Inductive ParsedInt : Type :=
| PInt (z : Z)
| PNaN.

(** [interface ApiConfig] as [config.ts] fills it. [retries] is
    [parseInt(API_RETRIES)] (default ['3']) and is not validated anywhere: it
    can be negative or [NaN]. [retryDelay] and [timeout] are milliseconds,
    taken here as integers. *)
Record ApiConfig : Type := {
  baseUrl : string;
  timeout : Z;
  retries : ParsedInt;
  retryDelay : Z
}.

Definition default_config : ApiConfig :=
  {| baseUrl := "http://localhost:8000"; timeout := 10000;
     retries := PInt 3; retryDelay := 1000 |}.

(** The three comparisons the client makes between the attempt counter and
    the retry count; a comparison with [NaN] is false. *)

(** [attempt >= retries] *)
Definition attempt_ge (attempt : nat) (retries : ParsedInt) : bool :=
  match retries with
  | PInt z => z <=? Z.of_nat attempt
  | PNaN => false
  end.

(** [attempt < retries + 1] *)
Definition attempt_lt_succ (attempt : nat) (retries : ParsedInt) : bool :=
  match retries with
  | PInt z => Z.of_nat attempt <? z + 1
  | PNaN => false
  end.

(** [attempt <= retries] *)
Definition attempt_le (attempt : nat) (retries : ParsedInt) : bool :=
  match retries with
  | PInt z => Z.of_nat attempt <=? z
  | PNaN => false
  end.

Inductive Method : Type := GET | POST | PUT | DELETE | PATCH.

(** [interface ApiRequest] *)
Record ApiRequest : Type := {
  url : string;
  method : Method;
  data : JsValue;
  params : JsValue;
  req_timeout : option Z
}.

(** [interface ApiResponse] (headers are not inspected anywhere). *)
Record ApiResponse : Type := {
  resp_data : JsValue;
  resp_status : Z
}.

(** What axios rejects with: [response] is absent when nothing was received
    (connection failure, or a timeout with [code = 'ECONNABORTED']). *)
Record AxiosError : Type := {
  ax_response : option (Z * JsValue);
  ax_code : option string;
  ax_message : string
}.

(** The transformed errors [request] catches: [ApiError | NetworkError]. *)
Inductive ClientError : Type :=
| NetworkError (message : string) (originalError : AxiosError)
| ApiError (status : Z) (code : option string) (details : JsValue).

Definition code_is (c : option string) (s : string) : bool :=
  match c with Some c' => String.eqb c' s | None => false end.

(** [transformError]; the text of an [ApiError] message plays no part in
    the control flow and is left out. *)
Definition transformError (error : AxiosError) : ClientError :=
  match ax_response error with
  | None =>
      NetworkError
        (if code_is (ax_code error) "ECONNABORTED"
         then "Request timeout. Please check your connection and try again."
         else "Network error. Please check your connection and try again.")
        error
  | Some (st, body) => ApiError st (ax_code error) body
  end.

(** [isApiError]: ['message' in error && 'status' in error]. *)
Definition isApiError (e : ClientError) : bool :=
  match e with ApiError _ _ _ => true | NetworkError _ _ => false end.

(** ['isNetworkError' in error && error.isNetworkError] *)
Definition isNetworkError (e : ClientError) : bool :=
  match e with NetworkError _ _ => true | ApiError _ _ _ => false end.

Definition retryableStatuses : list Z := [408; 429; 500; 502; 503; 504].

Definition includes (l : list Z) (x : Z) : bool := existsb (Z.eqb x) l.

Section WithConfig.

Variable config : ApiConfig.

Definition getRetryCount : ParsedInt := retries config.
Definition getRetryDelay : Z := retryDelay config.

(** [ApiClient.shouldRetry] *)
Definition shouldRetry (error : ClientError) (attempt : nat) : bool :=
  if attempt_ge attempt getRetryCount then false
  else
    match error with
    | ApiError st _ _ => includes retryableStatuses st
    | NetworkError _ _ => isNetworkError error
    end.

(** [ApiClient.calculateRetryDelay], with the value drawn from
    [Math.random()] passed in as [rnd]. *)
Definition calculateRetryDelay (rnd : Q) (attempt : nat) : Q :=
  let baseDelay := inject_Z getRetryDelay in
  let exponentialDelay := (baseDelay * Qpower 2 (Z.of_nat attempt - 1))%Q in
  let jitter := (rnd * (1 # 10) * exponentialDelay)%Q in
  Qmin (exponentialDelay + jitter)%Q (inject_Z 30000).

End WithConfig.

(** [isRetryableError] (the exported helper). *)
Definition isRetryableError (e : ClientError) : bool :=
  match e with
  | ApiError st _ _ => includes retryableStatuses st
  | NetworkError _ _ => true
  end.

(** What [axios.create(...).request(axiosConfig)] is handed. *)
Record AxiosRequestConfig : Type := {
  ax_url : string;
  ax_method : Method;
  ax_data : JsValue;
  ax_params : JsValue;
  ax_timeout : Z
}.

(** The world outside the client: [server k c] is the fate of the [k]-th
    send (counted from 0) when it carries [c]; [random k] is the [k]-th value
    of [Math.random()]. The client's effects are recorded in [sent] (one entry
    per send) and [slept] (one entry, in milliseconds, per back-off sleep). *)
Record Net : Type := {
  server : nat -> AxiosRequestConfig -> AxiosError + ApiResponse;
  random : nat -> Q;
  sent : list AxiosRequestConfig;
  slept : list Q
}.

(** Everything a query can throw. [UndefinedExn] is [throw lastError!] with
    [lastError] never assigned. *)
Inductive Exn : Type :=
| ClientExn (e : ClientError)
| ValidationExn (e : ValidationError)
| UndefinedExn.

Inductive Outcome (A : Type) : Type :=
| Return (a : A)
| Throw (e : Exn).
Arguments Return {A} a.
Arguments Throw {A} e.

(** [this.axiosInstance.request(axiosConfig)]: one send; a rejection goes
    through the response interceptor, that is through [transformError]. *)
Definition axios_request (c : AxiosRequestConfig) (net : Net)
  : (ClientError + ApiResponse) * Net :=
  let net' := {| server := server net; random := random net;
                 sent := sent net ++ [c]; slept := slept net |} in
  match server net (length (sent net)) c with
  | inl err => (inl (transformError err), net')
  | inr resp => (inr resp, net')
  end.

Definition sleep (ms : Q) (net : Net) : Net :=
  {| server := server net; random := random net;
     sent := sent net; slept := slept net ++ [ms] |}.

Definition thrown_last (lastError : option ClientError) : Exn :=
  match lastError with Some e => ClientExn e | None => UndefinedExn end.

Section Request.

Variable config : ApiConfig.

(** [request.timeout || config.api.timeout] *)
Definition axiosConfig_of (request : ApiRequest) : AxiosRequestConfig :=
  {| ax_url := url request;
     ax_method := method request;
     ax_data := data request;
     ax_params := params request;
     ax_timeout := match req_timeout request with
                   | Some t => if Z.eqb t 0 then timeout config else t
                   | None => timeout config
                   end |}.

(** The [while (attempt < this.getRetryCount() + 1)] loop of
    [ApiClient.request]. [attempt] grows by one per iteration, so the loop is
    unrolled at most [remaining] more times; [request] starts it with
    [attempt = 0] and as many unrollings as the test can pass ([iterations]),
    and the loop test is still evaluated at every iteration. Leaving the loop
    reaches [throw lastError!], which throws [undefined] when no send was
    made. *)
Fixpoint request_loop (remaining : nat) (axiosConfig : AxiosRequestConfig)
    (attempt : nat) (lastError : option ClientError) (net : Net)
  : Outcome ApiResponse * Net :=
  match remaining with
  | O => (Throw (thrown_last lastError), net)
  | S remaining' =>
      if attempt_lt_succ attempt (getRetryCount config) then
        match axios_request axiosConfig net with
        | (inr response, net1) => (Return response, net1)
        | (inl transformedError, net1) =>
            let attempt' := S attempt in
            if negb (shouldRetry config transformedError attempt')
            then (Throw (ClientExn transformedError), net1)
            else
              let net2 :=
                if attempt_le attempt' (getRetryCount config)
                then sleep (calculateRetryDelay config
                              (random net1 (length (slept net1))) attempt') net1
                else net1 in
              request_loop remaining' axiosConfig attempt'
                           (Some transformedError) net2
        end
      else (Throw (thrown_last lastError), net)
  end.

(** How often [attempt < retries + 1] can hold as [attempt] counts up from
    [0]: never when the retry count is negative or [NaN]. *)
Definition iterations (retries : ParsedInt) : nat :=
  match retries with
  | PInt z => Z.to_nat (z + 1)
  | PNaN => O
  end.

(** [ApiClient.request] *)
Definition request (req : ApiRequest) (net : Net) : Outcome ApiResponse * Net :=
  request_loop (iterations (getRetryCount config)) (axiosConfig_of req)
               0 None net.

(** [ApiClient.get] *)
Definition get_ (url : string) (params : JsValue) (net : Net)
  : Outcome ApiResponse * Net :=
  request {| url := url; method := GET; data := JUndefined;
             params := params; req_timeout := None |} net.

End Request.

End Client.
Import Client.

(** ** [queries.ts]: parameter validation and the history query *)

Module Queries.

(** [API_ENDPOINTS.HISTORY] *)
Definition HISTORY : string := "/api/paper/history".

(** [interface HistoryQueryParams] as a caller can populate it at run time:
    each field holds any value, [JUndefined] when omitted. *)
Record HistoryQueryParams : Type := {
  hp_page : JsValue;
  hp_limit : JsValue;
  hp_category : JsValue
}.

Definition no_params : HistoryQueryParams :=
  {| hp_page := JUndefined; hp_limit := JUndefined; hp_category := JUndefined |}.

Definition page_error (v : JsValue) : ValidationError :=
  {| v_message := "Page must be a positive integer";
     v_field := Some "page"; v_value := v |}.

Definition limit_error (v : JsValue) : ValidationError :=
  {| v_message := "Limit must be between 1 and 100";
     v_field := Some "limit"; v_value := v |}.

Definition category_error (v : JsValue) : ValidationError :=
  {| v_message := "Category must be a non-empty string";
     v_field := Some "category"; v_value := v |}.

(** [typeof c !== 'string' || c.trim().length === 0] *)
Definition blank_category (c : JsValue) : bool :=
  match c with
  | JStr s => Nat.eqb (String.length (trim s)) 0
  | _ => true
  end.

Definition trimmed (c : JsValue) : JsValue :=
  match c with JStr s => JStr (trim s) | _ => c end.

(** [validateHistoryParams]; [None] is a call without [params]. *)
Definition validateHistoryParams (params : option HistoryQueryParams)
  : ValidationError + HistoryQueryParams :=
  match params with
  | None => inr no_params
  | Some params =>
      if negb (is_undefined (hp_page params))
         && (negb (isInteger (hp_page params)) || lt_lit (hp_page params) 1)
      then inl (page_error (hp_page params))
      else
        if negb (is_undefined (hp_limit params))
           && (negb (isInteger (hp_limit params)) || lt_lit (hp_limit params) 1
               || gt_lit (hp_limit params) MAX_PAGE_SIZE)
        then inl (limit_error (hp_limit params))
        else
          if negb (is_undefined (hp_category params))
             && blank_category (hp_category params)
          then inl (category_error (hp_category params))
          else
            inr {| hp_page := hp_page params;
                   hp_limit := hp_limit params;
                   hp_category := trimmed (hp_category params) |}
  end.

(** [createValidationError] *)
Definition createValidationError (message : string) (data : JsValue)
  : ValidationError :=
  {| v_message := message; v_field := None; v_value := data |}.

(** [a || b] on values. *)
Definition or_else (a b : JsValue) : JsValue := if truthy a then a else b.

(** The [queryParams] object literal of [historyQuery]. *)
Definition queryParams_of (validatedParams : HistoryQueryParams) : JsValue :=
  JObj ([("page", or_else (hp_page validatedParams) (of_Z 1));
         ("limit", or_else (hp_limit validatedParams) (of_Z DEFAULT_PAGE_SIZE))]
        ++ (if truthy (hp_category validatedParams)
            then [("category", hp_category validatedParams)]
            else [])).

Section WithConfig.

Variable config : ApiConfig.

(** [historyQuery] *)
Definition historyQuery (params : option HistoryQueryParams) (net : Net)
  : Outcome JsValue * Net :=
  match validateHistoryParams params with
  | inl e => (Throw (ValidationExn e), net)
  | inr validatedParams =>
      let queryParams := queryParams_of validatedParams in
      match get_ config HISTORY queryParams net with
      | (Throw e, net') => (Throw e, net')
      | (Return response, net') =>
          if negb (validateHistoryResponse (resp_data response))
          then (Throw (ValidationExn
                         (createValidationError "Invalid history response format"
                                                (resp_data response))), net')
          else (Return (resp_data response), net')
      end
  end.

End WithConfig.

End Queries.
Import Queries.

(** ** The daily selection algorithm ([project_info.md], section 7.1) *)

Module Selection.

Record CalendarDate : Type := { year : Z; month : Z; day : Z }.

#[global] Instance CalendarDate_eq_dec : EqDecision CalendarDate.
Proof. solve_decision. Defined.

#[global] Instance CalendarDate_countable : Countable CalendarDate.
Proof.
  refine (inj_countable' (fun d => (year d, month d, day d))
                         (fun t => {| year := t.1.1; month := t.1.2; day := t.2 |}) _).
  intros []; reflexivity.
Defined.

Definition is_leap_year (y : Z) : bool :=
  (y mod 4 =? 0) && (negb (y mod 100 =? 0) || (y mod 400 =? 0)).

(** Modelled from the spec: the body of [windowDates] (the backend's
    [get_last_10_years_dates]) is not among the sources, only its
    description is. For target month/day (M, D) in year Y the candidate for
    year Y - i is (Y - i, M, D), except that February 29 becomes February 28
    when Y - i is not a leap year. *)
Definition candidate_date (targetDate : CalendarDate) (y : Z) : CalendarDate :=
  if (month targetDate =? 2) && (day targetDate =? 29) && negb (is_leap_year y)
  then {| year := y; month := 2; day := 28 |}
  else {| year := y; month := month targetDate; day := day targetDate |}.

(** Modelled from the spec: [windowDates(targetDate, yearsBack)] lists the
    candidates for the years Y-1, Y-2, ..., Y-yearsBack, in that order. *)
Definition windowDates (targetDate : CalendarDate) (yearsBack : nat)
  : list CalendarDate :=
  map (fun i => candidate_date targetDate (year targetDate - Z.of_nat i))
      (seq 1 yearsBack).

Definition days_in_month (y m : Z) : Z :=
  if m =? 2 then (if is_leap_year y then 29 else 28)
  else if (m =? 4) || (m =? 6) || (m =? 9) || (m =? 11) then 30
  else 31.

Definition valid_date (d : CalendarDate) : bool :=
  (1 <=? month d) && (month d <=? 12) && (1 <=? day d)
  && (day d <=? days_in_month (year d) (month d)).

(** A reference as JavaScript hands it around: an object, [null], or
    [undefined] (what indexing an array out of range yields). *)
Inductive Ref (A : Type) : Type :=
| RUndefined
| RNull
| RObj (a : A).
Arguments RUndefined {A}.
Arguments RNull {A}.
Arguments RObj {A} a.

Definition ref_truthy {A} (r : Ref A) : bool :=
  match r with RObj _ => true | _ => false end.

(** [arr[i]] *)
Definition index {A} (arr : list A) (i : Z) : Ref A :=
  if i <? 0 then RUndefined
  else match nth_error arr (Z.to_nat i) with
       | Some a => RObj a
       | None => RUndefined
       end.

(** [arr.slice(0, n)] *)
Definition slice0 {A} (n : nat) (arr : list A) : list A := firstn n arr.

(** [Array.prototype.sort(compareFn)]. The sort is stable, and [a] stays in
    front of [b] unless [compareFn(a, b) > 0]; for a comparator that orders
    by a key this fixes the result, which is the one computed here by
    inserting each element in front of the sorted rest. *)
Section Sort.

Context {A : Type} (compareFn : A -> A -> Z).

Fixpoint insert_sorted (a : A) (l : list A) : list A :=
  match l with
  | [] => [a]
  | b :: rest =>
      if compareFn a b <=? 0 then a :: b :: rest
      else b :: insert_sorted a rest
  end.

Fixpoint sort (l : list A) : list A :=
  match l with
  | [] => []
  | a :: rest => insert_sorted a (sort rest)
  end.

End Sort.

(** [(a, b) => b.citationCount - a.citationCount] *)
Definition byCitationsDesc (a b : Paper) : Z := citationCount b - citationCount a.

(** Step 5 of [selectDailyPaper]: [.sort(...).slice(0, 10)]. *)
Definition rank (enrichedPapers : list Paper) : list Paper :=
  slice0 10 (sort byCitationsDesc enrichedPapers).

(** One row of [daily_featured_papers]. *)
Record FeaturedSelection : Type := {
  feature_date : CalendarDate;
  fs_category : option string;
  fs_paper : Paper;
  rank_in_day : nat
}.

(** What is kept for one (feature date, category) key: the ranked rows and
    the paper chosen at selection time. *)
Record Selection : Type := {
  shortlist : list FeaturedSelection;
  chosen : Ref Paper
}.

(** The persistent state, with counters for the effects performed. *)
Record Db : Type := {
  featured : gmap (CalendarDate * option string) Selection;
  fetches : nat;
  writes : nat;
  draws : nat
}.

Definition empty_db : Db :=
  {| featured := ∅; fetches := 0; writes := 0; draws := 0 |}.

(** Modelled from the spec: the rows of one shortlist, ranked [r], [r+1],
    ... in shortlist order (the writer, [cacheDailySelection], is not defined
    in the sources). *)
Fixpoint rows_from (r : nat) (date : CalendarDate) (category : option string)
    (topPapers : list Paper) : list FeaturedSelection :=
  match topPapers with
  | [] => []
  | p :: rest =>
      {| feature_date := date; fs_category := category;
         fs_paper := p; rank_in_day := r |} :: rows_from (S r) date category rest
  end.

(** Modelled from the spec: the rows of one (feature date, category) key
    live in a table with [UNIQUE(feature_date, category, paper_id)]; within
    one key two rows collide when they hold the same paper, a paper being
    identified by its external identifier. *)
Definition same_paper (a b : FeaturedSelection) : bool :=
  String.eqb (arxivId (fs_paper a)) (arxivId (fs_paper b)).

(** Modelled from the spec: rows are written one after the other, and a row
    whose paper already has a row under the key is not written (the second
    write is a no-op). *)
Fixpoint insert_rows (rows table : list FeaturedSelection)
  : list FeaturedSelection :=
  match rows with
  | [] => table
  | r :: rest =>
      if existsb (same_paper r) table then insert_rows rest table
      else insert_rows rest (table ++ [r])
  end.

Section Engine.

(** The two providers and the random source the pipeline consults. *)
Variable arxiv : CalendarDate -> option string -> list Paper.
Variable citations : string -> option Z.
Variable random : nat -> Q.

(** Modelled from the spec: [getCachedPaper] is declared
    ([Promise<Paper | null>]) but not defined in the sources. If a selection
    exists for the key it yields the paper chosen then, otherwise [null]; it
    only reads. *)
Definition getCachedPaper (date : CalendarDate) (category : option string)
    (db : Db) : Ref Paper :=
  match featured db !! (date, category) with
  | Some sel => match chosen sel with RObj p => RObj p | _ => RNull end
  | None => RNull
  end.

(** Modelled from the spec: [getLast10YearsDateRanges] is the window
    calculator with the fixed ten-year lookback. *)
Definition getLast10YearsDateRanges (date : CalendarDate) : list CalendarDate :=
  windowDates date 10.

(** Modelled from the spec: [fetchPapersFromDateRanges] asks the
    bibliographic provider once per candidate date and accumulates the
    results. *)
Definition fetchPapersFromDateRanges (dateRanges : list CalendarDate)
    (category : option string) (db : Db) : list Paper * Db :=
  (concat (map (fun d => arxiv d category) dateRanges),
   {| featured := featured db; fetches := fetches db + length dateRanges;
      writes := writes db; draws := draws db |}).

(** Modelled from the spec: one paper after enrichment; the count found for
    its identifier replaces the one it carries. *)
Definition with_citations (p : Paper) : Paper :=
  match citations (arxivId p) with
  | Some n =>
      {| id := id p; arxivId := arxivId p; title := title p;
         abstract := abstract p; authors := authors p;
         categories := categories p; primaryCategory := primaryCategory p;
         submittedDate := submittedDate p; citationCount := n;
         pdfUrl := pdfUrl p; abstractUrl := abstractUrl p |}
  | None => p
  end.

(** Modelled from the spec: [enrichWithCitations] looks every paper up by
    identifier; a paper the citation provider does not know keeps its
    count. *)
Definition enrichWithCitations (papers : list Paper) : list Paper :=
  map with_citations papers.

(** Modelled from the spec: [cacheDailySelection] writes the rows for ranks
    1, 2, ... in shortlist order, under the uniqueness constraint, together
    with the chosen paper, replacing in one step whatever the key held. *)
Definition cacheDailySelection (date : CalendarDate) (category : option string)
    (topPapers : list Paper) (selectedPaper : Ref Paper) (db : Db) : Db :=
  {| featured := <[(date, category) :=
                     {| shortlist :=
                          insert_rows (rows_from 1 date category topPapers) [];
                        chosen := selectedPaper |}]> (featured db);
     fetches := fetches db; writes := S (writes db); draws := draws db |}.

(** [Math.random()] *)
Definition Math_random (db : Db) : Q * Db :=
  (random (draws db),
   {| featured := featured db; fetches := fetches db;
      writes := writes db; draws := S (draws db) |}).

(** [selectDailyPaper] *)
Definition selectDailyPaper (date : CalendarDate) (category : option string)
    (db : Db) : Ref Paper * Db :=
  let cached := getCachedPaper date category db in
  if ref_truthy cached then (cached, db)
  else
    let dateRanges := getLast10YearsDateRanges date in
    let '(papers, db1) := fetchPapersFromDateRanges dateRanges category db in
    let enrichedPapers := enrichWithCitations papers in
    let topPapers := rank enrichedPapers in
    let '(r, db2) := Math_random db1 in
    let selectedPaper :=
      index topPapers (Qfloor (r * inject_Z (Z.of_nat (length topPapers)))) in
    let db3 := cacheDailySelection date category topPapers selectedPaper db2 in
    (selectedPaper, db3).

(** The candidate set the rank step receives for a key. *)
Definition candidates (date : CalendarDate) (category : option string)
  : list Paper :=
  enrichWithCitations
    (concat (map (fun d => arxiv d category) (getLast10YearsDateRanges date))).

End Engine.

(** ** The [papers] table ([project_info.md], section 4.1) *)

(** The columns the claims are about: [arxiv_id VARCHAR(50) UNIQUE NOT NULL]
    and [citation_count INTEGER DEFAULT 0] (no CHECK constraint). *)
Record PaperRow : Type := {
  arxiv_id : string;
  citation_count : Z
}.

(** [INSERT INTO papers (arxiv_id [, citation_count])]: a missing count takes
    the column default. *)
Definition insert_row (aid : string) (count : option Z) : PaperRow :=
  {| arxiv_id := aid;
     citation_count := match count with Some n => n | None => 0 end |}.

End Selection.
Import Selection.

(** ** Vocabulary of the statements and example data *)

Definition ok_response : ApiResponse := {| resp_data := JNull; resp_status := 200 |}.

Definition status_error (st : Z) : AxiosError :=
  {| ax_response := Some (st, JNull); ax_code := Some "ERR_BAD_REQUEST";
     ax_message := "Request failed" |}.

(** A server that answers the first send with [first] and succeeds after. *)
Definition fails_once (first : AxiosError) : Net :=
  {| server := fun k _ => match k with O => inl first | S _ => inr ok_response end;
     random := fun _ => 0%Q; sent := []; slept := [] |}.

Definition health_request : ApiRequest :=
  {| url := "/health"; method := GET; data := JUndefined;
     params := JUndefined; req_timeout := None |}.

(** The request [historyQuery] hands to the client for given validated
    parameters. *)
Definition history_request (config : ApiConfig) (validated : HistoryQueryParams)
  : AxiosRequestConfig :=
  {| ax_url := HISTORY; ax_method := GET; ax_data := JUndefined;
     ax_params := queryParams_of validated; ax_timeout := timeout config |}.

Definition sample_paper (count : Z) : Paper :=
  {| id := "1"; arxivId := "1706.03762"; title := "Attention Is All You Need";
     abstract := "The dominant sequence transduction models";
     authors := [{| name := "Ashish Vaswani" |}];
     categories := ["cs.CL"; "cs.AI"]; primaryCategory := "cs.CL";
     submittedDate := "2017-06-12"; citationCount := count;
     pdfUrl := "https://arxiv.org/pdf/1706.03762.pdf";
     abstractUrl := "https://arxiv.org/abs/1706.03762" |}.

Definition sample_entry : FeaturedPaperEntry :=
  {| paper := sample_paper 45678; featuredDate := "2024-01-15";
     category := Some "cs.AI" |}.

Definition sample_history : HistoryResponse :=
  {| papers := [sample_entry];
     pagination := {| page := 1; limit := 20; total := 100; hasNext := true |} |}.

(** A server that answers every send with the body [body]. *)
Definition always_answers (body : JsValue) : Net :=
  {| server := fun _ _ => inr {| resp_data := body; resp_status := 200 |};
     random := fun _ => 0%Q; sent := []; slept := [] |}.

(** The parameter conditions, worded as the specification words them. *)
Definition integer_between (v : JsValue) (lo : Z) (hi : option Z) : Prop :=
  exists (q : Q) (z : Z),
    v = JNum (Finite q) /\ (q == inject_Z z)%Q /\ lo <= z /\
    match hi with Some h => z <= h | None => True end.

Definition page_ok (v : JsValue) : Prop :=
  v = JUndefined \/ integer_between v 1 None.

Definition limit_ok (v : JsValue) : Prop :=
  v = JUndefined \/ integer_between v 1 (Some 100).

Definition blank_string (v : JsValue) : Prop :=
  exists s, v = JStr s /\ all_white s = true.

Definition category_ok (v : JsValue) : Prop :=
  v = JUndefined \/ exists s, v = JStr s /\ all_white s = false.

Definition params_ok (params : option HistoryQueryParams) : Prop :=
  match params with
  | None => True
  | Some p => page_ok (hp_page p) /\ limit_ok (hp_limit p) /\ category_ok (hp_category p)
  end.

Definition param (f : HistoryQueryParams -> JsValue)
    (params : option HistoryQueryParams) : JsValue :=
  match params with Some p => f p | None => JUndefined end.

Definition or_default (v : JsValue) (d : Z) : JsValue :=
  if is_undefined v then of_Z d else v.

Definition validated_of (params : option HistoryQueryParams) : HistoryQueryParams :=
  match params with
  | None => no_params
  | Some p => {| hp_page := hp_page p; hp_limit := hp_limit p;
                 hp_category := trimmed (hp_category p) |}
  end.

Definition page_zero : HistoryQueryParams :=
  {| hp_page := of_Z 0; hp_limit := JUndefined; hp_category := JUndefined |}.

(** [a] may stand in front of [b]: its citation count is not smaller. *)
Definition cited_at_least (a b : Paper) : Prop := citationCount b <= citationCount a.

Definition cited (v : Z) (p : Paper) : bool := citationCount p =? v.

Definition paper_of (aid : string) (count : Z) : Paper :=
  {| id := aid; arxivId := aid; title := "t"; abstract := "a";
     authors := []; categories := ["cs.AI"]; primaryCategory := "cs.AI";
     submittedDate := "2017-06-12"; citationCount := count;
     pdfUrl := "p"; abstractUrl := "u" |}.

(** Providers for the examples: two papers on every candidate date of the
    cross-category search, none for a category; no citation data. *)
Definition two_per_date (d : CalendarDate) (c : option string) : list Paper :=
  match c with
  | None => [paper_of "a" (year d); paper_of "b" (year d + 100)]
  | Some _ => []
  end.

Definition no_citations (aid : string) : option Z := None.

Definition first_always (k : nat) : Q := 0%Q.

Definition june_12_2024 : CalendarDate := {| year := 2024; month := 6; day := 12 |}.





(** Retry budget is left after failed attempt number [attempt]: the test
    [attempt >= retries] of [shouldRetry] is false. *)
Definition budget_left (attempt : nat) (retries : ParsedInt) : Prop :=
  match retries with
  | PInt z => Z.of_nat attempt < z
  | PNaN => True
  end.

(** The retry count is one the loop can count up to: an integer that is not
    negative. *)
Definition counts_retries (retries : ParsedInt) : Prop :=
  exists z, retries = PInt z /\ 0 <= z.

(** The most sends one request can make: max(1, retries) for a retry count
    that is a non-negative integer, none for a negative one or [NaN]. *)
Definition max_sends (retries : ParsedInt) : nat :=
  match retries with
  | PInt z => if z <? 0 then 0%nat else Nat.max 1 (Z.to_nat z)
  | PNaN => 0%nat
  end.

(** A failure the retry policy lists: nothing was received (a network error
    or a timeout), or the response has one of the listed statuses. *)
Definition listed_failure (err : AxiosError) : Prop :=
  ax_response err = None \/
  exists st body, ax_response err = Some (st, body)
                  /\ In st [408; 429; 500; 502; 503; 504].

(** A configuration whose retry count is what [parseInt] makes of [-2]. *)
Definition config_minus_2 : ApiConfig :=
  {| baseUrl := "http://localhost:8000"; timeout := 10000;
     retries := PInt (-2); retryDelay := 1000 |}.

(** The shape of an acceptable history body, worded as the (amended)
    specification words it: a non-null object. *)
Definition is_object (v : JsValue) : Prop := typeof v = TObject /\ v <> JNull.

Definition is_array (v : JsValue) : Prop := exists items, v = JArr items.

(** A paper with its eleven fields, each of its declared type. *)
Definition paper_shape (v : JsValue) : Prop :=
  is_object v /\
  typeof (get v "id") = TString /\
  typeof (get v "arxivId") = TString /\
  typeof (get v "title") = TString /\
  typeof (get v "abstract") = TString /\
  is_array (get v "authors") /\
  is_array (get v "categories") /\
  typeof (get v "primaryCategory") = TString /\
  typeof (get v "submittedDate") = TString /\
  typeof (get v "citationCount") = TNumber /\
  typeof (get v "pdfUrl") = TString /\
  typeof (get v "abstractUrl") = TString.

(** An entry [{paper, featuredDate, category?}]. *)
Definition entry_shape (v : JsValue) : Prop :=
  is_object v /\ paper_shape (get v "paper") /\
  typeof (get v "featuredDate") = TString.

(** [{papers: [...], pagination: {page, limit, total, hasNext}}] with numeric
    [page], [limit], [total] and a boolean [hasNext]. *)
Definition history_shape (v : JsValue) : Prop :=
  is_object v /\
  (exists entries, get v "papers" = JArr entries /\ Forall entry_shape entries) /\
  is_object (get v "pagination") /\
  typeof (get (get v "pagination") "page") = TNumber /\
  typeof (get (get v "pagination") "limit") = TNumber /\
  typeof (get (get v "pagination") "total") = TNumber /\
  typeof (get (get v "pagination") "hasNext") = TBoolean.

(** A history body whose [total] is not an integer. *)
Definition half_total_history : JsValue :=
  JObj [("papers", JArr [entry_json sample_entry]);
        ("pagination",
         JObj [("page", of_Z 1); ("limit", of_Z 20);
               ("total", JNum (Finite (201 # 2))); ("hasNext", JBool true)])].

(** ** Further functions of the API layer *)

(** The [switch (error.response?.status)] of [getErrorMessage]. *)
Definition status_text (st : Z) : option string :=
  if st =? 400 then Some "Bad request. Please check your input and try again."
  else if st =? 401 then Some "Unauthorized. Please check your credentials."
  else if st =? 403
       then Some "Forbidden. You do not have permission to access this resource."
  else if st =? 404
       then Some "Resource not found. The requested item does not exist."
  else if st =? 408 then Some "Request timeout. Please try again."
  else if st =? 429
       then Some "Too many requests. Please wait a moment and try again."
  else if st =? 500 then Some "Internal server error. Please try again later."
  else if st =? 502
       then Some "Bad gateway. The server is temporarily unavailable."
  else if st =? 503 then Some "Service unavailable. Please try again later."
  else if st =? 504 then Some "Gateway timeout. Please try again later."
  else None.

(** ['k' in data && typeof data.k === 'string'], yielding [data.k]. *)
Definition string_field (k : string) (data : JsValue) : option string :=
  if has k data
  then match get data k with JStr s => Some s | _ => None end
  else None.

(** The first part of [getErrorMessage]: what the response body supplies. *)
Definition body_message (data : JsValue) : option string :=
  if truthy data then
    match data with
    | JStr s => Some s
    | _ =>
        if is_type data TObject && negb (is_null data) then
          match string_field "message" data with
          | Some s => Some s
          | None =>
              match string_field "error" data with
              | Some s => Some s
              | None => string_field "detail" data
              end
          end
        else None
    end
  else None.

(** [ApiClient.getErrorMessage] *)
Definition getErrorMessage (error : AxiosError) : string :=
  match match ax_response error with
        | Some (_, data) => body_message data
        | None => None
        end with
  | Some s => s
  | None =>
      match match ax_response error with
            | Some (st, _) => status_text st
            | None => None
            end with
      | Some s => s
      | None =>
          if String.eqb (ax_message error) ""
          then "An unexpected error occurred."
          else ax_message error
      end
  end.

(** A value of type [unknown] as the error helpers meet it: a plain value,
    or an instance of [Error] with its own properties ([Error.prototype]
    supplies [message] to every instance). *)
Inductive Unknown : Type :=
| Plain (v : JsValue)
| ErrorInstance (own : list (string * JsValue)).

Definition u_truthy (u : Unknown) : bool :=
  match u with Plain v => truthy v | ErrorInstance _ => true end.

Definition u_is_object (u : Unknown) : bool :=
  match u with
  | Plain v => is_type v TObject && negb (is_null v)
  | ErrorInstance _ => true
  end.

Definition u_has (k : string) (u : Unknown) : bool :=
  match u with
  | Plain v => has k v
  | ErrorInstance own =>
      has k (JObj own) || String.eqb k "message" || String.eqb k "name"
  end.

Definition u_get (u : Unknown) (k : string) : JsValue :=
  match u with
  | Plain v => get v k
  | ErrorInstance own =>
      if has k (JObj own) then get (JObj own) k
      else if String.eqb k "message" then JStr ""
      else if String.eqb k "name" then JStr "Error"
      else JUndefined
  end.

Definition u_instanceof_Error (u : Unknown) : bool :=
  match u with ErrorInstance _ => true | Plain _ => false end.

(** [x === true] *)
Definition is_true (v : JsValue) : bool :=
  match v with JBool true => true | _ => false end.

(** [isApiError] of [types.ts], on any value. *)
Definition isApiError_u (error : Unknown) : bool :=
  u_truthy error && u_is_object error
  && u_has "message" error && u_has "status" error.

(** [isNetworkError] of [types.ts]. *)
Definition isNetworkError_u (error : Unknown) : bool :=
  u_truthy error && u_is_object error
  && u_has "isNetworkError" error && is_true (u_get error "isNetworkError").

(** [isValidationError] of [types.ts]. *)
Definition isValidationError_u (error : Unknown) : bool :=
  u_truthy error && u_is_object error
  && u_has "isValidationError" error && is_true (u_get error "isValidationError").

(** [retryableStatuses.includes(error.status)] ([SameValueZero] on numbers). *)
Definition includes_value (l : list Z) (v : JsValue) : bool :=
  match v with
  | JNum (Finite q) => existsb (fun z => Qeq_bool q (inject_Z z)) l
  | _ => false
  end.

(** [isRetryableError] of [client.ts], on any value. *)
Definition isRetryableError_u (error : Unknown) : bool :=
  if isApiError_u error
  then includes_value retryableStatuses (u_get error "status")
  else u_instanceof_Error error && u_has "isNetworkError" error.

(** [isRetryableApiError] of the package index. *)
Definition isRetryableApiError_u (error : Unknown) : bool :=
  if isApiError_u error
  then includes_value retryableStatuses (u_get error "status")
  else isNetworkError_u error.

(** [handleApiError] of [client.ts]; it yields [error.message]. *)
Definition handleApiError (error : Unknown) : JsValue :=
  if isApiError_u error then u_get error "message"
  else if u_instanceof_Error error then u_get error "message"
  else JStr "An unexpected error occurred.".

Definition opt_str (o : option string) : JsValue :=
  match o with Some s => JStr s | None => JUndefined end.

(** [transformError] with the objects it builds spelled out: a
    [NetworkError] is an [Error] instance carrying [isNetworkError] and
    [originalError] (the axios error, of which nothing is read later), an
    [ApiError] is the literal [{message, status, code, details}]. *)
Definition transformError_u (error : AxiosError) : Unknown :=
  match ax_response error with
  | None =>
      ErrorInstance
        [("message",
          JStr (if code_is (ax_code error) "ECONNABORTED"
                then "Request timeout. Please check your connection and try again."
                else "Network error. Please check your connection and try again."));
         ("isNetworkError", JBool true);
         ("originalError", JObj [("message", JStr (ax_message error));
                                 ("code", opt_str (ax_code error))])]
  | Some (st, body) =>
      Plain (JObj [("message", JStr (getErrorMessage error));
                   ("status", of_Z st);
                   ("code", opt_str (ax_code error));
                   ("details", body)])
  end.

(** The delay slept after the [i]-th failed send (counting from 0) of a
    loop entered at [attempt] in the state [net]: the [i]-th next value of
    [Math.random()] and the attempt number [attempt + 1 + i]. *)
Definition nth_delay (config : ApiConfig) (net : Net) (attempt i : nat) : Q :=
  calculateRetryDelay config (random net (length (slept net) + i)) (attempt + 1 + i).

(** A server that answers every send with status 503. *)
Definition server_down : Net :=
  {| server := fun _ _ => inl (status_error 503);
     random := fun _ => 0%Q; sent := []; slept := [] |}.

(** [ApiClient.healthCheck] *)
Definition healthCheck (config : ApiConfig) (net : Net) : bool * Net :=
  match request config {| url := "/health"; method := GET; data := JUndefined;
                          params := JUndefined; req_timeout := Some 5000 |} net with
  | (Return response, net') => (resp_status response =? 200, net')
  | (Throw _, net') => (false, net')
  end.

(** ** Further queries of [queries.ts] *)

Definition TODAY_PAPER : string := "/api/paper/today".
Definition CATEGORY_PAPER : string := "/api/paper/category".
Definition HEALTH : string := "/health".

(** [validateCategory] *)
Definition validateCategory (category : JsValue) : ValidationError + string :=
  match category with
  | JStr s =>
      if Nat.eqb (String.length (trim s)) 0 then inl (category_error category)
      else inr (trim s)
  | _ => inl (category_error category)
  end.

(** The characters [encodeURIComponent] leaves alone:
    [A-Z a-z 0-9 - _ . ! ~ * ' ( )]. *)
Definition is_unreserved (c : ascii) : bool :=
  let n := nat_of_ascii c in
  ((65 <=? n) && (n <=? 90) || (97 <=? n) && (n <=? 122)
   || (48 <=? n) && (n <=? 57)
   || existsb (Nat.eqb n) [45; 95; 46; 33; 126; 42; 39; 40; 41])%nat.

Definition hex_digit (d : nat) : ascii :=
  match String.get d "0123456789ABCDEF" with
  | Some c => c
  | None => "0"%char
  end.

(** [%XX] for the byte [b]. *)
Definition percent (b : nat) : string :=
  String "%" (String (hex_digit (b / 16)) (String (hex_digit (b mod 16)) EmptyString)).

(** One code unit under [encodeURIComponent]: kept, or the percent-escaped
    bytes of its UTF-8 form (one byte below U+0080, two from there to
    U+00FF). *)
Definition encode_unit (c : ascii) : string :=
  let n := nat_of_ascii c in
  if is_unreserved c then String c EmptyString
  else if (n <? 128)%nat then percent n
  else percent (192 + n / 64) ++ percent (128 + n mod 64).

(** [encodeURIComponent], on the strings of this development: code units
    U+0000..U+00FF, where the built-in never throws (it throws [URIError]
    only on a lone surrogate, a code unit no [string] here can hold). *)
Fixpoint encodeURIComponent (s : string) : string :=
  match s with
  | EmptyString => EmptyString
  | String c rest => encode_unit c ++ encodeURIComponent rest
  end.

Definition category_endpoint (validatedCategory : string) : string :=
  CATEGORY_PAPER ++ "/" ++ encodeURIComponent validatedCategory.

Section MoreQueries.

Variable config : ApiConfig.

(** [todayPaperQuery] *)
Definition todayPaperQuery (net : Net) : Outcome JsValue * Net :=
  match get_ config TODAY_PAPER JUndefined net with
  | (Throw e, net') => (Throw e, net')
  | (Return response, net') =>
      if negb (validateTodayPaperResponse (resp_data response))
      then (Throw (ValidationExn
                     (createValidationError "Invalid today paper response format"
                                            (resp_data response))), net')
      else (Return (resp_data response), net')
  end.

(** [categoryPaperQuery] *)
Definition categoryPaperQuery (category : JsValue) (net : Net)
  : Outcome JsValue * Net :=
  match validateCategory category with
  | inl e => (Throw (ValidationExn e), net)
  | inr validatedCategory =>
      let endpoint := category_endpoint validatedCategory in
      match get_ config endpoint JUndefined net with
      | (Throw e, net') => (Throw e, net')
      | (Return response, net') =>
          let d := resp_data response in
          if negb (truthy d) || negb (is_type d TObject)
          then (Throw (ValidationExn
                         (createValidationError
                            "Invalid category paper response format" d)), net')
          else
            if negb (truthy (get d "paper")) || negb (truthy (get d "category"))
               || negb (truthy (get d "featuredDate"))
            then (Throw (ValidationExn
                           (createValidationError
                              "Missing required fields in category paper response" d)),
                  net')
            else (Return d, net')
      end
  end.

(** The object [healthQuery] returns from its [catch]; [now] is
    [new Date().toISOString()]. *)
Definition unhealthy (now : string) : JsValue :=
  JObj [("status", JStr "unhealthy"); ("timestamp", JStr now)].

(** The [try] block of [healthQuery]. *)
Definition healthQuery_try (net : Net) : Outcome JsValue * Net :=
  match get_ config HEALTH JUndefined net with
  | (Throw e, net') => (Throw e, net')
  | (Return response, net') =>
      let d := resp_data response in
      if negb (truthy d) || negb (is_type d TObject)
      then (Throw (ValidationExn
                     (createValidationError "Invalid health response format" d)), net')
      else (Return d, net')
  end.

(** [healthQuery]: the [catch] swallows whatever the [try] block threw. *)
Definition healthQuery (now : string) (net : Net) : Outcome JsValue * Net :=
  match healthQuery_try net with
  | (Return d, net') => (Return d, net')
  | (Throw _, net') => (Return (unhealthy now), net')
  end.

(** [x === 'healthy'] *)
Definition is_healthy (v : JsValue) : bool :=
  match v with JStr s => String.eqb s "healthy" | _ => false end.

(** [checkApiReadiness] of the package index. *)
Definition checkApiReadiness (now : string) (net : Net) : bool * Net :=
  match healthQuery now net with
  | (Return response, net') => (is_healthy (get response "status"), net')
  | (Throw _, net') => (false, net')
  end.

Definition search_term_error (searchTerm : string) : ValidationError :=
  {| v_message := "Search term must be provided";
     v_field := Some "searchTerm"; v_value := JStr searchTerm |}.

(** [searchHistoryQuery] *)
Definition searchHistoryQuery (searchTerm : string)
    (params : option HistoryQueryParams) (net : Net) : Outcome JsValue * Net :=
  if negb (truthy (JStr searchTerm)) || Nat.eqb (String.length (trim searchTerm)) 0
  then (Throw (ValidationExn (search_term_error searchTerm)), net)
  else historyQuery config params net.

End MoreQueries.

(** What [batchPaperQuery] rejects with: a [ValidationError], or the plain
    [Error] of its last line. *)
Inductive BatchError : Type :=
| BatchInvalid (e : ValidationError)
| BatchNotImplemented (message : string).

Definition paperIds_error (message : string) (value : JsValue) : ValidationError :=
  {| v_message := message; v_field := Some "paperIds"; v_value := value |}.

(** [batchPaperQuery]; it has no path that returns. *)
Definition batchPaperQuery (paperIds : JsValue) : BatchError :=
  if negb (isArray paperIds) || Nat.eqb (length (items_of paperIds)) 0
  then BatchInvalid (paperIds_error "Paper IDs array must not be empty" paperIds)
  else
    if (50 <? length (items_of paperIds))%nat
    then BatchInvalid
           (paperIds_error "Cannot fetch more than 50 papers at once" paperIds)
    else
      let invalidIds := List.filter blank_category (items_of paperIds) in
      if (0 <? length invalidIds)%nat
      then BatchInvalid
             (paperIds_error "All paper IDs must be non-empty strings"
                             (JArr invalidIds))
      else BatchNotImplemented "Batch paper fetching is not yet implemented".

(** ** [hooks.ts]: the pure parts of the history and favourites hooks *)

(** [getKey] of [useInfiniteHistoryPapers]; [None] is the [null] key, and the
    parameters are the second component of the key, which the fetcher hands
    to [historyQuery]. A missing [baseParams] is [None]; the previous page is
    [null] or a body [historyQuery] returned, so it has a [pagination]. *)
Definition getKey (baseParams : option HistoryQueryParams) (pageIndex : nat)
    (previousPageData : JsValue) : option HistoryQueryParams :=
  if truthy previousPageData
     && negb (truthy (get (get previousPageData "pagination") "hasNext"))
  then None
  else
    Some {| hp_page := of_Z (Z.of_nat pageIndex + 1);
            hp_limit := or_else (param hp_limit baseParams) (of_Z DEFAULT_PAGE_SIZE);
            hp_category := param hp_category baseParams |}.

(** [hasMore] of [useInfiniteHistoryPapers], on the pages loaded so far:
    [lastPage?.pagination?.hasNext ?? false]. *)
Definition hasMore (data : option (list JsValue)) : JsValue :=
  match data with
  | None => JBool false
  | Some pages =>
      match List.last (map Some pages) None with
      | None => JBool false
      | Some lastPage =>
          match get (get lastPage "pagination") "hasNext" with
          | JUndefined | JNull => JBool false
          | v => v
          end
      end
  end.

(** A JavaScript [Set] of strings, in insertion order. *)
Fixpoint set_of (xs : list string) : list string :=
  match xs with
  | [] => []
  | x :: rest => x :: List.filter (fun y => negb (String.eqb y x)) (set_of rest)
  end.

Definition set_has (s : list string) (x : string) : bool :=
  existsb (String.eqb x) s.

(** [new Set([...prev, x])] *)
Definition set_add (prev : list string) (x : string) : list string :=
  if set_has prev x then prev else prev ++ [x].

(** [newSet.delete(x)] *)
Definition set_delete (prev : list string) (x : string) : list string :=
  List.filter (fun y => negb (String.eqb y x)) prev.

(** The state of [useFavoritePapers]: the [favorites] set and the array
    kept under ['favorite-papers'] in [localStorage]. *)
Record Favorites : Type := {
  favorites : list string;
  stored : list string
}.

(** [addFavorite]; [seen] is the [favorites] value the callback closed over. *)
Definition addFavorite (seen : list string) (paperId : string) (st : Favorites)
  : Favorites :=
  {| favorites := set_add (favorites st) paperId;
     stored := seen ++ [paperId] |}.

(** [removeFavorite] *)
Definition removeFavorite (seen : list string) (paperId : string) (st : Favorites)
  : Favorites :=
  {| favorites := set_delete (favorites st) paperId;
     stored := List.filter (fun y => negb (String.eqb y paperId)) seen |}.

(** [toggleFavorite] *)
Definition toggleFavorite (seen : list string) (paperId : string) (st : Favorites)
  : Favorites :=
  if set_has seen paperId then removeFavorite seen paperId st
  else addFavorite seen paperId st.

(** The mount effect: [setFavorites(new Set(JSON.parse(stored)))]. *)
Definition loadFavorites (storedArray : list string) : list string :=
  set_of storedArray.

(** ** Vocabulary of the further properties *)

(** A character that cannot end or split a path segment: an unreserved
    one, or the percent sign of an escape. *)
Definition uri_safe (c : ascii) : bool :=
  is_unreserved c || Ascii.eqb c "%".

Fixpoint all_chars (P : ascii -> bool) (s : string) : bool :=
  match s with
  | EmptyString => true
  | String c rest => P c && all_chars P rest
  end.

(** The body of a [TodayPaperResponse]. *)
Definition today_json (p : Paper) (date : string) : JsValue :=
  JObj [("paper", paper_json p); ("featuredDate", JStr date)].

(** A string that is not blank, as a value. *)
Definition nonblank_string (v : JsValue) : Prop :=
  exists s, v = JStr s /\ all_white s = false.

(** The test of [filter(id => id !== x)] and of the filter inside [set_of]. *)
Definition differs_from (x : string) (y : string) : bool := negb (String.eqb y x).

(** The value of an upper-case hexadecimal digit. *)
Definition hex_value (c : ascii) : option nat :=
  let n := nat_of_ascii c in
  (if (48 <=? n) && (n <=? 57) then Some (n - 48)
   else if (65 <=? n) && (n <=? 70) then Some (n - 55)
   else None)%nat.

(** The byte of a leading [%XX] escape and what follows it. *)
Definition escaped_byte (s : string) : option (nat * string) :=
  match s with
  | String c (String h (String l rest)) =>
      if Ascii.eqb c "%" then
        match hex_value h, hex_value l with
        | Some a, Some b => Some (16 * a + b, rest)%nat
        | _, _ => None
        end
      else None
  | _ => None
  end.

(** Reads back the first code unit of an encoded string: the inverse of
    [encode_unit] used to show that the encoding loses nothing. *)
Definition decode_first (s : string) : option (ascii * string) :=
  match s with
  | EmptyString => None
  | String c rest =>
      if Ascii.eqb c "%" then
        match escaped_byte s with
        | Some (b, rest1) =>
            if (b <? 128)%nat then Some (ascii_of_nat b, rest1)
            else
              match escaped_byte rest1 with
              | Some (b2, rest2) =>
                  Some (ascii_of_nat ((b - 192) * 64 + (b2 - 128)), rest2)
              | None => None
              end
        | None => None
        end
      else Some (c, rest)
  end.

(** * Properties *)

(** ** The retry policy and the request loop *)

Section ClientFacts.

Variable config : ApiConfig.

Lemma includes_In (l : list Z) (x : Z) : includes l x = true <-> In x l.
Proof.
  unfold includes. rewrite existsb_exists. split.
  - intros [y [Hy Heq]]. apply Z.eqb_eq in Heq. subst. exact Hy.
  - intros Hin. exists x. split; [exact Hin | apply Z.eqb_refl].
Qed.

Lemma attempt_ge_false_iff (attempt : nat) (r : ParsedInt) :
  attempt_ge attempt r = false <-> budget_left attempt r.
Proof.
  destruct r as [z |]; simpl; [| tauto]. apply Z.leb_gt.
Qed.

Lemma isRetryableError_true_iff (e : ClientError) :
  isRetryableError e = true <->
  (isNetworkError e = true \/
   exists st c d, e = ApiError st c d /\ In st retryableStatuses).
Proof.
  destruct e as [m o | st c d].
  - simpl. split; [now left | reflexivity].
  - unfold isRetryableError. rewrite includes_In. split.
    + intros Hin. right. eauto.
    + intros [Hn | (st' & c' & d' & Heq & Hin)]; [discriminate |].
      injection Heq as -> _ _. exact Hin.
Qed.

Lemma transformError_network (err : AxiosError) :
  isNetworkError (transformError err) = true <-> ax_response err = None.
Proof.
  unfold transformError. destruct (ax_response err) as [[st body] |]; simpl.
  - split; discriminate.
  - split; reflexivity.
Qed.

Lemma listed_failure_iff (err : AxiosError) :
  isRetryableError (transformError err) = true <-> listed_failure err.
Proof.
  unfold listed_failure, transformError, isRetryableError.
  destruct (ax_response err) as [[st body] |].
  - rewrite includes_In. split.
    + intros Hin. right. eauto.
    + intros [Hnone | (st' & body' & Heq & Hin)]; [discriminate |].
      injection Heq as -> _. exact Hin.
  - split; [now left | reflexivity].
Qed.

Lemma shouldRetry_split (e : ClientError) (attempt : nat) :
  shouldRetry config e attempt
  = negb (attempt_ge attempt (retries config)) && isRetryableError e.
Proof.
  unfold shouldRetry, getRetryCount, isRetryableError.
  destruct (attempt_ge attempt (retries config)); [reflexivity |].
  destruct e; reflexivity.
Qed.

Lemma shouldRetry_true_iff (e : ClientError) (attempt : nat) :
  shouldRetry config e attempt = true <->
  budget_left attempt (retries config) /\
  (isNetworkError e = true \/
   exists st c d, e = ApiError st c d /\ In st retryableStatuses).
Proof.
  rewrite shouldRetry_split, Bool.andb_true_iff, Bool.negb_true_iff,
    attempt_ge_false_iff, isRetryableError_true_iff.
  reflexivity.
Qed.

Lemma calculateRetryDelay_capped (rnd : Q) (attempt : nat) :
  (calculateRetryDelay config rnd attempt <= inject_Z 30000)%Q.
Proof. unfold calculateRetryDelay. apply Q.le_min_r. Qed.

(** The loop under a retry count [n] that is a non-negative integer, started
    inside its range: it performs at least one send and never falls out of
    the [while]; every exit is the [return] after a successful send or the
    [throw transformedError] after a failed one. *)
Lemma request_loop_trace (c : AxiosRequestConfig) (n : nat) :
  retries config = PInt (Z.of_nat n) ->
  forall remaining attempt lastError net out net',
    (attempt + remaining = n + 1)%nat ->
    (1 <= remaining)%nat ->
    request_loop config remaining c attempt lastError net = (out, net') ->
    exists k,
      (1 <= k)%nat /\
      (attempt + k <= Nat.max (attempt + 1) n)%nat /\
      (forall i, (i < k - 1)%nat ->
         exists err, server net (length (sent net) + i)%nat c = inl err
                     /\ isRetryableError (transformError err) = true) /\
      ((attempt + k = Nat.max (attempt + 1) n)%nat \/
       match server net (length (sent net) + k - 1)%nat c with
       | inr _ => True
       | inl err => isRetryableError (transformError err) = false
       end) /\
      sent net' = (sent net ++ repeat c k)%list /\
      slept net' = (slept net ++ map (nth_delay config net attempt) (seq 0 (k - 1)))%list /\
      server net' = server net /\ random net' = random net /\
      match server net (length (sent net) + k - 1)%nat c with
      | inr resp => out = Return resp
      | inl err => out = Throw (ClientExn (transformError err))
      end.
Proof.
  intros Hn.
  induction remaining as [| remaining IH];
    intros attempt lastError net out net' Hsum Hpos Hrun; [lia |].
  cbn [request_loop] in Hrun. unfold getRetryCount in Hrun.
  rewrite Hn in Hrun. cbn [attempt_lt_succ attempt_le] in Hrun.
  destruct (Z.ltb_spec (Z.of_nat attempt) (Z.of_nat n + 1)) as [_ | Hge]; [| lia].
  unfold axios_request in Hrun.
  assert (Hidx : (length (sent net) + 1 - 1 = length (sent net))%nat) by lia.
  destruct (server net (length (sent net)) c) as [err | resp] eqn:Hsrv;
    cbv beta iota zeta in Hrun.
  - rewrite shouldRetry_split, Hn in Hrun. cbn [attempt_ge] in Hrun.
    destruct (Z.leb_spec (Z.of_nat n) (Z.of_nat (S attempt))) as [Hnlt | Hlt];
      [| destruct (isRetryableError (transformError err)) eqn:Hre];
      cbn [andb negb] in Hrun; cbv beta iota in Hrun.
    + injection Hrun as <- <-. exists 1%nat. cbn [sent slept server random].
      rewrite Hidx, Hsrv. cbn [Nat.sub seq map repeat].
      split; [lia |]. split; [lia |]. split; [intros i Hi; lia |].
      split; [left; lia |]. rewrite app_nil_r. repeat split.
    + destruct (Z.leb_spec (Z.of_nat (S attempt)) (Z.of_nat n)) as [_ | Hbad]; [| lia].
      apply IH in Hrun; [| lia | lia].
      destruct Hrun as (k & Hk & Hbound & Hfail & Hstop & Hsent & Hslept
                          & Hserver & Hrandom & Hlast).
      cbn [sleep sent slept server random] in *.
      rewrite length_app in Hfail, Hstop, Hlast. cbn [length] in Hfail, Hstop, Hlast.
      exists (S k). split; [lia |]. split; [lia |]. split; [| split].
      * intros i Hi. destruct i as [| i].
        -- exists err. rewrite Nat.add_0_r. split; assumption.
        -- destruct (Hfail i ltac:(lia)) as (err' & Herr' & Hre').
           exists err'. split; [| exact Hre'].
           replace (length (sent net) + S i)%nat
             with (length (sent net) + 1 + i)%nat by lia. exact Herr'.
      * replace (length (sent net) + S k - 1)%nat
          with (length (sent net) + 1 + k - 1)%nat by lia.
        destruct Hstop as [Hmax | Hstop]; [left; lia | right; exact Hstop].
      * split; [rewrite Hsent, <- app_assoc; reflexivity |].
        split; [| split; [exact Hserver | split; [exact Hrandom |]]].
        -- rewrite Hslept, <- app_assoc. apply (f_equal (app (slept net))).
           replace (S k - 1)%nat with (S (k - 1)) by lia.
           cbn [seq map app]. unfold nth_delay at 2.
           rewrite !Nat.add_0_r, Nat.add_1_r. apply (f_equal (cons _)).
           rewrite <- seq_shift, map_map. apply map_ext. intros i.
           unfold nth_delay. cbn [sleep slept random]. rewrite length_app.
           cbn [length]. f_equal; [f_equal |]; lia.
        -- replace (length (sent net) + S k - 1)%nat
             with (length (sent net) + 1 + k - 1)%nat by lia.
           exact Hlast.
    + injection Hrun as <- <-. exists 1%nat. cbn [sent slept server random].
      rewrite Hidx, Hsrv. cbn [Nat.sub seq map repeat].
      split; [lia |]. split; [lia |]. split; [intros i Hi; lia |].
      split; [right; exact Hre |]. rewrite app_nil_r. repeat split.
  - injection Hrun as <- <-. exists 1%nat. cbn [sent slept server random].
    rewrite Hidx, Hsrv. cbn [Nat.sub seq map repeat].
    split; [lia |]. split; [lia |]. split; [intros i Hi; lia |].
    split; [right; exact I |]. rewrite app_nil_r. repeat split.
Qed.

(** With a negative retry count or [NaN] the loop test fails at once: nothing
    is sent and [throw lastError!] throws [undefined]. *)
Lemma request_without_send (req : ApiRequest) (net : Net) :
  max_sends (retries config) = 0%nat ->
  request config req net = (Throw UndefinedExn, net).
Proof.
  unfold max_sends, request, getRetryCount.
  destruct (retries config) as [z |]; [| reflexivity].
  destruct (Z.ltb_spec z 0) as [Hneg | Hpos]; [| lia].
  intros _. unfold iterations.
  replace (Z.to_nat (z + 1)) with 0%nat by lia. reflexivity.
Qed.

Lemma counts_retries_max_sends (r : ParsedInt) :
  counts_retries r <-> (1 <= max_sends r)%nat.
Proof.
  unfold counts_retries, max_sends. destruct r as [z |].
  - destruct (Z.ltb_spec z 0) as [Hneg | Hpos]; split.
    + intros (z' & Heq & Hz'). injection Heq as <-. lia.
    + lia.
    + lia.
    + intros _. exists z. split; [reflexivity | exact Hpos].
  - split; [intros (z & Heq & _); discriminate | lia].
Qed.

(** One request, send by send, under any retry count. *)
Lemma request_trace (req : ApiRequest) (net : Net) :
  exists k,
    (k <= max_sends (retries config))%nat /\
    (counts_retries (retries config) -> (1 <= k)%nat) /\
    (forall i, (i < k - 1)%nat ->
       exists err,
         server net (length (sent net) + i)%nat (axiosConfig_of config req) = inl err
         /\ isRetryableError (transformError err) = true) /\
    (k = max_sends (retries config) \/
     match server net (length (sent net) + k - 1)%nat (axiosConfig_of config req) with
     | inr _ => True
     | inl err => isRetryableError (transformError err) = false
     end) /\
    sent (snd (request config req net))
      = (sent net ++ repeat (axiosConfig_of config req) k)%list /\
    slept (snd (request config req net))
      = (slept net ++ map (nth_delay config net 0) (seq 0 (k - 1)))%list /\
    match k with
    | O => fst (request config req net) = Throw UndefinedExn
    | S k' =>
        match server net (length (sent net) + k')%nat (axiosConfig_of config req) with
        | inr resp => fst (request config req net) = Return resp
        | inl err => fst (request config req net) = Throw (ClientExn (transformError err))
        end
    end.
Proof.
  destruct (Nat.eq_dec (max_sends (retries config)) 0%nat) as [Hzero | Hpos].
  - exists 0%nat. rewrite (request_without_send req net Hzero), Hzero.
    cbn [fst snd repeat Nat.sub seq map]. rewrite !app_nil_r.
    split; [lia |]. split; [rewrite counts_retries_max_sends; lia |].
    split; [intros i Hi; lia |]. split; [left; reflexivity |]. repeat split.
  - assert (Hcount : counts_retries (retries config))
      by (apply counts_retries_max_sends; lia).
    destruct Hcount as (z & Hz & Hz0).
    assert (Hn : retries config = PInt (Z.of_nat (Z.to_nat z)))
      by (rewrite Z2Nat.id by exact Hz0; exact Hz).
    assert (Hmax : max_sends (retries config) = Nat.max 1 (Z.to_nat z)).
    { rewrite Hz. unfold max_sends.
      destruct (Z.ltb_spec z 0) as [Hneg | _]; [lia | reflexivity]. }
    destruct (request config req net) as [out net'] eqn:Hrun.
    unfold request, getRetryCount in Hrun. rewrite Hz in Hrun.
    cbn [iterations] in Hrun.
    replace (Z.to_nat (z + 1)) with (S (Z.to_nat z)) in Hrun by lia.
    apply (request_loop_trace _ _ Hn) in Hrun; [| lia | lia].
    destruct Hrun as (k & Hk & Hbound & Hfail & Hstop & Hsent & Hslept & _ & _ & Hlast).
    exists k. cbn [fst snd]. simpl in Hbound, Hstop. rewrite Hmax.
    split; [lia |]. split; [intros _; exact Hk |].
    split; [exact Hfail |]. split; [exact Hstop |].
    split; [exact Hsent |]. split; [exact Hslept |].
    destruct k as [| k']; [lia |].
    replace (length (sent net) + S k' - 1)%nat
      with (length (sent net) + k')%nat in Hlast by lia.
    exact Hlast.
Qed.

(** The request is settled by its first decisive send. *)
Lemma request_decisive_send (req : ApiRequest) (net : Net) (j : nat) :
  (1 <= j <= max_sends (retries config))%nat ->
  (forall i, (i < j - 1)%nat ->
     exists err,
       server net (length (sent net) + i)%nat (axiosConfig_of config req) = inl err
       /\ isRetryableError (transformError err) = true) ->
  (j = max_sends (retries config) \/
   match server net (length (sent net) + j - 1)%nat (axiosConfig_of config req) with
   | inr _ => True
   | inl err => isRetryableError (transformError err) = false
   end) ->
  length (sent (snd (request config req net))) = (length (sent net) + j)%nat /\
  length (slept (snd (request config req net))) = (length (slept net) + (j - 1))%nat /\
  match server net (length (sent net) + j - 1)%nat (axiosConfig_of config req) with
  | inr resp => fst (request config req net) = Return resp
  | inl err => fst (request config req net) = Throw (ClientExn (transformError err))
  end.
Proof.
  intros Hj Hfail Hstop.
  destruct (request_trace req net)
    as (k & Hk & Hk1 & Hfail' & Hstop' & Hsent & Hslept & Hlast).
  assert (Hpos : (1 <= k)%nat)
    by (apply Hk1; apply counts_retries_max_sends; lia).
  assert (Hkj : k = j).
  { destruct (Nat.lt_trichotomy k j) as [Hlt | [Heq | Hgt]]; [| exact Heq |].
    - exfalso. destruct Hstop' as [Hmax | Hdec]; [lia |].
      destruct (Hfail (k - 1)%nat ltac:(lia)) as (err & Herr & Hre).
      replace (length (sent net) + (k - 1))%nat
        with (length (sent net) + k - 1)%nat in Herr by lia.
      rewrite Herr in Hdec. congruence.
    - exfalso. destruct Hstop as [Hmax | Hdec]; [lia |].
      destruct (Hfail' (j - 1)%nat ltac:(lia)) as (err & Herr & Hre).
      replace (length (sent net) + (j - 1))%nat
        with (length (sent net) + j - 1)%nat in Herr by lia.
      rewrite Herr in Hdec. congruence. }
  subst k. rewrite Hsent, Hslept, !length_app, repeat_length, length_map, length_seq.
  split; [reflexivity |]. split; [reflexivity |].
  destruct j as [| j']; [lia |].
  replace (length (sent net) + S j' - 1)%nat with (length (sent net) + j')%nat by lia.
  exact Hlast.
Qed.

(** A request whose first send is answered returns that answer after this
    one send. *)
Lemma request_first_success (req : ApiRequest) (net : Net) (resp : ApiResponse) :
  counts_retries (retries config) ->
  server net (length (sent net)) (axiosConfig_of config req) = inr resp ->
  request config req net =
    (Return resp,
     {| server := server net; random := random net;
        sent := sent net ++ [axiosConfig_of config req]; slept := slept net |}).
Proof.
  intros (z & Hz & Hz0) Hsrv. unfold request, getRetryCount. rewrite Hz.
  cbn [iterations].
  replace (Z.to_nat (z + 1)) with (S (Z.to_nat z)) by lia.
  cbn [request_loop]. unfold getRetryCount. rewrite Hz. cbn [attempt_lt_succ].
  destruct (Z.ltb_spec (Z.of_nat 0) (z + 1)) as [_ | Hbad]; [| lia].
  unfold axios_request. rewrite Hsrv. reflexivity.
Qed.

End ClientFacts.

(** C5 (as amended): within one request, a failed send is followed by another
    send exactly when retry budget is left (its attempt number is below the
    configured retry count) and the failure is a network error or timeout (no
    response received) or an HTTP response whose status is one of 408, 429,
    500, 502, 503, 504; otherwise its error is thrown to the caller at once,
    and a successful send ends the request with its response. The two
    predicates [shouldRetry] and [isRetryableError] say the same of a single
    error, and a request under a retry count that is a non-negative integer
    makes at least one send. *)
Theorem retry_exactly_on_listed_failures :
  forall (config : ApiConfig) (req : ApiRequest) (net : Net),
  exists k : nat,
    sent (snd (request config req net))
      = (sent net ++ repeat (axiosConfig_of config req) k)%list /\
    (counts_retries (retries config) -> (1 <= k)%nat) /\
    (forall j err,
        (1 <= j <= k)%nat ->
        server net (length (sent net) + j - 1)%nat (axiosConfig_of config req)
          = inl err ->
        ((j < k)%nat <-> budget_left j (retries config) /\ listed_failure err) /\
        (j = k ->
         fst (request config req net) = Throw (ClientExn (transformError err)))) /\
    (forall j resp,
        (1 <= j <= k)%nat ->
        server net (length (sent net) + j - 1)%nat (axiosConfig_of config req)
          = inr resp ->
        j = k /\ fst (request config req net) = Return resp) /\
    (forall e attempt,
        shouldRetry config e attempt = true <->
        budget_left attempt (retries config) /\
        (isNetworkError e = true \/
         exists st c d, e = ApiError st c d /\ In st [408; 429; 500; 502; 503; 504])) /\
    (forall e,
        isRetryableError e = true <->
        (isNetworkError e = true \/
         exists st c d, e = ApiError st c d /\ In st [408; 429; 500; 502; 503; 504])).
Proof.
  intros config req net.
  destruct (request_trace config req net)
    as (k & Hk & Hk1 & Hfail & Hstop & Hsent & _ & Hlast).
  exists k. split; [exact Hsent |]. split; [exact Hk1 |].
  assert (Hbefore : forall j, (1 <= j < k)%nat ->
            exists err,
              server net (length (sent net) + j - 1)%nat (axiosConfig_of config req)
                = inl err /\ isRetryableError (transformError err) = true).
  { intros j Hj. destruct (Hfail (j - 1)%nat ltac:(lia)) as (err & Herr & Hre).
    exists err. split; [| exact Hre].
    replace (length (sent net) + j - 1)%nat
      with (length (sent net) + (j - 1))%nat by lia. exact Herr. }
  assert (Hbudget : forall j, (1 <= j < k)%nat -> budget_left j (retries config)).
  { intros j Hj. unfold max_sends in Hk. unfold budget_left.
    destruct (retries config) as [z |]; [| exact I].
    destruct (Z.ltb_spec z 0) as [Hneg | Hpos]; lia. }
  assert (Hspent : k = max_sends (retries config) -> (1 <= k)%nat ->
                   ~ budget_left k (retries config)).
  { intros Hmax Hpos. unfold max_sends in Hmax. unfold budget_left.
    destruct (retries config) as [z |]; [| lia].
    destruct (Z.ltb_spec z 0) as [Hneg | Hz]; lia. }
  split; [| split; [| split]].
  - intros j err Hj Hsrv. split.
    + split.
      * intros Hlt. split; [apply Hbudget; lia |].
        destruct (Hbefore j ltac:(lia)) as (err' & Herr' & Hre).
        rewrite Hsrv in Herr'. injection Herr' as <-.
        apply listed_failure_iff. exact Hre.
      * intros [Hleft Hlisted].
        destruct (Nat.eq_dec j k) as [-> | Hne]; [exfalso | lia].
        destruct Hstop as [Hmax | Hdec].
        -- apply (Hspent Hmax); [lia | exact Hleft].
        -- rewrite Hsrv in Hdec. apply listed_failure_iff in Hlisted. congruence.
    + intros ->. destruct k as [| k']; [lia |].
      replace (length (sent net) + S k' - 1)%nat
        with (length (sent net) + k')%nat in Hsrv by lia.
      rewrite Hsrv in Hlast. exact Hlast.
  - intros j resp Hj Hsrv.
    assert (j = k) as ->.
    { destruct (Nat.eq_dec j k) as [Heq | Hne]; [exact Heq | exfalso].
      destruct (Hbefore j ltac:(lia)) as (err' & Herr' & _). congruence. }
    split; [reflexivity |]. destruct k as [| k']; [lia |].
    replace (length (sent net) + S k' - 1)%nat
      with (length (sent net) + k')%nat in Hsrv by lia.
    rewrite Hsrv in Hlast. exact Hlast.
  - intros e attempt. apply shouldRetry_true_iff.
  - apply isRetryableError_true_iff.
Qed.

Lemma retry_exactly_on_listed_failures_witness :
  exists k : nat,
    sent (snd (request default_config health_request (fails_once (status_error 503))))
      = (sent (fails_once (status_error 503))
         ++ repeat (axiosConfig_of default_config health_request) k)%list /\
    (1 <= k)%nat.
Proof.
  destruct (retry_exactly_on_listed_failures default_config health_request
              (fails_once (status_error 503))) as (k & Hsent & Hk & _).
  exists k. split; [exact Hsent |].
  apply Hk. exists 3. split; [reflexivity | lia].
Defined.

(** C5 (as stated) fails: 408 is a 4xx status other than 429, and a request
    that meets it is sent again (two sends, the second one succeeds) instead
    of failing at once; 501 is a 5xx status and is not retried. *)
Lemma client_error_408_is_retried :
  400 <= 408 < 500 /\ 408 <> 429 /\
  shouldRetry default_config (transformError (status_error 408)) 1 = true /\
  fst (request default_config health_request (fails_once (status_error 408)))
    = Return ok_response /\
  length (sent (snd (request default_config health_request
                       (fails_once (status_error 408))))) = 2%nat /\
  shouldRetry default_config (transformError (status_error 501)) 1 = false.
Proof.
  split; [lia |]. split; [lia |]. vm_compute. repeat split; reflexivity.
Qed.

(** C9 (as amended): under a retry count that is a non-negative integer, a
    request performs at least one and at most 1 + retries sends, all of the
    same request; it sleeps fewer times than it sends and never longer than
    the 30 s cap; and it ends with the result of its last send: the response
    if that send succeeded, otherwise a throw of that send's (transformed)
    error, which is the last error observed. *)
Theorem request_attempts_bounded :
  forall (config : ApiConfig) (req : ApiRequest) (net : Net) (z : Z),
    retries config = PInt z ->
    0 <= z ->
    exists (k : nat) (ds : list Q),
      (1 <= k)%nat /\ Z.of_nat k <= 1 + z /\
      sent (snd (request config req net))
        = (sent net ++ repeat (axiosConfig_of config req) k)%list /\
      slept (snd (request config req net)) = (slept net ++ ds)%list /\
      (length ds < k)%nat /\
      Forall (fun d => (d <= inject_Z 30000)%Q) ds /\
      match server net (length (sent net) + k - 1)%nat (axiosConfig_of config req) with
      | inr resp => fst (request config req net) = Return resp
      | inl err => fst (request config req net) = Throw (ClientExn (transformError err))
      end.
Proof.
  intros config req net z Hz Hz0.
  destruct (request_trace config req net)
    as (k & Hk & Hk1 & _ & _ & Hsent & Hslept & Hlast).
  assert (Hpos : (1 <= k)%nat) by (apply Hk1; exists z; split; assumption).
  exists k, (map (nth_delay config net 0) (seq 0 (k - 1))).
  split; [exact Hpos |]. split.
  { rewrite Hz in Hk. unfold max_sends in Hk.
    destruct (Z.ltb_spec z 0) as [Hneg | _]; lia. }
  split; [exact Hsent |]. split; [exact Hslept |]. split.
  { rewrite length_map, length_seq. lia. }
  split.
  { apply List.Forall_forall. intros d Hd. apply in_map_iff in Hd.
    destruct Hd as (i & <- & _). apply calculateRetryDelay_capped. }
  destruct k as [| k']; [lia |].
  replace (length (sent net) + S k' - 1)%nat with (length (sent net) + k')%nat by lia.
  exact Hlast.
Qed.

Lemma request_attempts_bounded_witness :
  exists (k : nat) (ds : list Q),
    (1 <= k)%nat /\ Z.of_nat k <= 1 + 3 /\
    sent (snd (request default_config health_request server_down))
      = (sent server_down ++ repeat (axiosConfig_of default_config health_request) k)%list /\
    slept (snd (request default_config health_request server_down))
      = (slept server_down ++ ds)%list /\
    (length ds < k)%nat /\
    Forall (fun d => (d <= inject_Z 30000)%Q) ds /\
    match server server_down (length (sent server_down) + k - 1)%nat
                 (axiosConfig_of default_config health_request) with
    | inr resp => fst (request default_config health_request server_down) = Return resp
    | inl err => fst (request default_config health_request server_down)
                 = Throw (ClientExn (transformError err))
    end.
Proof.
  apply (request_attempts_bounded default_config health_request server_down 3).
  - reflexivity.
  - lia.
Defined.

(** C9 (as stated) fails: with the retry count -2, which is what [parseInt]
    makes of [API_RETRIES=-2], the request sends nothing, so that the number
    of sends is not bounded by 1 + retries = -1, and it throws [undefined]
    although no error was observed; the same happens against a server that
    would have answered. *)
Lemma request_sends_nothing_for_negative_count :
  request config_minus_2 health_request (always_answers JNull)
    = (Throw UndefinedExn, always_answers JNull) /\
  sent (snd (request config_minus_2 health_request (always_answers JNull))) = [] /\
  ~ (Z.of_nat (length (sent (snd (request config_minus_2 health_request
                                    (always_answers JNull)))))
     <= 1 + (-2)).
Proof.
  split; [reflexivity |]. split; [reflexivity |]. vm_compute. intros H. apply H. reflexivity.
Qed.

(** ** The response validators *)

Lemma is_type_true (v : JsValue) (t : JsType) :
  is_type v t = true <-> typeof v = t.
Proof.
  unfold is_type. destruct (typeof v), t; simpl; split; congruence.
Qed.

Lemma validatePaper_citationCount (v : JsValue) :
  validatePaper v = true -> typeof (get v "citationCount") = TNumber.
Proof.
  unfold validatePaper.
  destruct (negb (truthy v) || negb (is_type v TObject) || is_null v);
    [discriminate |].
  intros H. repeat (apply andb_prop in H; destruct H as [H ?]).
  repeat match goal with
         | Hx : is_type _ TNumber = true |- _ => apply is_type_true in Hx; exact Hx
         end.
Qed.

Lemma validatePaper_paper_json (p : Paper) : validatePaper (paper_json p) = true.
Proof. reflexivity. Qed.

Lemma validateEntry_entry_json (e : FeaturedPaperEntry) :
  validateEntry (entry_json e) = true.
Proof. unfold entry_json. destruct (category e); reflexivity. Qed.

Lemma entries_valid (es : list FeaturedPaperEntry) :
  forallb validateEntry (map entry_json es) = true.
Proof.
  induction es as [| e es IH]; [reflexivity |].
  cbn [map forallb]. rewrite validateEntry_entry_json. exact IH.
Qed.

Lemma validateHistoryResponse_history_json (r : HistoryResponse) :
  validateHistoryResponse (history_json r) = true.
Proof.
  unfold validateHistoryResponse, history_json.
  cbn -[forallb validateEntry entry_json]. rewrite entries_valid. reflexivity.
Qed.

(** A body shaped exactly as the documented contract is never accepted:
    [typeof p.hasNext === 'boolean'] fails on the missing property. *)
Lemma validateHistoryResponse_contract (es : list FeaturedPaperEntry) (pg lim tot : Z) :
  validateHistoryResponse (contract_history_json es pg lim tot) = false.
Proof.
  unfold validateHistoryResponse, contract_history_json.
  cbn -[forallb validateEntry entry_json]. rewrite entries_valid. reflexivity.
Qed.

(** C7 (as amended): [validatePaper] accepts a record only if its
    [citationCount] is of type number, whatever its sign, and it accepts
    every serialised paper, negative counts included; a [papers] row created
    without a citation count holds the column default 0. *)
Theorem validatePaper_checks_number_only :
  (forall v : JsValue,
      validatePaper v = true -> typeof (get v "citationCount") = TNumber) /\
  (forall p : Paper, validatePaper (paper_json p) = true) /\
  (forall aid : string, citation_count (insert_row aid None) = 0).
Proof.
  split; [exact validatePaper_citationCount |].
  split; [exact validatePaper_paper_json | reflexivity].
Qed.

Lemma validatePaper_checks_number_only_witness :
  typeof (get (paper_json (sample_paper 45678)) "citationCount") = TNumber.
Proof.
  apply (proj1 validatePaper_checks_number_only). reflexivity.
Defined.

(** C7 (as stated) fails: a record whose [citationCount] is -1 is accepted,
    and a row inserted with -1 stores -1. *)
Lemma validatePaper_accepts_negative_count :
  citationCount (sample_paper (-1)) < 0 /\
  validatePaper (paper_json (sample_paper (-1))) = true /\
  citation_count (insert_row "1706.03762" (Some (-1))) < 0.
Proof. repeat split; reflexivity. Qed.

(** ** Validation of the history parameters *)

Lemma isInteger_iff (q : Q) :
  isInteger (JNum (Finite q)) = true <-> exists z : Z, (q == inject_Z z)%Q.
Proof.
  unfold isInteger. rewrite Pos.eqb_eq. split.
  - intros Hden. exists (Qnum (Qred q)).
    rewrite <- (Qred_correct q) at 1.
    destruct (Qred q) as [n d]. simpl in *. subst d. reflexivity.
  - intros [z Hz]. rewrite (Qred_complete _ _ Hz).
    rewrite Qred_identity; [reflexivity |]. simpl. apply Z.gcd_1_r.
Qed.

Lemma lt_lit_false_iff (q : Q) (z k : Z) :
  (q == inject_Z z)%Q ->
  lt_lit (JNum (Finite q)) k = false <-> k <= z.
Proof.
  intros Hz. unfold lt_lit. rewrite negb_false_iff, Qle_bool_iff, Hz.
  rewrite <- Zle_Qle. reflexivity.
Qed.

Lemma gt_lit_false_iff (q : Q) (z k : Z) :
  (q == inject_Z z)%Q ->
  gt_lit (JNum (Finite q)) k = false <-> z <= k.
Proof.
  intros Hz. unfold gt_lit. rewrite negb_false_iff, Qle_bool_iff, Hz.
  rewrite <- Zle_Qle. reflexivity.
Qed.

Lemma trimStart_all_white (s : string) :
  all_white s = true -> trimStart s = "".
Proof.
  induction s as [| c s IH]; simpl; [reflexivity |].
  destruct (isWhiteSpace c); simpl; [exact IH | discriminate].
Qed.

Lemma trimStart_not_all_white (s : string) :
  all_white s = false ->
  exists c rest, trimStart s = String c rest /\ isWhiteSpace c = false.
Proof.
  induction s as [| c s IH]; simpl; [discriminate |].
  destruct (isWhiteSpace c) eqn:Hc; simpl.
  - exact IH.
  - intros _. exists c, s. split; [reflexivity | exact Hc].
Qed.

Lemma trimEnd_keeps_head (c : ascii) (rest : string) :
  isWhiteSpace c = false -> trimEnd (String c rest) <> "".
Proof.
  intros Hc. cbn [trimEnd]. destruct (trimEnd rest); [rewrite Hc |]; discriminate.
Qed.

(** [s.trim().length === 0] exactly when [s] is empty or white space only. *)
Lemma trim_empty_iff (s : string) :
  Nat.eqb (String.length (trim s)) 0 = true <-> all_white s = true.
Proof.
  unfold trim. split.
  - intros Hlen. destruct (all_white s) eqn:Hw; [reflexivity |].
    destruct (trimStart_not_all_white s Hw) as (c & rest & Heq & Hc).
    rewrite Heq in Hlen. pose proof (trimEnd_keeps_head c rest Hc) as Hne.
    destruct (trimEnd (String c rest)); [contradiction | discriminate].
  - intros Hw. rewrite (trimStart_all_white s Hw). reflexivity.
Qed.

Lemma page_check (v : JsValue) :
  negb (is_undefined v) && (negb (isInteger v) || lt_lit v 1) = false <-> page_ok v.
Proof.
  unfold page_ok, integer_between. split.
  - intros H. destruct v as [| | b | [q | | |] | s | l | l];
      try (now left); try discriminate.
    right. simpl negb in H. rewrite andb_true_l in H.
    apply orb_false_elim in H. destruct H as [Hint Hlt].
    apply negb_false_iff in Hint. apply isInteger_iff in Hint.
    destruct Hint as [z Hz]. exists q, z.
    repeat split; try assumption. apply (lt_lit_false_iff q z 1 Hz). exact Hlt.
  - intros [-> | (q & z & -> & Hz & Hlo & _)]; [reflexivity |].
    simpl negb. rewrite andb_true_l. apply orb_false_intro.
    + apply negb_false_iff. apply isInteger_iff. eauto.
    + apply (lt_lit_false_iff q z 1 Hz). exact Hlo.
Qed.

Lemma limit_check (v : JsValue) :
  negb (is_undefined v)
  && (negb (isInteger v) || lt_lit v 1 || gt_lit v MAX_PAGE_SIZE) = false
  <-> limit_ok v.
Proof.
  unfold limit_ok, integer_between, MAX_PAGE_SIZE. split.
  - intros H. destruct v as [| | b | [q | | |] | s | l | l];
      try (now left); try discriminate.
    right. simpl negb in H. rewrite andb_true_l in H.
    apply orb_false_elim in H. destruct H as [H Hgt].
    apply orb_false_elim in H. destruct H as [Hint Hlt].
    apply negb_false_iff in Hint. apply isInteger_iff in Hint.
    destruct Hint as [z Hz]. exists q, z.
    repeat split; try assumption.
    + apply (lt_lit_false_iff q z 1 Hz). exact Hlt.
    + apply (gt_lit_false_iff q z 100 Hz). exact Hgt.
  - intros [-> | (q & z & -> & Hz & Hlo & Hhi)]; [reflexivity |].
    simpl negb. rewrite andb_true_l.
    apply orb_false_intro; [apply orb_false_intro |].
    + apply negb_false_iff. apply isInteger_iff. eauto.
    + apply (lt_lit_false_iff q z 1 Hz). exact Hlo.
    + apply (gt_lit_false_iff q z 100 Hz). exact Hhi.
Qed.

Lemma category_check (v : JsValue) :
  negb (is_undefined v) && blank_category v = false <-> category_ok v.
Proof.
  unfold category_ok, blank_category. split.
  - intros H. destruct v as [| | b | n | s | l | l];
      try (now left); try discriminate.
    right. exists s. split; [reflexivity |].
    simpl negb in H. rewrite andb_true_l in H.
    destruct (all_white s) eqn:Hw; [| reflexivity].
    apply trim_empty_iff in Hw. congruence.
  - intros [-> | (s & -> & Hw)]; [reflexivity |].
    simpl negb. rewrite andb_true_l.
    destruct (Nat.eqb (String.length (trim s)) 0) eqn:Hlen; [| reflexivity].
    apply trim_empty_iff in Hlen. congruence.
Qed.

Lemma validateHistoryParams_ok (params : option HistoryQueryParams) :
  params_ok params -> validateHistoryParams params = inr (validated_of params).
Proof.
  destruct params as [p |]; [| reflexivity].
  intros (Hp & Hl & Hc). unfold validateHistoryParams.
  apply page_check in Hp. apply limit_check in Hl. apply category_check in Hc.
  rewrite Hp, Hl, Hc. reflexivity.
Qed.

Lemma validateHistoryParams_rejects (p : HistoryQueryParams) :
  ~ page_ok (hp_page p) \/ ~ limit_ok (hp_limit p) \/ ~ category_ok (hp_category p) ->
  exists e, validateHistoryParams (Some p) = inl e.
Proof.
  intros Hbad. unfold validateHistoryParams.
  destruct (negb (is_undefined (hp_page p)) && _) eqn:Hp; [eauto |].
  destruct (negb (is_undefined (hp_limit p)) && _) eqn:Hl; [eauto |].
  destruct (negb (is_undefined (hp_category p)) && _) eqn:Hc; [eauto |].
  apply page_check in Hp. apply limit_check in Hl. apply category_check in Hc.
  tauto.
Qed.

Lemma blank_string_not_ok (v : JsValue) : blank_string v -> ~ category_ok v.
Proof.
  intros (s & -> & Hw) [Hu | (s' & Heq & Hw')]; [discriminate |].
  injection Heq as <-. congruence.
Qed.

Lemma integer_truthy (v : JsValue) (hi : option Z) :
  integer_between v 1 hi -> truthy v = true.
Proof.
  intros (q & z & -> & Hz & Hlo & _). simpl.
  destruct (Qeq_bool q 0) eqn:Hq; [| reflexivity].
  apply Qeq_bool_iff in Hq. rewrite Hz in Hq.
  change 0%Q with (inject_Z 0) in Hq. apply (proj1 (inject_Z_injective z 0)) in Hq. lia.
Qed.

Lemma or_else_default (v : JsValue) (d : Z) (hi : option Z) :
  v = JUndefined \/ integer_between v 1 hi ->
  or_else v (of_Z d) = or_default v d.
Proof.
  intros [-> | Hint]; [reflexivity |].
  unfold or_else, or_default. rewrite (integer_truthy v hi Hint).
  destruct Hint as (q & z & -> & _). reflexivity.
Qed.

Lemma historyQuery_trace (config : ApiConfig) (params : option HistoryQueryParams)
    (validated : HistoryQueryParams) (net : Net) :
  validateHistoryParams params = inr validated ->
  exists k,
    (k <= max_sends (retries config))%nat /\
    (counts_retries (retries config) -> (1 <= k)%nat) /\
    sent (snd (historyQuery config params net))
      = (sent net ++ repeat (history_request config validated) k)%list /\
    match k with
    | O => fst (historyQuery config params net) = Throw UndefinedExn
    | S k' =>
        match server net (length (sent net) + k')%nat
                     (history_request config validated) with
        | inr resp =>
            fst (historyQuery config params net)
            = if validateHistoryResponse (resp_data resp)
              then Return (resp_data resp)
              else Throw (ValidationExn
                            (createValidationError "Invalid history response format"
                                                   (resp_data resp)))
        | inl err =>
            fst (historyQuery config params net)
            = Throw (ClientExn (transformError err))
        end
    end.
Proof.
  intros Hval. unfold historyQuery. rewrite Hval. unfold get_.
  set (req := {| url := HISTORY; method := GET; data := JUndefined;
                 params := queryParams_of validated; req_timeout := None |}).
  destruct (request_trace config req net)
    as (k & Hk & Hk1 & _ & _ & Hsent & _ & Hlast).
  change (axiosConfig_of config req) with (history_request config validated) in *.
  exists k. split; [exact Hk |]. split; [exact Hk1 |].
  destruct (request config req net) as [[resp | e] net']; cbn [fst snd] in *.
  - split.
    + destruct (negb (validateHistoryResponse (resp_data resp))); exact Hsent.
    + destruct k as [| k']; [discriminate |].
      destruct (server net _ _) as [err | resp']; [discriminate |].
      injection Hlast as <-.
      destruct (validateHistoryResponse (resp_data resp)); reflexivity.
  - split; [exact Hsent |].
    destruct k as [| k']; [injection Hlast as ->; reflexivity |].
    destruct (server net _ _) as [err | resp']; [| discriminate].
    injection Hlast as ->. reflexivity.
Qed.

(** C10: [historyQuery] throws a ValidationError, the network untouched (no
    send, no sleep), whenever [page] is provided and is not an integer >= 1,
    or [limit] is provided and is not an integer in 1..100, or [category] is
    an empty or white-space-only string; and when every parameter is
    acceptable, whatever it sends is [GET /api/paper/history] (always the
    same request) with [page] and [limit] as given, or 1 and 20 where they
    were omitted, and it sends at least once under a retry count that is a
    non-negative integer. *)
Theorem historyQuery_validates_before_sending :
  forall (config : ApiConfig) (params : option HistoryQueryParams) (net : Net),
    (forall p,
        params = Some p ->
        ~ page_ok (hp_page p) \/ ~ limit_ok (hp_limit p)
        \/ blank_string (hp_category p) ->
        exists e, historyQuery config params net = (Throw (ValidationExn e), net)) /\
    (params_ok params ->
     exists (k : nat) (c : AxiosRequestConfig),
       (counts_retries (retries config) -> (1 <= k)%nat) /\
       sent (snd (historyQuery config params net)) = (sent net ++ repeat c k)%list /\
       ax_url c = "/api/paper/history" /\ ax_method c = GET /\
       get (ax_params c) "page" = or_default (param hp_page params) 1 /\
       get (ax_params c) "limit" = or_default (param hp_limit params) 20).
Proof.
  intros config params net. split.
  - intros p -> Hbad.
    destruct (validateHistoryParams_rejects p) as [e He].
    { destruct Hbad as [H | [H | H]]; [tauto | tauto |].
      right; right. apply blank_string_not_ok. exact H. }
    exists e. unfold historyQuery. rewrite He. reflexivity.
  - intros Hok.
    pose proof (validateHistoryParams_ok params Hok) as Hval.
    destruct (historyQuery_trace config params _ net Hval) as (k & _ & Hk & Hsent & _).
    exists k, (history_request config (validated_of params)).
    split; [exact Hk |]. split; [exact Hsent |].
    split; [reflexivity |]. split; [reflexivity |].
    destruct params as [p |]; [| split; reflexivity].
    destruct Hok as (Hp & Hl & _).
    cbn [history_request ax_params queryParams_of validated_of hp_page hp_limit param].
    split.
    + cbn. apply (or_else_default _ 1 None). exact Hp.
    + cbn. apply (or_else_default _ 20 (Some 100)). exact Hl.
Qed.

Lemma historyQuery_validates_before_sending_witness :
  (exists e, historyQuery default_config (Some page_zero) (always_answers JNull)
             = (Throw (ValidationExn e), always_answers JNull)) /\
  (exists (k : nat) (c : AxiosRequestConfig),
      (1 <= k)%nat /\
      sent (snd (historyQuery default_config None (always_answers JNull)))
        = (sent (always_answers JNull) ++ repeat c k)%list /\
      ax_url c = "/api/paper/history" /\ ax_method c = GET /\
      get (ax_params c) "page" = of_Z 1 /\
      get (ax_params c) "limit" = of_Z 20).
Proof.
  split.
  - apply (proj1 (historyQuery_validates_before_sending
                    default_config (Some page_zero) (always_answers JNull))
                 page_zero eq_refl).
    left. intros [Hu | (q & z & Heq & Hz & Hlo & _)]; [discriminate |].
    injection Heq as <-. apply (proj1 (inject_Z_injective 0 z)) in Hz. lia.
  - destruct (proj2 (historyQuery_validates_before_sending
                       default_config None (always_answers JNull)) I)
      as (k & c & Hk & H).
    exists k, c. split; [| exact H].
    apply Hk. exists 3. split; [reflexivity | lia].
Defined.

(** ** The history response *)

Lemma object_check (v : JsValue) :
  negb (truthy v) || negb (is_type v TObject) || is_null v = false <-> is_object v.
Proof.
  unfold is_object, is_type.
  destruct v as [| | b | n | s | l | l]; cbn;
    rewrite ?Bool.orb_true_r, ?Bool.orb_false_r; cbn;
    (split; [intros H | intros [H1 H2]]);
    try discriminate; try congruence;
    split; try reflexivity; discriminate.
Qed.

Lemma array_check (v : JsValue) : isArray v = true <-> is_array v.
Proof.
  unfold is_array. destruct v; simpl; split;
    try discriminate; try (intros [items H]; discriminate); eauto.
Qed.

Lemma validatePaper_shape (v : JsValue) :
  validatePaper v = true <-> paper_shape v.
Proof.
  unfold validatePaper, paper_shape.
  destruct (negb (truthy v) || negb (is_type v TObject) || is_null v) eqn:Hobj.
  - split; [discriminate |]. intros [Ho _]. apply object_check in Ho. congruence.
  - apply object_check in Hobj.
    rewrite !Bool.andb_true_iff, !is_type_true, !array_check. tauto.
Qed.

Lemma validateEntry_shape (v : JsValue) :
  validateEntry v = true <-> entry_shape v.
Proof.
  unfold validateEntry, entry_shape.
  destruct (negb (truthy v) || negb (is_type v TObject) || is_null v) eqn:Hobj.
  - split; [discriminate |]. intros [Ho _]. apply object_check in Ho. congruence.
  - apply object_check in Hobj.
    rewrite Bool.andb_true_iff, is_type_true, validatePaper_shape. tauto.
Qed.

Lemma entries_shape (entries : list JsValue) :
  forallb validateEntry entries = true <-> Forall entry_shape entries.
Proof.
  rewrite forallb_forall, List.Forall_forall. split; intros H x Hx.
  - apply validateEntry_shape. apply H. exact Hx.
  - apply validateEntry_shape. apply H. exact Hx.
Qed.

Lemma has_of_get (v : JsValue) (k : string) :
  get v k <> JUndefined -> has k v = true.
Proof.
  destruct v; simpl; try congruence. destruct (assoc k fields); congruence.
Qed.

Lemma pagination_check (v : JsValue) :
  negb (has "pagination" v) || negb (truthy (get v "pagination"))
  || negb (is_type (get v "pagination") TObject) = false
  <-> is_object (get v "pagination").
Proof.
  split.
  - intros H. apply Bool.orb_false_elim in H. destruct H as [H Hobj].
    apply Bool.orb_false_elim in H. destruct H as [_ Htruthy].
    apply Bool.negb_false_iff in Hobj, Htruthy. apply is_type_true in Hobj.
    split; [exact Hobj |]. intros Hnull. rewrite Hnull in Htruthy. discriminate.
  - intros [Hobj Hnull].
    rewrite (has_of_get v "pagination")
      by (intros Hu; rewrite Hu in Hobj; discriminate).
    rewrite (proj2 (is_type_true _ _) Hobj).
    destruct (get v "pagination"); try discriminate; try congruence; reflexivity.
Qed.

(** [validateHistoryResponse] accepts exactly the bodies of that shape. *)
Lemma validateHistoryResponse_shape (d : JsValue) :
  validateHistoryResponse d = true <-> history_shape d.
Proof.
  unfold validateHistoryResponse, history_shape.
  destruct (negb (truthy d) || negb (is_type d TObject) || is_null d) eqn:Hobj.
  { split; [discriminate |]. intros [Ho _]. apply object_check in Ho. congruence. }
  apply object_check in Hobj.
  destruct (get d "papers") as [| | b | n | s | entries | l] eqn:Hpapers;
    cbn [isArray negb items_of];
    try (rewrite Bool.orb_true_r; split; [discriminate |];
         intros (_ & (entries & Heq & _) & _); discriminate).
  rewrite (has_of_get d "papers") by (rewrite Hpapers; discriminate).
  cbn [negb orb].
  destruct (forallb validateEntry entries) eqn:Hall; cbn [negb orb].
  - apply entries_shape in Hall.
    destruct (negb (has "pagination" d) || negb (truthy (get d "pagination"))
              || negb (is_type (get d "pagination") TObject)) eqn:Hpg.
    + split; [discriminate |]. intros (_ & _ & Ho & _).
      apply pagination_check in Ho. rewrite <- !Bool.orb_assoc in Hpg.
      rewrite <- !Bool.orb_assoc in Ho. congruence.
    + apply pagination_check in Hpg.
      rewrite !Bool.andb_true_iff, !is_type_true. split.
      * intros H. split; [exact Hobj |]. split; [eauto |]. tauto.
      * tauto.
  - split; [discriminate |]. intros (_ & (entries' & Heq & Hshape) & _).
    injection Heq as <-. apply entries_shape in Hshape. congruence.
Qed.

(** C8 (as amended): [historyQuery] accepts a history response exactly when
    its body has the shape [{papers: [{paper, featuredDate, category?}],
    pagination: {page, limit, total, hasNext}}] with numeric [page], [limit],
    [total] and a boolean [hasNext]. The request ends after some number [k]
    of sends; when the last of them is answered with a body of that shape the
    query returns that body, and when it is answered with any other body the
    query throws the validation error [Invalid history response format]; a
    body whose pagination has no [hasNext] is not of that shape. Under a
    retry count that is a non-negative integer at least one send is made. *)
Theorem historyQuery_accepts_body_with_hasNext :
  forall (config : ApiConfig) (params : option HistoryQueryParams) (net : Net),
    params_ok params ->
    (forall d, get (get d "pagination") "hasNext" = JUndefined -> ~ history_shape d) /\
    exists k : nat,
      (counts_retries (retries config) -> (1 <= k)%nat) /\
      sent (snd (historyQuery config params net))
        = (sent net ++ repeat (history_request config (validated_of params)) k)%list /\
      forall resp,
        (1 <= k)%nat ->
        server net (length (sent net) + k - 1)%nat
               (history_request config (validated_of params)) = inr resp ->
        (history_shape (resp_data resp) ->
         fst (historyQuery config params net) = Return (resp_data resp)) /\
        (~ history_shape (resp_data resp) ->
         fst (historyQuery config params net)
         = Throw (ValidationExn
                    (createValidationError "Invalid history response format"
                                           (resp_data resp)))).
Proof.
  intros config params net Hok. split.
  { intros d Hmissing (_ & _ & _ & _ & _ & _ & Hbool).
    rewrite Hmissing in Hbool. discriminate. }
  destruct (historyQuery_trace config params _ net (validateHistoryParams_ok params Hok))
    as (k & _ & Hk1 & Hsent & Hlast).
  exists k. split; [exact Hk1 |]. split; [exact Hsent |].
  intros resp Hpos Hsrv. destruct k as [| k']; [lia |].
  replace (length (sent net) + S k' - 1)%nat
    with (length (sent net) + k')%nat in Hsrv by lia.
  rewrite Hsrv in Hlast. rewrite Hlast.
  destruct (validateHistoryResponse (resp_data resp)) eqn:Hvalid.
  - split; [reflexivity |]. intros Hnot. exfalso. apply Hnot.
    apply validateHistoryResponse_shape. exact Hvalid.
  - split; [| reflexivity]. intros Hshape.
    apply validateHistoryResponse_shape in Hshape. congruence.
Qed.

Lemma half_total_history_shape : history_shape half_total_history.
Proof. apply validateHistoryResponse_shape. reflexivity. Qed.

Lemma historyQuery_accepts_body_with_hasNext_witness :
  fst (historyQuery default_config None (always_answers half_total_history))
    = Return half_total_history.
Proof.
  destruct (historyQuery_accepts_body_with_hasNext default_config None
              (always_answers half_total_history) I)
    as (_ & k & Hk1 & _ & Hlast).
  assert (Hpos : (1 <= k)%nat) by (apply Hk1; exists 3; split; [reflexivity | lia]).
  apply (proj1 (Hlast {| resp_data := half_total_history; resp_status := 200 |}
                      Hpos eq_refl)).
  exact half_total_history_shape.
Defined.

(** C8 (as stated) fails: the body [{papers: [...], pagination: {page: 1,
    limit: 20, total: 100}}] has exactly the documented shape, yet
    [historyQuery] rejects it as an invalid format. *)
Lemma historyQuery_rejects_contract_body :
  fst (historyQuery default_config None
         (always_answers (contract_history_json [sample_entry] 1 20 100)))
  = Throw (ValidationExn
             (createValidationError "Invalid history response format"
                (contract_history_json [sample_entry] 1 20 100))).
Proof. vm_compute. reflexivity. Qed.

(** ** The rank step *)

Section SortFacts.

Context {A : Type} (compareFn : A -> A -> Z).

Lemma insert_sorted_perm (a : A) (l : list A) :
  Permutation (insert_sorted compareFn a l) (a :: l).
Proof.
  induction l as [| b l IH]; simpl; [reflexivity |].
  destruct (compareFn a b <=? 0); [reflexivity |].
  rewrite IH. apply perm_swap.
Qed.

Lemma sort_perm (l : list A) : Permutation (sort compareFn l) l.
Proof.
  induction l as [| a l IH]; simpl; [reflexivity |].
  rewrite insert_sorted_perm. constructor. exact IH.
Qed.

Lemma sort_length (l : list A) : length (sort compareFn l) = length l.
Proof. apply Permutation_length, sort_perm. Qed.

End SortFacts.

Lemma insert_sorted_Sorted (a : Paper) (l : list Paper) :
  Sorted cited_at_least l -> Sorted cited_at_least (insert_sorted byCitationsDesc a l).
Proof.
  induction l as [| b l IH]; intros Hs; simpl.
  - repeat constructor.
  - unfold byCitationsDesc at 1.
    destruct (Z.leb_spec (citationCount b - citationCount a) 0) as [Hle | Hgt].
    + constructor; [exact Hs |]. constructor. unfold cited_at_least. lia.
    + inversion Hs as [| ? ? Hs' Hhd]; subst.
      constructor; [apply IH; exact Hs' |].
      destruct l as [| c l]; simpl.
      * constructor. unfold cited_at_least. lia.
      * unfold byCitationsDesc at 1.
        destruct (citationCount c - citationCount a <=? 0).
        -- constructor. unfold cited_at_least. lia.
        -- inversion Hhd; subst. constructor. assumption.
Qed.

Lemma sort_Sorted (l : list Paper) : Sorted cited_at_least (sort byCitationsDesc l).
Proof.
  induction l as [| a l IH]; simpl; [constructor |].
  apply insert_sorted_Sorted, IH.
Qed.

Lemma cited_at_least_trans : Relations_1.Transitive cited_at_least.
Proof. intros a b c. unfold cited_at_least. lia. Qed.

Lemma firstn_In {A : Type} (x : A) (n : nat) (l : list A) :
  In x (firstn n l) -> In x l.
Proof.
  revert l. induction n as [| n IH]; intros [| a l]; simpl; try tauto.
  intros [-> | Hin]; [now left | right; apply IH; exact Hin].
Qed.

Lemma StronglySorted_firstn {A : Type} (R : A -> A -> Prop) (n : nat) (l : list A) :
  StronglySorted R l -> StronglySorted R (firstn n l).
Proof.
  revert l. induction n as [| n IH]; intros l Hs; simpl; [constructor |].
  destruct l as [| a l]; [constructor |].
  inversion Hs as [| ? ? Hs' Hall]; subst.
  constructor; [apply IH; exact Hs' |].
  rewrite List.Forall_forall in *. intros x Hx. apply Hall.
  eapply firstn_In; eauto.
Qed.

(** Stability: papers with one and the same count keep their input order. *)
Lemma insert_sorted_stable (v : Z) (a : Paper) (l : list Paper) :
  List.filter (cited v) (insert_sorted byCitationsDesc a l)
  = List.filter (cited v) (a :: l).
Proof.
  induction l as [| b l IH]; [reflexivity |].
  cbn [insert_sorted]. unfold byCitationsDesc at 1.
  destruct (Z.leb_spec (citationCount b - citationCount a) 0) as [Hle | Hgt];
    [reflexivity |].
  cbn [List.filter] in *. rewrite IH. unfold cited.
  destruct (Z.eqb_spec (citationCount a) v), (Z.eqb_spec (citationCount b) v);
    try reflexivity; lia.
Qed.

Lemma sort_stable (v : Z) (l : list Paper) :
  List.filter (cited v) (sort byCitationsDesc l) = List.filter (cited v) l.
Proof.
  induction l as [| a l IH]; [reflexivity |].
  cbn [sort]. rewrite insert_sorted_stable. cbn [List.filter]. rewrite IH. reflexivity.
Qed.

Lemma insert_sorted_front (a b : Paper) (l : list Paper) :
  citationCount b <= citationCount a ->
  insert_sorted byCitationsDesc a (b :: l) = a :: b :: l.
Proof.
  intros H. cbn [insert_sorted]. unfold byCitationsDesc.
  destruct (Z.leb_spec (citationCount b - citationCount a) 0); [reflexivity | lia].
Qed.

Lemma insert_sorted_behind (a b : Paper) (l : list Paper) :
  citationCount a < citationCount b ->
  insert_sorted byCitationsDesc a (b :: l) = b :: insert_sorted byCitationsDesc a l.
Proof.
  intros H. cbn [insert_sorted]. unfold byCitationsDesc at 1.
  destruct (Z.leb_spec (citationCount b - citationCount a) 0); [lia | reflexivity].
Qed.

Ltac place_inserts :=
  repeat first [ rewrite insert_sorted_front by lia
               | rewrite insert_sorted_behind by lia ].

Lemma insert_sorted_comm (a b : Paper) (l : list Paper) :
  citationCount a <> citationCount b ->
  insert_sorted byCitationsDesc a (insert_sorted byCitationsDesc b l)
  = insert_sorted byCitationsDesc b (insert_sorted byCitationsDesc a l).
Proof.
  intros Hne. induction l as [| c l IH].
  - change (insert_sorted byCitationsDesc a [b] = insert_sorted byCitationsDesc b [a]).
    destruct (Z.lt_total (citationCount a) (citationCount b)) as [Hab | [Hab | Hab]];
      [| contradiction |]; place_inserts; reflexivity.
  - destruct (Z.lt_total (citationCount a) (citationCount b)) as [Hab | [Hab | Hab]];
      [| contradiction |];
      destruct (Z_le_gt_dec (citationCount c) (citationCount a)) as [Hca | Hca];
      destruct (Z_le_gt_dec (citationCount c) (citationCount b)) as [Hcb | Hcb];
      try lia; place_inserts; try rewrite IH; reflexivity.
Qed.

Lemma sort_permutation_invariant (l l' : list Paper) :
  Permutation l l' ->
  List.NoDup (map citationCount l) ->
  sort byCitationsDesc l' = sort byCitationsDesc l.
Proof.
  induction 1 as [| x l l' Hp IH | x y l | l l' l'' Hp1 IH1 Hp2 IH2]; intros Hnd.
  - reflexivity.
  - cbn [sort]. rewrite IH; [reflexivity |]. now inversion Hnd.
  - cbn [sort]. apply insert_sorted_comm.
    cbn [map] in Hnd. inversion Hnd as [| ? ? Hnotin _]; subst.
    intros Heq. apply Hnotin. left. exact Heq.
  - rewrite IH2, IH1; [reflexivity | exact Hnd |].
    eapply Permutation_NoDup; [| exact Hnd]. apply Permutation_map. exact Hp1.
Qed.

Lemma rank_length (l : list Paper) : length (rank l) = Nat.min (length l) 10.
Proof.
  unfold rank, slice0. rewrite length_firstn, sort_length. apply Nat.min_comm.
Qed.

(** C2 (as amended): the rank step orders the candidates by citation count
    descending and keeps papers of equal count in their input order (there is
    no tie-break on the identifier); for every permutation of a candidate set
    whose citation counts are pairwise distinct, rank(shuffle(papers)) equals
    rank(papers). *)
Theorem rank_sorted_stable_deterministic :
  forall (papers shuffled : list Paper),
    StronglySorted cited_at_least (rank papers) /\
    (forall v : Z,
        List.filter (cited v) (sort byCitationsDesc papers)
        = List.filter (cited v) papers) /\
    (Permutation papers shuffled ->
     List.NoDup (map citationCount papers) ->
     rank shuffled = rank papers).
Proof.
  intros papers shuffled. split; [| split].
  - unfold rank, slice0. apply StronglySorted_firstn.
    apply Sorted_StronglySorted; [exact cited_at_least_trans | apply sort_Sorted].
  - intros v. apply sort_stable.
  - intros Hperm Hnd. unfold rank.
    rewrite (sort_permutation_invariant papers shuffled Hperm Hnd). reflexivity.
Qed.

Lemma rank_sorted_stable_deterministic_witness :
  rank [paper_of "1706.00002" 5; paper_of "1706.00001" 7]
  = rank [paper_of "1706.00001" 7; paper_of "1706.00002" 5].
Proof.
  apply (proj2 (proj2 (rank_sorted_stable_deterministic
                         [paper_of "1706.00001" 7; paper_of "1706.00002" 5]
                         [paper_of "1706.00002" 5; paper_of "1706.00001" 7]))).
  - apply perm_swap.
  - simpl. constructor.
    + simpl. intros [H | []]. discriminate.
    + constructor; [intros [] | constructor].
Defined.

(** C2 (as stated) fails: two papers with the same citation count come out
    in whatever order they went in, so the identifier does not break the tie
    and a shuffle of the candidates changes the ranking. *)
Lemma rank_depends_on_input_order :
  Permutation [paper_of "1706.00001" 5; paper_of "1706.00002" 5]
              [paper_of "1706.00002" 5; paper_of "1706.00001" 5] /\
  rank [paper_of "1706.00002" 5; paper_of "1706.00001" 5]
    = [paper_of "1706.00002" 5; paper_of "1706.00001" 5] /\
  rank [paper_of "1706.00002" 5; paper_of "1706.00001" 5]
    <> rank [paper_of "1706.00001" 5; paper_of "1706.00002" 5].
Proof.
  split; [apply perm_swap |]. split; [reflexivity |].
  vm_compute. intros H. discriminate H.
Qed.

(** ** The shortlist and the cache *)









Lemma NoDup_firstn {A : Type} (n : nat) (l : list A) :
  List.NoDup l -> List.NoDup (firstn n l).
Proof.
  intros Hnd. rewrite <- (firstn_skipn n l) in Hnd.
  apply NoDup_app_remove_r in Hnd. exact Hnd.
Qed.


Section EngineFacts.

Variable arxiv : CalendarDate -> option string -> list Paper.
Variable citations : string -> option Z.
Variable random : nat -> Q.

#[local] Abbreviation select := (selectDailyPaper arxiv citations random).

Lemma getCachedPaper_hit (date : CalendarDate) (category : option string)
    (db : Db) (sel : Selection) (p : Paper) :
  featured db !! (date, category) = Some sel ->
  chosen sel = RObj p ->
  getCachedPaper date category db = RObj p.
Proof. intros Hsel Hch. unfold getCachedPaper. rewrite Hsel, Hch. reflexivity. Qed.

Lemma select_hit (date : CalendarDate) (category : option string)
    (db : Db) (p : Paper) :
  getCachedPaper date category db = RObj p ->
  select date category db = (RObj p, db).
Proof. intros Hc. unfold selectDailyPaper. rewrite Hc. reflexivity. Qed.

(** What a run that misses the cache does. *)
Lemma select_miss (date : CalendarDate) (category : option string) (db : Db) :
  ref_truthy (getCachedPaper date category db) = false ->
  let top := rank (candidates arxiv citations date category) in
  let picked :=
    index top (Qfloor (random (draws db) * inject_Z (Z.of_nat (length top)))) in
  select date category db =
    (picked,
     {| featured := <[(date, category) :=
                        {| shortlist :=
                             insert_rows (rows_from 1 date category top) [];
                           chosen := picked |}]> (featured db);
        fetches := fetches db + length (getLast10YearsDateRanges date);
        writes := S (writes db);
        draws := S (draws db) |}).
Proof.
  intros Hmiss. unfold selectDailyPaper. rewrite Hmiss. reflexivity.
Qed.

Lemma getCachedPaper_cases (date : CalendarDate) (category : option string) (db : Db) :
  (exists sel p, featured db !! (date, category) = Some sel
                 /\ chosen sel = RObj p
                 /\ getCachedPaper date category db = RObj p)
  \/ ref_truthy (getCachedPaper date category db) = false.
Proof.
  unfold getCachedPaper.
  destruct (featured db !! (date, category)) as [sel |] eqn:Hsel; [| now right].
  destruct (chosen sel) as [| | p] eqn:Hch; [now right | now right |].
  left. eauto.
Qed.

Lemma select_twice (date : CalendarDate) (category : option string)
    (db : Db) (p : Paper) :
  fst (select date category db) = RObj p ->
  select date category (snd (select date category db))
  = (RObj p, snd (select date category db)).
Proof.
  intros Hfirst.
  destruct (getCachedPaper_cases date category db)
    as [(sel & p' & Hsel & Hch & Hget) | Hmiss].
  - rewrite (select_hit _ _ _ _ Hget) in *. simpl in *.
    injection Hfirst as ->. apply select_hit. exact Hget.
  - rewrite (select_miss _ _ _ Hmiss) in *. cbn [fst snd] in *.
    apply select_hit. unfold getCachedPaper. cbn [featured].
    rewrite lookup_insert_eq. cbn [chosen]. rewrite Hfirst. reflexivity.
Qed.

End EngineFacts.

(** C1: if a selection with a chosen paper is already stored for
    (date, category), [selectDailyPaper] returns that paper and leaves the
    whole state as it was: the same shortlist, no provider fetch, no write, no
    random draw. Hence a second call, after a first one that chose a paper,
    returns the same paper and changes nothing. The category may be [None],
    the cross-category key. *)
Theorem selectDailyPaper_idempotent :
  forall (arxiv : CalendarDate -> option string -> list Paper)
         (citations : string -> option Z) (random : nat -> Q)
         (date : CalendarDate) (category : option string) (db : Db),
    (forall sel p,
        featured db !! (date, category) = Some sel ->
        chosen sel = RObj p ->
        selectDailyPaper arxiv citations random date category db = (RObj p, db)) /\
    (forall p,
        fst (selectDailyPaper arxiv citations random date category db) = RObj p ->
        let db' := snd (selectDailyPaper arxiv citations random date category db) in
        selectDailyPaper arxiv citations random date category db' = (RObj p, db')).
Proof.
  intros arxiv citations random date category db. split.
  - intros sel p Hsel Hch. apply select_hit.
    apply (getCachedPaper_hit date category db sel p Hsel Hch).
  - intros p Hfirst. apply select_twice. exact Hfirst.
Qed.

Lemma selectDailyPaper_idempotent_witness :
  let db' := snd (selectDailyPaper two_per_date no_citations first_always
                    june_12_2024 None empty_db) in
  selectDailyPaper two_per_date no_citations first_always june_12_2024 None db'
  = (RObj (paper_of "b" 2123), db').
Proof.
  apply (proj2 (selectDailyPaper_idempotent two_per_date no_citations first_always
                  june_12_2024 None empty_db)).
  vm_compute. reflexivity.
Defined.



(** C6, the code at the failing input: with no candidate the shortlist is
    empty, [topPapers[0]] is [undefined], and that is both what
    [selectDailyPaper] returns and what it stores as the chosen paper. *)
Theorem selectDailyPaper_empty_shortlist_undefined :
  forall (arxiv : CalendarDate -> option string -> list Paper)
         (citations : string -> option Z) (random : nat -> Q)
         (date : CalendarDate) (category : option string) (db : Db),
    ref_truthy (getCachedPaper date category db) = false ->
    candidates arxiv citations date category = [] ->
    fst (selectDailyPaper arxiv citations random date category db) = RUndefined /\
    featured (snd (selectDailyPaper arxiv citations random date category db))
      !! (date, category) = Some {| shortlist := []; chosen := RUndefined |}.
Proof.
  intros arxiv citations random date category db Hmiss Hnone.
  rewrite (select_miss arxiv citations random date category db Hmiss).
  rewrite Hnone. cbn [fst snd featured].
  assert (Hidx : forall i : Z, @index Paper [] i = RUndefined).
  { intros i. unfold index. destruct (i <? 0); [reflexivity |].
    destruct (Z.to_nat i); reflexivity. }
  change (rank []) with (@nil Paper). rewrite Hidx.
  split; [reflexivity | apply lookup_insert_eq].
Qed.

Lemma selectDailyPaper_empty_shortlist_undefined_witness :
  fst (selectDailyPaper two_per_date no_citations first_always
         june_12_2024 (Some "math.GT") empty_db) = RUndefined /\
  featured (snd (selectDailyPaper two_per_date no_citations first_always
                   june_12_2024 (Some "math.GT") empty_db))
    !! (june_12_2024, Some "math.GT")
  = Some {| shortlist := []; chosen := RUndefined |}.
Proof.
  apply (selectDailyPaper_empty_shortlist_undefined two_per_date no_citations
           first_always june_12_2024 (Some "math.GT") empty_db);
    reflexivity.
Defined.

(** ** The historical window *)

Lemma windowDates_length (targetDate : CalendarDate) (yearsBack : nat) :
  length (windowDates targetDate yearsBack) = yearsBack.
Proof. unfold windowDates. rewrite length_map, length_seq. reflexivity. Qed.

Lemma candidate_leap_day (Y y : Z) :
  let d := candidate_date {| year := Y; month := 2; day := 29 |} y in
  year d = y /\ month d = 2 /\
  day d = (if is_leap_year y then 29 else 28) /\
  valid_date d = true.
Proof.
  unfold candidate_date. cbn [month day Z.eqb Pos.eqb andb].
  destruct (is_leap_year y) eqn:Hleap; cbn [negb year month day].
  - unfold valid_date, days_in_month. cbn [year month day]. rewrite Hleap. repeat split.
  - unfold valid_date, days_in_month. cbn [year month day]. rewrite Hleap. repeat split.
Qed.

Lemma valid_date_iff (d : CalendarDate) :
  valid_date d = true <->
  1 <= month d <= 12 /\ 1 <= day d <= days_in_month (year d) (month d).
Proof.
  unfold valid_date. rewrite !andb_true_iff, !Z.leb_le. tauto.
Qed.

Lemma days_in_month_other_year (Y y m : Z) :
  m <> 2 -> days_in_month y m = days_in_month Y m.
Proof.
  intros Hm. unfold days_in_month.
  destruct (Z.eqb_spec m 2); [contradiction | reflexivity].
Qed.

Lemma days_in_february (y : Z) : 28 <= days_in_month y 2 <= 29.
Proof.
  unfold days_in_month. cbn [Z.eqb Pos.eqb]. destruct (is_leap_year y); lia.
Qed.

Lemma candidate_date_valid (targetDate : CalendarDate) (y : Z) :
  valid_date targetDate = true -> valid_date (candidate_date targetDate y) = true.
Proof.
  intros Hv. apply valid_date_iff in Hv.
  destruct targetDate as [Y M D]. cbn [year month day] in Hv.
  unfold candidate_date. cbn [year month day].
  destruct (Z.eqb_spec M 2) as [-> | HM].
  - pose proof (days_in_february Y) as HY.
    destruct (Z.eqb_spec D 29) as [-> | HD]; cbn [andb].
    + destruct (is_leap_year y) eqn:Hleap; cbn [negb];
        apply valid_date_iff; cbn [year month day];
        unfold days_in_month; cbn [Z.eqb Pos.eqb]; rewrite Hleap; lia.
    + apply valid_date_iff. cbn [year month day].
      pose proof (days_in_february y). lia.
  - cbn [andb]. apply valid_date_iff. cbn [year month day].
    rewrite (days_in_month_other_year Y y M HM). exact Hv.
Qed.

(** C4: [windowDates] returns exactly [yearsBack] dates, one for each of the
    years Y-1, ..., Y-yearsBack, all of them real calendar dates when the
    target is one; for a February 29 target every one of them lies in
    February, on the 29th in leap years and on the 28th in the others; and
    windowDates(Feb 29 2024, 10) is the ten dates listed. *)
Theorem windowDates_exactly_yearsBack :
  (forall (targetDate : CalendarDate) (yearsBack : nat),
      length (windowDates targetDate yearsBack) = yearsBack /\
      map year (windowDates targetDate yearsBack)
      = map (fun i => year targetDate - Z.of_nat i) (seq 1 yearsBack) /\
      (valid_date targetDate = true ->
       Forall (fun d => valid_date d = true) (windowDates targetDate yearsBack))) /\
  (forall (Y : Z) (yearsBack : nat),
      Forall (fun d => month d = 2 /\
                       day d = (if is_leap_year (year d) then 29 else 28) /\
                       valid_date d = true)
             (windowDates {| year := Y; month := 2; day := 29 |} yearsBack)) /\
  windowDates {| year := 2024; month := 2; day := 29 |} 10 =
    [ {| year := 2023; month := 2; day := 28 |};
      {| year := 2022; month := 2; day := 28 |};
      {| year := 2021; month := 2; day := 28 |};
      {| year := 2020; month := 2; day := 29 |};
      {| year := 2019; month := 2; day := 28 |};
      {| year := 2018; month := 2; day := 28 |};
      {| year := 2017; month := 2; day := 28 |};
      {| year := 2016; month := 2; day := 29 |};
      {| year := 2015; month := 2; day := 28 |};
      {| year := 2014; month := 2; day := 28 |} ].
Proof.
  split; [| split].
  - intros targetDate yearsBack. split; [apply windowDates_length |]. split.
    + unfold windowDates. rewrite map_map. apply map_ext. intros i.
      unfold candidate_date. destruct (_ && _); reflexivity.
    + intros Hv. unfold windowDates. apply List.Forall_forall.
      intros d Hd. apply in_map_iff in Hd. destruct Hd as (i & <- & _).
      apply candidate_date_valid. exact Hv.
  - intros Y yearsBack. unfold windowDates. apply List.Forall_forall.
    intros d Hd. apply in_map_iff in Hd. destruct Hd as (i & <- & _).
    destruct (candidate_leap_day Y (Y - Z.of_nat i)) as (Hy & Hm & Hday & Hvalid).
    cbn [year] in *. rewrite Hy. auto.
  - reflexivity.
Qed.

(** * Further properties *)

(** ** The request loop, send by send *)

(** X1: under a retry count that is a non-negative integer a request makes at
    least one and at most max(1, retries) sends; under a negative count or
    [NaN] it makes none. In every case the sends are all of the same request;
    between two consecutive sends it sleeps exactly once, the i-th sleep
    lasting calculateRetryDelay(i) with the i-th value of Math.random(); and
    it ends in the [throw lastError] behind the loop, throwing [undefined],
    exactly when it has sent nothing. *)
Theorem request_sends_and_sleeps :
  forall (config : ApiConfig) (req : ApiRequest) (net : Net),
  exists k,
    (k <= max_sends (retries config))%nat /\
    (k = 0%nat <-> ~ counts_retries (retries config)) /\
    sent (snd (request config req net))
      = (sent net ++ repeat (axiosConfig_of config req) k)%list /\
    slept (snd (request config req net))
      = (slept net
         ++ map (fun i => calculateRetryDelay config
                            (random net (length (slept net) + i)) (i + 1))
                (seq 0 (k - 1)))%list /\
    (fst (request config req net) = Throw UndefinedExn <-> k = 0%nat).
Proof.
  intros config req net.
  destruct (request_trace config req net)
    as (k & Hk & Hk1 & _ & _ & Hsent & Hslept & Hlast).
  exists k. split; [exact Hk |]. split; [| split; [exact Hsent | split]].
  - rewrite counts_retries_max_sends in *. lia.
  - rewrite Hslept. f_equal. apply map_ext. intros i. unfold nth_delay.
    f_equal. lia.
  - destruct k as [| k']; [tauto |].
    destruct (server net _ _); rewrite Hlast; split; discriminate.
Qed.

(** X2: the request stops at the first decisive send. Let [j] be between 1
    and the most sends the retry count allows (max(1, retries) for a count
    that is a non-negative integer; no such [j] exists for a negative count
    or [NaN]). If the first [j - 1] sends fail with retryable errors, and the
    [j]-th send succeeds, or fails with an error that is not retryable, or is
    the last send allowed, then exactly [j] sends and [j - 1] sleeps happen
    and the outcome is that of the [j]-th send. *)
Theorem request_stops_at_first_decisive_send :
  forall (config : ApiConfig) (req : ApiRequest) (net : Net) (j : nat),
    (1 <= j <= max_sends (retries config))%nat ->
    (forall i, (i < j - 1)%nat ->
       exists err,
         server net (length (sent net) + i)%nat (axiosConfig_of config req) = inl err
         /\ isRetryableError (transformError err) = true) ->
    (j = max_sends (retries config) \/
     match server net (length (sent net) + j - 1)%nat (axiosConfig_of config req) with
     | inr _ => True
     | inl err => isRetryableError (transformError err) = false
     end) ->
    length (sent (snd (request config req net))) = (length (sent net) + j)%nat /\
    length (slept (snd (request config req net))) = (length (slept net) + (j - 1))%nat /\
    match server net (length (sent net) + j - 1)%nat (axiosConfig_of config req) with
    | inr resp => fst (request config req net) = Return resp
    | inl err => fst (request config req net) = Throw (ClientExn (transformError err))
    end.
Proof.
  intros config req net j Hj Hfail Hstop.
  apply request_decisive_send; assumption.
Qed.

Lemma request_stops_at_first_decisive_send_witness :
  length (sent (snd (request default_config health_request
                       (fails_once (status_error 503))))) = 2%nat /\
  length (slept (snd (request default_config health_request
                        (fails_once (status_error 503))))) = 1%nat /\
  fst (request default_config health_request (fails_once (status_error 503)))
    = Return ok_response.
Proof.
  apply (request_stops_at_first_decisive_send default_config health_request
           (fails_once (status_error 503)) 2).
  - simpl. lia.
  - intros i Hi. assert (i = 0)%nat as -> by lia.
    exists (status_error 503). split; reflexivity.
  - right. exact I.
Defined.

(** X3: under a retry count that is a non-negative integer, against a server
    whose every answer is a retryable failure, the request makes exactly
    max(1, retries) sends, sleeps once between each two, and throws the error
    of the last send; with the default [retries = 3] that is three sends, two
    of them retries. *)
Theorem request_gives_up_after_retry_count :
  forall (config : ApiConfig) (req : ApiRequest) (net : Net),
    counts_retries (retries config) ->
    (forall i c, exists err,
        server net i c = inl err /\ isRetryableError (transformError err) = true) ->
    let n := max_sends (retries config) in
    length (sent (snd (request config req net))) = (length (sent net) + n)%nat /\
    length (slept (snd (request config req net))) = (length (slept net) + (n - 1))%nat /\
    exists err,
      server net (length (sent net) + n - 1)%nat (axiosConfig_of config req) = inl err /\
      fst (request config req net) = Throw (ClientExn (transformError err)).
Proof.
  intros config req net Hcount Hdown n.
  apply counts_retries_max_sends in Hcount.
  destruct (request_decisive_send config req net n)
    as (Hsent & Hslept & Hlast).
  - unfold n. lia.
  - intros i _. apply Hdown.
  - left. reflexivity.
  - split; [exact Hsent |]. split; [exact Hslept |].
    destruct (Hdown (length (sent net) + n - 1)%nat (axiosConfig_of config req))
      as (err & Herr & _).
    exists err. rewrite Herr in Hlast. split; assumption.
Qed.

Lemma request_gives_up_after_retry_count_witness :
  length (sent (snd (request default_config health_request server_down))) = 3%nat /\
  length (slept (snd (request default_config health_request server_down))) = 2%nat /\
  exists err,
    server server_down 2%nat (axiosConfig_of default_config health_request) = inl err /\
    fst (request default_config health_request server_down)
      = Throw (ClientExn (transformError err)).
Proof.
  apply (request_gives_up_after_retry_count default_config health_request server_down).
  - exists 3. split; [reflexivity | lia].
  - intros i c. exists (status_error 503). split; reflexivity.
Defined.

(** ** The back-off delay *)

Lemma exponentialDelay_nonneg (config : ApiConfig) (attempt : nat) :
  0 <= retryDelay config ->
  (0 <= inject_Z (retryDelay config) * Qpower 2 (Z.of_nat attempt - 1))%Q.
Proof.
  intros Hbase. apply Qmult_le_0_compat.
  - change 0%Q with (inject_Z 0). rewrite <- Zle_Qle. exact Hbase.
  - apply Qpower_0_le. discriminate.
Qed.

(** X4: for a non-negative base delay and a random value in [0, 1), the
    back-off delay of an attempt is at least the exponential delay
    base * 2^(attempt-1) cut at 30000 ms, at most 30000 ms, and it never
    shrinks from one attempt to the next. *)
Theorem calculateRetryDelay_bounds :
  forall (config : ApiConfig) (rnd : Q) (attempt : nat),
    0 <= retryDelay config ->
    (0 <= rnd)%Q -> (rnd < 1)%Q ->
    let exponentialDelay :=
      (inject_Z (retryDelay config) * Qpower 2 (Z.of_nat attempt - 1))%Q in
    (Qmin exponentialDelay (inject_Z 30000)
       <= calculateRetryDelay config rnd attempt)%Q /\
    (calculateRetryDelay config rnd attempt <= inject_Z 30000)%Q /\
    (calculateRetryDelay config rnd attempt
       <= calculateRetryDelay config rnd (S attempt))%Q.
Proof.
  intros config rnd attempt Hbase Hr0 Hr1 e.
  pose proof (exponentialDelay_nonneg config attempt Hbase) as He. fold e in He.
  split; [| split; [apply calculateRetryDelay_capped |]];
    unfold calculateRetryDelay, getRetryDelay; fold e.
  - apply Q.min_le_compat_r. nra.
  - apply Q.min_le_compat_r.
    assert (Hdouble :
              (inject_Z (retryDelay config) * Qpower 2 (Z.of_nat (S attempt) - 1)
               == 2 * e)%Q).
    { replace (Z.of_nat (S attempt) - 1) with (1 + (Z.of_nat attempt - 1)) by lia.
      rewrite Qpower_plus by discriminate. unfold e.
      change (Qpower 2 1) with 2%Q. ring. }
    rewrite Hdouble. nra.
Qed.

Lemma calculateRetryDelay_bounds_witness :
  (Qmin (inject_Z 1000 * Qpower 2 (Z.of_nat 3 - 1)) (inject_Z 30000)
     <= calculateRetryDelay default_config (1 # 2) 3)%Q /\
  (calculateRetryDelay default_config (1 # 2) 3 <= inject_Z 30000)%Q /\
  (calculateRetryDelay default_config (1 # 2) 3
     <= calculateRetryDelay default_config (1 # 2) 4)%Q.
Proof.
  apply (calculateRetryDelay_bounds default_config (1 # 2) 3).
  - simpl. lia.
  - unfold Qle. simpl. lia.
  - unfold Qlt. simpl. lia.
Defined.

(** ** [healthCheck] *)

(** X5: [healthCheck] never throws. It sends [GET /health] with a 5000 ms
    timeout, at most max(1, retries) times, and answers [true] exactly when
    it has sent and the last of its sends is answered with status 200. Under
    a retry count that is a non-negative integer it sends at least once;
    under a negative count or [NaN] it sends nothing and answers [false]. *)
Theorem healthCheck_true_iff_200 :
  forall (config : ApiConfig) (net : Net),
  exists k,
    (k <= max_sends (retries config))%nat /\
    (counts_retries (retries config) -> (1 <= k)%nat) /\
    let c := {| ax_url := "/health"; ax_method := GET; ax_data := JUndefined;
                ax_params := JUndefined; ax_timeout := 5000 |} in
    sent (snd (healthCheck config net)) = (sent net ++ repeat c k)%list /\
    (fst (healthCheck config net) = true <->
     (1 <= k)%nat /\
     exists resp, server net (length (sent net) + k - 1)%nat c = inr resp
                  /\ resp_status resp = 200).
Proof.
  intros config net.
  set (req := {| url := "/health"; method := GET; data := JUndefined;
                 params := JUndefined; req_timeout := Some 5000 |}).
  destruct (request_trace config req net) as (k & Hk & Hk1 & _ & _ & Hsent & _ & Hlast).
  exists k. split; [exact Hk |]. split; [exact Hk1 |]. cbv zeta.
  change (axiosConfig_of config req)
    with {| ax_url := "/health"; ax_method := GET; ax_data := JUndefined;
            ax_params := JUndefined; ax_timeout := 5000 |} in *.
  unfold healthCheck. fold req.
  destruct (request config req net) as [[resp | e] net']; cbn [fst snd] in *.
  - split; [exact Hsent |].
    destruct k as [| k']; [discriminate |].
    replace (length (sent net) + S k' - 1)%nat with (length (sent net) + k')%nat by lia.
    destruct (server net _ _) as [err | resp'] eqn:Hsrv; [discriminate |].
    injection Hlast as <-. rewrite Z.eqb_eq. split.
    + intros H200. split; [lia |]. exists resp. split; [reflexivity | exact H200].
    + intros (_ & r & Hr & H200). injection Hr as <-. exact H200.
  - split; [exact Hsent |].
    split; [discriminate |]. intros (Hpos & r & Hr & _).
    destruct k as [| k']; [lia |].
    replace (length (sent net) + S k' - 1)%nat
      with (length (sent net) + k')%nat in Hr by lia.
    rewrite Hr in Hlast. discriminate.
Qed.

Lemma healthCheck_true_iff_200_witness :
  fst (healthCheck default_config (always_answers JNull)) = true.
Proof.
  destruct (healthCheck_true_iff_200 default_config (always_answers JNull))
    as (k & _ & Hk1 & _ & Htrue).
  assert (Hpos : (1 <= k)%nat) by (apply Hk1; exists 3; split; [reflexivity | lia]).
  apply Htrue. split; [exact Hpos |].
  exists {| resp_data := JNull; resp_status := 200 |}. split; reflexivity.
Defined.

(** ** Error messages and error guards *)

Lemma status_text_nonempty (st : Z) (s : string) :
  status_text st = Some s -> s <> "".
Proof.
  unfold status_text.
  repeat match goal with
         | |- context [if ?b then _ else _] => destruct b
         end;
    intros H; try discriminate; injection H as <-; discriminate.
Qed.

Lemma string_field_get (k : string) (data : JsValue) (s : string) :
  string_field k data = Some s -> get data k = JStr s.
Proof.
  unfold string_field. destruct (has k data); [| discriminate].
  destruct (get data k); try discriminate. intros H. injection H as ->. reflexivity.
Qed.

Lemma body_message_empty (data : JsValue) :
  body_message data = Some "" ->
  exists k, In k ["message"; "error"; "detail"] /\ get data k = JStr "".
Proof.
  unfold body_message. destruct (truthy data) eqn:Ht; [| discriminate].
  assert (Hfields :
            match string_field "message" data with
            | Some s => Some s
            | None => match string_field "error" data with
                      | Some s => Some s
                      | None => string_field "detail" data
                      end
            end = Some "" ->
            exists k, In k ["message"; "error"; "detail"] /\ get data k = JStr "").
  { destruct (string_field "message" data) as [s |] eqn:Hm.
    - intros H. injection H as ->. exists "message".
      split; [simpl; tauto | apply string_field_get; exact Hm].
    - destruct (string_field "error" data) as [s |] eqn:He.
      + intros H. injection H as ->. exists "error".
        split; [simpl; tauto | apply string_field_get; exact He].
      + intros Hd. exists "detail".
        split; [simpl; tauto | apply string_field_get; exact Hd]. }
  destruct data as [| | b | n | s | l | l]; try discriminate;
    try (destruct (is_type _ TObject && _); [exact Hfields | discriminate]).
  intros H. injection H as ->. discriminate.
Qed.

(** X6: the message [getErrorMessage] computes is empty only when the
    response body itself holds an empty string under [message], [error] or
    [detail]; and a string under [message] in an object body is the result,
    whatever the status and the other fields are. *)
Theorem getErrorMessage_empty_only_from_body :
  forall (error : AxiosError),
    (getErrorMessage error = "" ->
     exists st data k,
       ax_response error = Some (st, data) /\
       In k ["message"; "error"; "detail"] /\ get data k = JStr "") /\
    (forall st fields m,
        ax_response error = Some (st, JObj fields) ->
        get (JObj fields) "message" = JStr m ->
        getErrorMessage error = m).
Proof.
  intros error. split.
  - unfold getErrorMessage.
    assert (Hfallback :
              (if String.eqb (ax_message error) ""
               then "An unexpected error occurred." else ax_message error) <> "").
    { destruct (String.eqb_spec (ax_message error) ""); [discriminate | assumption]. }
    destruct (ax_response error) as [[st data] |].
    + destruct (body_message data) as [s |] eqn:Hb.
      * intros ->. destruct (body_message_empty data Hb) as (k & Hk & Hget).
        exists st, data, k. auto.
      * destruct (status_text st) as [s |] eqn:Hs.
        -- intros ->. exfalso. exact (status_text_nonempty st "" Hs eq_refl).
        -- intros H. contradiction.
    + intros H. contradiction.
  - intros st fields m Hresp Hget. unfold getErrorMessage. rewrite Hresp.
    unfold body_message, string_field. cbn [truthy is_type typeof is_null].
    cbn [JsType_eqb andb negb]. rewrite Hget.
    assert (Hhas : has "message" (JObj fields) = true).
    { unfold has. unfold get in Hget.
      destruct (assoc "message" fields); [reflexivity | discriminate]. }
    rewrite Hhas. reflexivity.
Qed.

Lemma getErrorMessage_empty_only_from_body_witness :
  getErrorMessage
    {| ax_response := Some (404, JObj [("error", JStr "x"); ("message", JStr "No such paper")]);
       ax_code := None; ax_message := "Request failed with status code 404" |}
  = "No such paper".
Proof.
  apply (proj2 (getErrorMessage_empty_only_from_body _) 404
               [("error", JStr "x"); ("message", JStr "No such paper")]);
    reflexivity.
Defined.

Lemma Qeq_bool_inject_Z (a b : Z) : Qeq_bool (inject_Z a) (inject_Z b) = (a =? b).
Proof.
  destruct (Z.eqb_spec a b) as [-> | Hne].
  - apply Qeq_bool_iff. reflexivity.
  - destruct (Qeq_bool (inject_Z a) (inject_Z b)) eqn:Hq; [| reflexivity].
    apply Qeq_bool_iff in Hq. apply (proj1 (inject_Z_injective a b)) in Hq.
    contradiction.
Qed.

Lemma includes_value_of_Z (l : list Z) (st : Z) :
  includes_value l (of_Z st) = includes l st.
Proof.
  unfold includes_value, includes, of_Z.
  induction l as [| z l IH]; [reflexivity |].
  cbn [existsb]. rewrite IH, Qeq_bool_inject_Z. reflexivity.
Qed.

(** X7: on every error [transformError] builds, the guards of [types.ts]
    classify it by shape as the client does by construction: [isApiError]
    holds exactly when a response was received, [isNetworkError] exactly when
    none was, [isValidationError] never; [isRetryableError] of the client and
    [isRetryableApiError] of the package index agree; and [handleApiError]
    returns the message the error was built with. The two retry helpers
    differ elsewhere: an [Error] whose [isNetworkError] is [false] is
    retryable for the first only. *)
Theorem error_guards_on_transformed_errors :
  forall (err : AxiosError),
    isApiError_u (transformError_u err) = isApiError (transformError err) /\
    isNetworkError_u (transformError_u err) = isNetworkError (transformError err) /\
    isValidationError_u (transformError_u err) = false /\
    isRetryableError_u (transformError_u err) = isRetryableError (transformError err) /\
    isRetryableApiError_u (transformError_u err) = isRetryableError (transformError err) /\
    handleApiError (transformError_u err)
      = JStr (match transformError err with
              | NetworkError m _ => m
              | ApiError _ _ _ => getErrorMessage err
              end) /\
    isRetryableError_u (ErrorInstance [("isNetworkError", JBool false)]) = true /\
    isRetryableApiError_u (ErrorInstance [("isNetworkError", JBool false)]) = false.
Proof.
  intros err. unfold transformError_u, transformError.
  destruct (ax_response err) as [[st body] |].
  - repeat split; try reflexivity.
    + unfold isRetryableError_u. cbn -[includes_value retryableStatuses of_Z].
      apply includes_value_of_Z.
    + unfold isRetryableApiError_u. cbn -[includes_value retryableStatuses of_Z].
      apply includes_value_of_Z.
  - repeat split; reflexivity.
Qed.

(** ** The other queries *)

Lemma all_chars_app (P : ascii -> bool) (s t : string) :
  all_chars P (s ++ t) = all_chars P s && all_chars P t.
Proof.
  induction s as [| c s IH]; [reflexivity |].
  simpl. rewrite IH. apply andb_assoc.
Qed.

Lemma encode_unit_safe (c : ascii) : all_chars uri_safe (encode_unit c) = true.
Proof.
  destruct c as [[] [] [] [] [] [] [] []]; vm_compute; reflexivity.
Qed.

Lemma encodeURIComponent_safe (s : string) :
  all_chars uri_safe (encodeURIComponent s) = true.
Proof.
  induction s as [| c s IH]; [reflexivity |].
  cbn [encodeURIComponent]. rewrite all_chars_app, encode_unit_safe, IH. reflexivity.
Qed.

Lemma encode_unit_unreserved (c : ascii) :
  is_unreserved c = true -> encode_unit c = String c EmptyString.
Proof. intros H. unfold encode_unit. rewrite H. reflexivity. Qed.

Lemma encodeURIComponent_unreserved (s : string) :
  all_chars is_unreserved s = true -> encodeURIComponent s = s.
Proof.
  induction s as [| c s IH]; [reflexivity |].
  cbn [all_chars encodeURIComponent]. intros H. apply andb_prop in H.
  destruct H as [Hc Hs]. rewrite (encode_unit_unreserved c Hc), (IH Hs). reflexivity.
Qed.

Lemma validateCategory_nonblank (s : string) :
  all_white s = false -> validateCategory (JStr s) = inr (trim s).
Proof.
  intros Hw. unfold validateCategory.
  destruct (Nat.eqb (String.length (trim s)) 0) eqn:Hlen; [| reflexivity].
  apply trim_empty_iff in Hlen. congruence.
Qed.

Lemma validateCategory_blank (v : JsValue) :
  ~ nonblank_string v -> validateCategory v = inl (category_error v).
Proof.
  intros Hno. unfold validateCategory.
  destruct v as [| | b | n | s | l | l]; try reflexivity.
  destruct (Nat.eqb (String.length (trim s)) 0) eqn:Hlen; [reflexivity |].
  exfalso. apply Hno. exists s. split; [reflexivity |].
  destruct (all_white s) eqn:Hw; [| reflexivity].
  apply trim_empty_iff in Hw. congruence.
Qed.

(** What a query does with the client's answer, whatever it checks in the
    body: the sends are those of the one [GET] it issues. *)
Lemma get_sent (config : ApiConfig) (u : string) (net : Net) :
  exists k,
    (k <= max_sends (retries config))%nat /\
    (counts_retries (retries config) -> (1 <= k)%nat) /\
    sent (snd (get_ config u JUndefined net))
      = (sent net
         ++ repeat {| ax_url := u; ax_method := GET; ax_data := JUndefined;
                      ax_params := JUndefined; ax_timeout := timeout config |} k)%list /\
    match k with
    | O => fst (get_ config u JUndefined net) = Throw UndefinedExn
    | S k' =>
        match server net (length (sent net) + k')%nat
                {| ax_url := u; ax_method := GET; ax_data := JUndefined;
                   ax_params := JUndefined; ax_timeout := timeout config |} with
        | inr resp => fst (get_ config u JUndefined net) = Return resp
        | inl err => fst (get_ config u JUndefined net)
                     = Throw (ClientExn (transformError err))
        end
    end.
Proof.
  unfold get_.
  set (req := {| url := u; method := GET; data := JUndefined;
                 params := JUndefined; req_timeout := None |}).
  destruct (request_trace config req net) as (k & Hk & Hk1 & _ & _ & Hsent & _ & Hlast).
  exists k. split; [exact Hk |]. split; [exact Hk1 |].
  split; [exact Hsent | exact Hlast].
Qed.

(** X8: for a category made of code units up to U+00FF (the strings of this
    development, on which encodeURIComponent never throws):
    [categoryPaperQuery] throws a ValidationError, the network untouched, if
    the category is not a non-blank string; for a non-blank string, whatever
    it sends is [GET /api/paper/category/<segment>] (no parameters), where
    the segment is encodeURIComponent of the trimmed category and consists of
    unreserved characters and percent escapes only, so that no [/], [?] or
    [#] of the category reaches the path; a category of unreserved characters
    is sent as it is; and under a retry count that is a non-negative integer
    at least one send is made. *)
Theorem categoryPaperQuery_request :
  forall (config : ApiConfig) (category : JsValue) (net : Net),
    (~ nonblank_string category ->
     exists e, categoryPaperQuery config category net = (Throw (ValidationExn e), net)) /\
    (forall s,
        category = JStr s -> all_white s = false ->
        exists k segment,
          (counts_retries (retries config) -> (1 <= k)%nat) /\
          sent (snd (categoryPaperQuery config category net))
            = (sent net
               ++ repeat {| ax_url := "/api/paper/category/" ++ segment;
                            ax_method := GET; ax_data := JUndefined;
                            ax_params := JUndefined;
                            ax_timeout := timeout config |} k)%list /\
          segment = encodeURIComponent (trim s) /\
          all_chars uri_safe segment = true /\
          (all_chars is_unreserved (trim s) = true -> segment = trim s)).
Proof.
  intros config category net. split.
  - intros Hblank. exists (category_error category).
    unfold categoryPaperQuery. rewrite (validateCategory_blank category Hblank).
    reflexivity.
  - intros s -> Hw. unfold categoryPaperQuery.
    rewrite (validateCategory_nonblank s Hw). cbv zeta.
    destruct (get_sent config (category_endpoint (trim s)) net)
      as (k & _ & Hk & Hsent & _).
    exists k, (encodeURIComponent (trim s)).
    split; [exact Hk |]. split; [| split; [reflexivity | split]].
    + destruct (get_ config (category_endpoint (trim s)) JUndefined net)
        as [[resp | e] net']; cbn [snd] in *.
      * destruct (negb (truthy (resp_data resp)) || _); [exact Hsent |].
        destruct (negb (truthy (get (resp_data resp) "paper")) || _ || _);
          exact Hsent.
      * exact Hsent.
    + apply encodeURIComponent_safe.
    + apply encodeURIComponent_unreserved.
Qed.

Lemma categoryPaperQuery_request_witness :
  exists k segment,
    (1 <= k)%nat /\
    sent (snd (categoryPaperQuery default_config (JStr " cs.AI/x ") (always_answers JNull)))
      = (sent (always_answers JNull)
         ++ repeat {| ax_url := "/api/paper/category/" ++ segment;
                      ax_method := GET; ax_data := JUndefined;
                      ax_params := JUndefined;
                      ax_timeout := timeout default_config |} k)%list /\
    segment = encodeURIComponent (trim " cs.AI/x ") /\
    all_chars uri_safe segment = true /\
    (all_chars is_unreserved (trim " cs.AI/x ") = true -> segment = trim " cs.AI/x ").
Proof.
  destruct (proj2 (categoryPaperQuery_request default_config (JStr " cs.AI/x ")
                     (always_answers JNull)) " cs.AI/x " eq_refl eq_refl)
    as (k & segment & Hk & H).
  exists k, segment. split; [| exact H].
  apply Hk. exists 3. split; [reflexivity | lia].
Defined.

Lemma get_first_success (config : ApiConfig) (u : string) (net : Net)
    (resp : ApiResponse) :
  counts_retries (retries config) ->
  server net (length (sent net))
    {| ax_url := u; ax_method := GET; ax_data := JUndefined;
       ax_params := JUndefined; ax_timeout := timeout config |} = inr resp ->
  get_ config u JUndefined net =
    (Return resp,
     {| server := server net; random := random net;
        sent := sent net ++ [{| ax_url := u; ax_method := GET; ax_data := JUndefined;
                                ax_params := JUndefined;
                                ax_timeout := timeout config |}];
        slept := slept net |}).
Proof.
  intros Hcount Hsrv. unfold get_.
  apply (request_first_success config
           {| url := u; method := GET; data := JUndefined;
              params := JUndefined; req_timeout := None |} net resp Hcount Hsrv).
Qed.

(** X9: what [categoryPaperQuery] accepts. Under a retry count that is a
    non-negative integer, when the first send is answered, the body is
    returned exactly if it is an object and its [paper], [category] and
    [featuredDate] are truthy; otherwise a ValidationError carrying the body
    is thrown. Neither the structure of the paper nor the category of the
    answer is looked at: any truthy values pass. *)
Theorem categoryPaperQuery_accepts_truthy_fields :
  forall (config : ApiConfig) (s : string) (net : Net) (resp : ApiResponse),
    counts_retries (retries config) ->
    all_white s = false ->
    server net (length (sent net))
      {| ax_url := "/api/paper/category/" ++ encodeURIComponent (trim s);
         ax_method := GET; ax_data := JUndefined; ax_params := JUndefined;
         ax_timeout := timeout config |} = inr resp ->
    let d := resp_data resp in
    let out := fst (categoryPaperQuery config (JStr s) net) in
    (out = Return d <->
     truthy d = true /\ typeof d = TObject /\
     truthy (get d "paper") = true /\ truthy (get d "category") = true /\
     truthy (get d "featuredDate") = true) /\
    (out = Return d \/ exists e, out = Throw (ValidationExn e) /\ v_value e = d).
Proof.
  intros config s net resp Hcount Hw Hsrv d out. subst out.
  unfold categoryPaperQuery. rewrite (validateCategory_nonblank s Hw). cbv zeta.
  rewrite (get_first_success config (category_endpoint (trim s)) net resp Hcount Hsrv).
  fold d. rewrite <- (is_type_true d TObject).
  destruct (truthy d), (is_type d TObject); cbn [negb orb fst];
    try (split; [split; [discriminate | intros (? & ? & _); discriminate]
                | right; eexists; split; reflexivity]).
  destruct (truthy (get d "paper")), (truthy (get d "category")),
           (truthy (get d "featuredDate")); cbn [negb orb fst];
    try (split; [split; [discriminate
                        | intros (_ & _ & ? & ? & ?); discriminate]
                | right; eexists; split; reflexivity]).
  split; [split; [intros _; repeat split | reflexivity] | left; reflexivity].
Qed.

Lemma categoryPaperQuery_accepts_truthy_fields_witness :
  fst (categoryPaperQuery default_config (JStr "cs.AI")
         (always_answers (JObj [("paper", JObj []); ("category", JStr "math.GT");
                                ("featuredDate", JStr "2024-01-15")])))
  = Return (JObj [("paper", JObj []); ("category", JStr "math.GT");
                  ("featuredDate", JStr "2024-01-15")]).
Proof.
  assert (Hcount : counts_retries (retries default_config))
    by (exists 3; split; [reflexivity | lia]).
  apply (proj1 (categoryPaperQuery_accepts_truthy_fields default_config "cs.AI"
                  (always_answers (JObj [("paper", JObj []); ("category", JStr "math.GT");
                                         ("featuredDate", JStr "2024-01-15")]))
                  {| resp_data := JObj [("paper", JObj []); ("category", JStr "math.GT");
                                        ("featuredDate", JStr "2024-01-15")];
                     resp_status := 200 |}
                  Hcount eq_refl eq_refl)).
  repeat split.
Defined.

Lemma validateTodayPaperResponse_today_json (p : Paper) (date : string) :
  validateTodayPaperResponse (today_json p date) = true.
Proof. reflexivity. Qed.

(** X10: [todayPaperQuery] sends [GET /api/paper/today] without parameters,
    at most max(1, retries) times, at least once under a retry count that is
    a non-negative integer, and not at all under a negative count or [NaN],
    where it throws [undefined]. If the last send fails, the client's error
    is thrown unchanged; if it is answered with the serialised form of a
    paper and a featured date, that body is returned; and a body it returns
    always has a [paper] with a numeric [citationCount] and a string
    [featuredDate]. *)
Theorem todayPaperQuery_outcomes :
  forall (config : ApiConfig) (net : Net),
  exists k,
    (k <= max_sends (retries config))%nat /\
    (counts_retries (retries config) -> (1 <= k)%nat) /\
    let c := {| ax_url := "/api/paper/today"; ax_method := GET;
                ax_data := JUndefined; ax_params := JUndefined;
                ax_timeout := timeout config |} in
    sent (snd (todayPaperQuery config net)) = (sent net ++ repeat c k)%list /\
    (k = 0%nat -> fst (todayPaperQuery config net) = Throw UndefinedExn) /\
    (forall err,
        (1 <= k)%nat ->
        server net (length (sent net) + k - 1)%nat c = inl err ->
        fst (todayPaperQuery config net) = Throw (ClientExn (transformError err))) /\
    (forall p date st,
        (1 <= k)%nat ->
        server net (length (sent net) + k - 1)%nat c
          = inr {| resp_data := today_json p date; resp_status := st |} ->
        fst (todayPaperQuery config net) = Return (today_json p date)) /\
    (forall d,
        fst (todayPaperQuery config net) = Return d ->
        typeof (get (get d "paper") "citationCount") = TNumber /\
        typeof (get d "featuredDate") = TString).
Proof.
  intros config net.
  destruct (get_sent config TODAY_PAPER net) as (k & Hk & Hk1 & Hsent & Hlast).
  exists k. split; [exact Hk |]. split; [exact Hk1 |]. cbv zeta.
  change "/api/paper/today" with TODAY_PAPER.
  assert (Hlast' : (1 <= k)%nat ->
            match server net (length (sent net) + k - 1)%nat
                    {| ax_url := TODAY_PAPER; ax_method := GET; ax_data := JUndefined;
                       ax_params := JUndefined; ax_timeout := timeout config |} with
            | inr resp => fst (get_ config TODAY_PAPER JUndefined net) = Return resp
            | inl err => fst (get_ config TODAY_PAPER JUndefined net)
                         = Throw (ClientExn (transformError err))
            end).
  { intros Hpos. destruct k as [| k']; [lia |].
    replace (length (sent net) + S k' - 1)%nat with (length (sent net) + k')%nat by lia.
    exact Hlast. }
  assert (Hzero : k = 0%nat ->
                  fst (get_ config TODAY_PAPER JUndefined net) = Throw UndefinedExn).
  { intros ->. exact Hlast. }
  clear Hlast. unfold todayPaperQuery.
  destruct (get_ config TODAY_PAPER JUndefined net) as [[resp | e] net'];
    cbn [fst snd] in *.
  - destruct (validateTodayPaperResponse (resp_data resp)) eqn:Hvalid;
      cbn [negb fst snd]; (split; [exact Hsent |]);
      (split; [intros Hk0; specialize (Hzero Hk0); discriminate |]);
      split; [| split | | split].
    + intros err Hpos Herr. specialize (Hlast' Hpos). rewrite Herr in Hlast'.
      discriminate.
    + intros p date st Hpos Hsrv. specialize (Hlast' Hpos). rewrite Hsrv in Hlast'.
      injection Hlast' as ->. reflexivity.
    + intros d Hd. injection Hd as <-.
      unfold validateTodayPaperResponse in Hvalid.
      destruct (negb (truthy (resp_data resp)) || _ || _); [discriminate |].
      apply andb_prop in Hvalid. destruct Hvalid as [Hp Hdate].
      split; [apply validatePaper_citationCount; exact Hp
             | apply is_type_true; exact Hdate].
    + intros err Hpos Herr. specialize (Hlast' Hpos). rewrite Herr in Hlast'.
      discriminate.
    + intros p date st Hpos Hsrv. specialize (Hlast' Hpos). rewrite Hsrv in Hlast'.
      injection Hlast' as ->. cbn [resp_data] in Hvalid.
      rewrite validateTodayPaperResponse_today_json in Hvalid. discriminate.
    + intros d Hd. discriminate.
  - split; [exact Hsent |]. split; [| split; [| split]].
    + intros Hk0. specialize (Hzero Hk0). injection Hzero as ->. reflexivity.
    + intros err Hpos Herr. specialize (Hlast' Hpos). rewrite Herr in Hlast'.
      injection Hlast' as ->. reflexivity.
    + intros p date st Hpos Hsrv. specialize (Hlast' Hpos). rewrite Hsrv in Hlast'.
      discriminate.
    + intros d Hd. discriminate.
Qed.

Lemma todayPaperQuery_outcomes_witness :
  fst (todayPaperQuery default_config
         (always_answers (today_json (sample_paper 45678) "2024-01-15")))
  = Return (today_json (sample_paper 45678) "2024-01-15").
Proof.
  destruct (todayPaperQuery_outcomes default_config
              (always_answers (today_json (sample_paper 45678) "2024-01-15")))
    as (k & _ & Hk & _ & _ & _ & Haccept & _).
  apply (Haccept (sample_paper 45678) "2024-01-15" 200).
  - apply Hk. exists 3. split; [reflexivity | lia].
  - reflexivity.
Defined.

(** X11: [healthQuery] and [checkApiReadiness] never throw. After at most
    max(1, retries) sends of [GET /health] (at least one under a retry count
    that is a non-negative integer, none under a negative count or [NaN]),
    [healthQuery] returns the body of the last answer if that is a truthy
    object, and otherwise, also when the last send failed or nothing was
    sent, the object [{status: 'unhealthy', timestamp: now}];
    [checkApiReadiness] is [true] exactly when a send was made and the last
    one is answered with an object body whose [status] is the string
    ['healthy']. *)
Theorem healthQuery_never_throws :
  forall (config : ApiConfig) (now : string) (net : Net),
  exists k,
    (k <= max_sends (retries config))%nat /\
    (counts_retries (retries config) -> (1 <= k)%nat) /\
    let c := {| ax_url := "/health"; ax_method := GET; ax_data := JUndefined;
                ax_params := JUndefined; ax_timeout := timeout config |} in
    let body_ok d := truthy d && is_type d TObject in
    sent (snd (healthQuery config now net)) = (sent net ++ repeat c k)%list /\
    fst (healthQuery config now net)
      = Return (match k with
                | O => unhealthy now
                | S k' =>
                    match server net (length (sent net) + k')%nat c with
                    | inr resp => if body_ok (resp_data resp) then resp_data resp
                                  else unhealthy now
                    | inl _ => unhealthy now
                    end
                end) /\
    snd (checkApiReadiness config now net) = snd (healthQuery config now net) /\
    (fst (checkApiReadiness config now net) = true <->
     (1 <= k)%nat /\
     exists resp,
       server net (length (sent net) + k - 1)%nat c = inr resp /\
       body_ok (resp_data resp) = true /\
       get (resp_data resp) "status" = JStr "healthy").
Proof.
  intros config now net.
  destruct (get_sent config HEALTH net) as (k & Hk & Hk1 & Hsent & Hlast).
  exists k. split; [exact Hk |]. split; [exact Hk1 |]. cbv zeta.
  change "/health" with HEALTH.
  assert (Hhealthy : forall v, is_healthy v = true <-> v = JStr "healthy").
  { intros v. unfold is_healthy. destruct v; try (split; discriminate).
    rewrite String.eqb_eq. split; congruence. }
  unfold checkApiReadiness, healthQuery, healthQuery_try.
  destruct (get_ config HEALTH JUndefined net) as [[resp | e] net'];
    cbn [fst snd] in *.
  - destruct k as [| k']; [discriminate |].
    replace (length (sent net) + S k' - 1)%nat with (length (sent net) + k')%nat by lia.
    destruct (server net _ _) as [err | resp'] eqn:Hsrv; [discriminate |].
    injection Hlast as ->.
    destruct (truthy (resp_data resp')) eqn:Ht;
      destruct (is_type (resp_data resp') TObject) eqn:Ho;
      cbn [negb orb andb fst snd];
      (split; [exact Hsent |]); (split; [reflexivity |]); (split; [reflexivity |]).
    + rewrite Hhealthy. split.
      * intros Hs. split; [lia |]. exists resp'. rewrite Ht, Ho. auto.
      * intros (_ & r & Hr & _ & Hs). injection Hr as <-. exact Hs.
    + split; [discriminate |].
      intros (_ & r & Hr & Hb & _). injection Hr as <-. rewrite Ht, Ho in Hb.
      discriminate.
    + split; [discriminate |].
      intros (_ & r & Hr & Hb & _). injection Hr as <-. rewrite Ht, Ho in Hb.
      discriminate.
    + split; [discriminate |].
      intros (_ & r & Hr & Hb & _). injection Hr as <-. rewrite Ht, Ho in Hb.
      discriminate.
  - split; [exact Hsent |].
    destruct k as [| k'].
    + split; [reflexivity |]. split; [reflexivity |].
      split; [discriminate | intros (Hpos & _); lia].
    + replace (length (sent net) + S k' - 1)%nat with (length (sent net) + k')%nat by lia.
      destruct (server net _ _) as [err | resp'] eqn:Hsrv; [| discriminate].
      split; [reflexivity |]. split; [reflexivity |].
      split; [discriminate | intros (_ & r & Hr & _); discriminate].
Qed.

Lemma healthQuery_never_throws_witness :
  fst (checkApiReadiness default_config "2024-06-12T00:00:00.000Z"
         (always_answers (JObj [("status", JStr "healthy")]))) = true.
Proof.
  destruct (healthQuery_never_throws default_config "2024-06-12T00:00:00.000Z"
              (always_answers (JObj [("status", JStr "healthy")])))
    as (k & _ & Hk1 & _ & _ & _ & Hready).
  assert (Hpos : (1 <= k)%nat) by (apply Hk1; exists 3; split; [reflexivity | lia]).
  apply Hready. split; [exact Hpos |].
  exists {| resp_data := JObj [("status", JStr "healthy")]; resp_status := 200 |}.
  repeat split.
Defined.

Lemma blank_term_iff (searchTerm : string) :
  negb (truthy (JStr searchTerm)) || Nat.eqb (String.length (trim searchTerm)) 0 = true
  <-> all_white searchTerm = true.
Proof.
  rewrite orb_true_iff, trim_empty_iff. split.
  - intros [Hempty | Hw]; [| exact Hw].
    cbn [truthy] in Hempty. rewrite negb_involutive in Hempty.
    apply String.eqb_eq in Hempty. subst. reflexivity.
  - intros Hw. right. exact Hw.
Qed.

(** X12: [searchHistoryQuery] throws a ValidationError for the field
    [searchTerm], the network untouched, when the term is empty or white
    space only; for every other term it is [historyQuery] on the same
    parameters: the term is not sent and has no influence on the result. *)
Theorem searchHistoryQuery_ignores_term :
  forall (config : ApiConfig) (searchTerm : string)
         (params : option HistoryQueryParams) (net : Net),
    (all_white searchTerm = true ->
     searchHistoryQuery config searchTerm params net
     = (Throw (ValidationExn {| v_message := "Search term must be provided";
                                v_field := Some "searchTerm";
                                v_value := JStr searchTerm |}), net)) /\
    (all_white searchTerm = false ->
     searchHistoryQuery config searchTerm params net = historyQuery config params net).
Proof.
  intros config searchTerm params net. unfold searchHistoryQuery.
  destruct (negb (truthy (JStr searchTerm)) || _) eqn:Hblank.
  - apply blank_term_iff in Hblank. split; [reflexivity | congruence].
  - split; [| reflexivity].
    intros Hw. apply blank_term_iff in Hw. congruence.
Qed.

Lemma searchHistoryQuery_ignores_term_witness :
  searchHistoryQuery default_config "attention" None (always_answers JNull)
  = historyQuery default_config None (always_answers JNull).
Proof.
  apply (proj2 (searchHistoryQuery_ignores_term default_config "attention" None
                  (always_answers JNull))).
  reflexivity.
Defined.

Lemma blank_category_false_iff (v : JsValue) :
  blank_category v = false <-> nonblank_string v.
Proof.
  unfold blank_category, nonblank_string. split.
  - destruct v as [| | b | n | s | l | l]; try discriminate.
    intros Hlen. exists s. split; [reflexivity |].
    destruct (all_white s) eqn:Hw; [| reflexivity].
    apply trim_empty_iff in Hw. congruence.
  - intros (s & -> & Hw).
    destruct (Nat.eqb (String.length (trim s)) 0) eqn:Hlen; [| reflexivity].
    apply trim_empty_iff in Hlen. congruence.
Qed.

Lemma filter_nil_iff {A : Type} (f : A -> bool) (l : list A) :
  List.filter f l = [] <-> Forall (fun x => f x = false) l.
Proof.
  induction l as [| a l IH]; cbn [List.filter].
  - split; [constructor | reflexivity].
  - destruct (f a) eqn:Ha.
    + split; [discriminate | intros H; inversion H; congruence].
    + rewrite IH. split; [intros H; constructor; assumption
                         | intros H; inversion H; assumption].
Qed.

(** X13: [batchPaperQuery] never returns. It reports "not yet implemented"
    exactly for an array of 1 to 50 identifiers that are all non-blank
    strings; for every other argument it throws a ValidationError for the
    field [paperIds], and when identifiers are at fault the error's value is
    the array of exactly the offending ones, in their order. *)
Theorem batchPaperQuery_outcomes :
  forall (paperIds : JsValue),
    ((exists m, batchPaperQuery paperIds = BatchNotImplemented m) <->
     exists ids, paperIds = JArr ids /\ (1 <= length ids <= 50)%nat
                 /\ Forall nonblank_string ids) /\
    (forall e, batchPaperQuery paperIds = BatchInvalid e ->
               v_field e = Some "paperIds") /\
    (forall ids, paperIds = JArr ids -> (1 <= length ids <= 50)%nat ->
                 ~ Forall nonblank_string ids ->
                 exists e, batchPaperQuery paperIds = BatchInvalid e /\
                           v_value e = JArr (List.filter blank_category ids)).
Proof.
  intros paperIds.
  assert (Hall : forall ids,
             List.filter blank_category ids = [] <-> Forall nonblank_string ids).
  { intros ids. rewrite filter_nil_iff. split; intros H;
      (eapply List.Forall_impl; [| exact H]); intros x; apply blank_category_false_iff. }
  unfold batchPaperQuery. split; [| split].
  - destruct paperIds as [| | b | n | s | ids | l];
      try (cbn; split; [intros [m Hm]; discriminate
                       | intros (ids & Hids & _); discriminate]).
    cbn [isArray negb orb items_of].
    destruct (Nat.eqb_spec (length ids) 0) as [Hzero | Hpos].
    { split; [intros [m Hm]; discriminate |].
      intros (ids' & Hids & Hlen & _). injection Hids as <-. lia. }
    destruct (Nat.ltb_spec 50 (length ids)) as [Hbig | Hsmall].
    { split; [intros [m Hm]; discriminate |].
      intros (ids' & Hids & Hlen & _). injection Hids as <-. lia. }
    destruct (List.filter blank_category ids) as [| x xs] eqn:Hfilter; cbn [length Nat.ltb Nat.leb].
    + split; [| intros _; eexists; reflexivity].
      intros _. exists ids. split; [reflexivity |]. split; [lia |].
      apply Hall. exact Hfilter.
    + split; [intros [m Hm]; discriminate |].
      intros (ids' & Hids & _ & Hgood). injection Hids as <-.
      apply Hall in Hgood. congruence.
  - intros e.
    destruct (negb (isArray paperIds) || _);
      [intros H; injection H as <-; reflexivity |].
    destruct (50 <? length (items_of paperIds))%nat;
      [intros H; injection H as <-; reflexivity |].
    destruct (0 <? length _)%nat; [intros H; injection H as <-; reflexivity |].
    discriminate.
  - intros ids -> Hlen Hbad. cbn [isArray negb orb items_of].
    destruct (Nat.eqb_spec (length ids) 0) as [Hzero | Hpos]; [lia |].
    destruct (Nat.ltb_spec 50 (length ids)) as [Hbig | Hsmall]; [lia |].
    destruct (List.filter blank_category ids) as [| x xs] eqn:Hfilter.
    + exfalso. apply Hbad. apply Hall. exact Hfilter.
    + cbn [length Nat.ltb Nat.leb]. eexists. split; reflexivity.
Qed.

Lemma batchPaperQuery_outcomes_witness :
  exists e, batchPaperQuery (JArr [JStr "1706.03762"; JStr "  "; of_Z 7]) = BatchInvalid e /\
            v_value e = JArr (List.filter blank_category
                                [JStr "1706.03762"; JStr "  "; of_Z 7]).
Proof.
  apply (proj2 (proj2 (batchPaperQuery_outcomes
                         (JArr [JStr "1706.03762"; JStr "  "; of_Z 7])))
               [JStr "1706.03762"; JStr "  "; of_Z 7] eq_refl).
  - simpl. lia.
  - intros Hall. inversion Hall as [| ? ? _ Hrest]; subst.
    inversion Hrest as [| ? ? Hblank _]; subst.
    destruct Hblank as (s & Heq & Hw). injection Heq as <-. discriminate.
Defined.

(** ** The infinite history hook *)

Lemma hasNext_of_history_json (r : HistoryResponse) :
  get (get (history_json r) "pagination") "hasNext" = JBool (hasNext (pagination r)).
Proof. reflexivity. Qed.

Lemma limit_or_default_ok (v : JsValue) :
  limit_ok v -> limit_ok (or_else v (of_Z DEFAULT_PAGE_SIZE)).
Proof.
  intros Hok. rewrite (or_else_default v DEFAULT_PAGE_SIZE (Some 100) Hok).
  destruct Hok as [-> | Hint].
  - right. exists (inject_Z 20), 20. cbn. repeat split; try reflexivity; lia.
  - destruct Hint as (q & z & -> & H). right. exists q, z. split; [reflexivity | exact H].
Qed.

Lemma page_of_index_ok (pageIndex : nat) :
  page_ok (of_Z (Z.of_nat pageIndex + 1)).
Proof.
  right. exists (inject_Z (Z.of_nat pageIndex + 1)), (Z.of_nat pageIndex + 1).
  repeat split; try reflexivity. lia.
Qed.

(** X14: the key function of the infinite history hook stops (null key)
    exactly when the previous page says [hasNext = false], and starts without
    a previous page. Otherwise it asks for page [pageIndex + 1] with the base
    limit, or 20 when that is omitted; if the base limit and category are
    acceptable these parameters pass [historyQuery]'s validation, and every
    request then sent carries exactly that page and limit (at least one is
    sent under a retry count that is a non-negative integer). *)
Theorem getKey_asks_for_next_page :
  forall (config : ApiConfig) (baseParams : option HistoryQueryParams)
         (pageIndex : nat),
    (forall r, getKey baseParams pageIndex (history_json r) = None
               <-> hasNext (pagination r) = false) /\
    getKey baseParams pageIndex JNull <> None /\
    (forall prev params net,
        getKey baseParams pageIndex prev = Some params ->
        limit_ok (param hp_limit baseParams) ->
        category_ok (param hp_category baseParams) ->
        validateHistoryParams (Some params) = inr (validated_of (Some params)) /\
        exists k c,
          (counts_retries (retries config) -> (1 <= k)%nat) /\
          sent (snd (historyQuery config (Some params) net))
            = (sent net ++ repeat c k)%list /\
          get (ax_params c) "page" = of_Z (Z.of_nat pageIndex + 1) /\
          get (ax_params c) "limit" = or_default (param hp_limit baseParams) 20).
Proof.
  intros config baseParams pageIndex. split; [| split].
  - intros r. unfold getKey. rewrite hasNext_of_history_json.
    cbn [truthy history_json andb]. destruct (hasNext (pagination r)); cbn [negb].
    + split; discriminate.
    + split; reflexivity.
  - discriminate.
  - intros prev params net Hkey Hlimit Hcat. unfold getKey in Hkey.
    destruct (truthy prev && _); [discriminate |]. injection Hkey as <-.
    set (params := {| hp_page := of_Z (Z.of_nat pageIndex + 1);
                      hp_limit := or_else (param hp_limit baseParams)
                                          (of_Z DEFAULT_PAGE_SIZE);
                      hp_category := param hp_category baseParams |}).
    assert (Hok : params_ok (Some params)).
    { split; [apply page_of_index_ok |].
      split; [apply limit_or_default_ok; exact Hlimit | exact Hcat]. }
    pose proof (validateHistoryParams_ok (Some params) Hok) as Hval.
    split; [exact Hval |].
    destruct (historyQuery_trace config (Some params) _ net Hval)
      as (k & _ & Hk & Hsent & _).
    exists k, (history_request config (validated_of (Some params))).
    split; [exact Hk |]. split; [exact Hsent |].
    cbn [history_request ax_params queryParams_of validated_of params hp_page hp_limit].
    split.
    + cbn. rewrite (or_else_default _ 1 None); [reflexivity |].
      apply page_of_index_ok.
    + change (or_else (or_else (param hp_limit baseParams) (of_Z DEFAULT_PAGE_SIZE))
                      (of_Z DEFAULT_PAGE_SIZE)
              = or_default (param hp_limit baseParams) 20).
      rewrite (or_else_default _ DEFAULT_PAGE_SIZE (Some 100));
        [| apply limit_or_default_ok; exact Hlimit].
      rewrite (or_else_default _ DEFAULT_PAGE_SIZE (Some 100) Hlimit).
      unfold or_default. destruct (is_undefined (param hp_limit baseParams)) eqn:Hu;
        [reflexivity | rewrite Hu; reflexivity].
Qed.

Lemma getKey_asks_for_next_page_witness :
  validateHistoryParams
    (Some {| hp_page := of_Z 3; hp_limit := of_Z 20; hp_category := JUndefined |})
  = inr (validated_of
           (Some {| hp_page := of_Z 3; hp_limit := of_Z 20;
                    hp_category := JUndefined |})) /\
  exists k c,
    (1 <= k)%nat /\
    sent (snd (historyQuery default_config
                 (Some {| hp_page := of_Z 3; hp_limit := of_Z 20;
                          hp_category := JUndefined |})
                 (always_answers JNull)))
      = (sent (always_answers JNull) ++ repeat c k)%list /\
    get (ax_params c) "page" = of_Z (Z.of_nat 2 + 1) /\
    get (ax_params c) "limit" = or_default (param hp_limit None) 20.
Proof.
  destruct (proj2 (proj2 (getKey_asks_for_next_page default_config None 2))
                  (history_json sample_history)
                  {| hp_page := of_Z 3; hp_limit := of_Z 20;
                     hp_category := JUndefined |}
                  (always_answers JNull) eq_refl
                  (or_introl eq_refl) (or_introl eq_refl))
    as (Hval & k & c & Hk & H).
  split; [exact Hval |]. exists k, c. split; [| exact H].
  apply Hk. exists 3. split; [reflexivity | lia].
Defined.

(** X15: [hasMore] and the key function agree. With no page loaded
    [hasMore] is [false]; with pages loaded it is the [hasNext] flag of the
    last one, so it is [false] exactly when the key for the following page
    is null. *)
Theorem hasMore_agrees_with_getKey :
  forall (baseParams : option HistoryQueryParams),
    hasMore None = JBool false /\
    hasMore (Some []) = JBool false /\
    (forall (pages : list HistoryResponse) (lastPage : HistoryResponse),
        let data := map history_json (pages ++ [lastPage]) in
        hasMore (Some data) = JBool (hasNext (pagination lastPage)) /\
        (hasMore (Some data) = JBool false <->
         getKey baseParams (length data) (history_json lastPage) = None)).
Proof.
  intros baseParams. split; [reflexivity |]. split; [reflexivity |].
  intros pages lastPage data.
  assert (Hmore : hasMore (Some data) = JBool (hasNext (pagination lastPage))).
  { unfold hasMore, data. rewrite !map_app. cbn [map].
    rewrite last_last, hasNext_of_history_json. reflexivity. }
  split; [exact Hmore |]. rewrite Hmore.
  unfold getKey. rewrite hasNext_of_history_json. cbn [truthy history_json andb].
  destruct (hasNext (pagination lastPage)); cbn [negb]; split;
    try discriminate; reflexivity.
Qed.

(** ** The favourites hook *)

Lemma set_has_In (s : list string) (x : string) : set_has s x = true <-> In x s.
Proof.
  unfold set_has. rewrite existsb_exists. split.
  - intros (y & Hy & Heq). apply String.eqb_eq in Heq. subst. exact Hy.
  - intros Hin. exists x. split; [exact Hin | apply String.eqb_refl].
Qed.

Lemma set_has_filter (s : list string) (a x : string) :
  x <> a -> set_has (List.filter (differs_from a) s) x = set_has s x.
Proof.
  intros Hne. induction s as [| y s IH]; [reflexivity |].
  cbn [List.filter]. unfold differs_from at 1.
  destruct (String.eqb_spec y a) as [-> | Hya]; cbn [negb set_has existsb].
  - destruct (String.eqb_spec x a); [contradiction |]. exact IH.
  - unfold set_has in IH. rewrite IH. reflexivity.
Qed.

Lemma filter_differs_id (s : list string) (x : string) :
  ~ In x s -> List.filter (differs_from x) s = s.
Proof.
  induction s as [| y s IH]; [reflexivity |].
  intros Hnot. cbn [List.filter]. unfold differs_from at 1.
  destruct (String.eqb_spec y x) as [-> | Hne]; cbn [negb].
  - exfalso. apply Hnot. now left.
  - rewrite IH; [reflexivity |]. intros Hin. apply Hnot. now right.
Qed.

Lemma set_of_append (l : list string) (x : string) :
  set_of (l ++ [x]) = set_add (set_of l) x.
Proof.
  induction l as [| a l IH]; [reflexivity |].
  cbn [app set_of]. fold (differs_from a). rewrite IH.
  unfold set_add at 2. cbn [set_has existsb]. fold (set_has (List.filter (differs_from a) (set_of l)) x).
  destruct (String.eqb_spec x a) as [-> | Hne]; cbn [orb].
  - f_equal. unfold set_add.
    destruct (set_has (set_of l) a); [reflexivity |].
    rewrite List.filter_app. cbn [List.filter]. unfold differs_from at 2.
    rewrite String.eqb_refl. cbn [negb]. apply app_nil_r.
  - rewrite (set_has_filter (set_of l) a x Hne). unfold set_add.
    destruct (set_has (set_of l) x); [reflexivity |].
    rewrite List.filter_app. cbn [List.filter app]. unfold differs_from at 2.
    destruct (String.eqb_spec x a); [contradiction | reflexivity].
Qed.

Lemma set_of_NoDup (l : list string) : List.NoDup l -> set_of l = l.
Proof.
  induction 1 as [| a l Hnot Hnd IH]; [reflexivity |].
  cbn [set_of]. rewrite IH. fold (differs_from a).
  rewrite (filter_differs_id l a Hnot). reflexivity.
Qed.

Lemma set_add_NoDup (s : list string) (x : string) :
  List.NoDup s -> List.NoDup (set_add s x).
Proof.
  intros Hnd. unfold set_add. destruct (set_has s x) eqn:Hhas; [exact Hnd |].
  apply List.NoDup_app; [exact Hnd | repeat constructor; intros [] |].
  intros y Hy [<- | []]. apply set_has_In in Hy. congruence.
Qed.

Lemma set_delete_NoDup (s : list string) (x : string) :
  List.NoDup s -> List.NoDup (set_delete s x).
Proof. intros Hnd. unfold set_delete. apply List.NoDup_filter. exact Hnd. Qed.

Lemma set_has_add (s : list string) (x y : string) :
  set_has (set_add s x) y = String.eqb y x || set_has s y.
Proof.
  unfold set_add. destruct (set_has s x) eqn:Hhas.
  - destruct (String.eqb_spec y x) as [-> | Hne]; [rewrite Hhas |]; reflexivity.
  - unfold set_has. rewrite existsb_app. cbn [existsb].
    rewrite orb_false_r. apply orb_comm.
Qed.

Lemma set_has_delete (s : list string) (x y : string) :
  set_has (set_delete s x) y = negb (String.eqb y x) && set_has s y.
Proof.
  unfold set_delete. fold (differs_from x).
  destruct (String.eqb_spec y x) as [-> | Hne]; cbn [negb andb].
  - destruct (set_has (List.filter (differs_from x) s) x) eqn:Hhas; [| reflexivity].
    apply set_has_In in Hhas. apply filter_In in Hhas. destruct Hhas as [_ Hd].
    unfold differs_from in Hd. rewrite String.eqb_refl in Hd. discriminate.
  - apply set_has_filter. exact Hne.
Qed.

(** X16: the favourites kept in [localStorage] reload to the favourites in
    memory. When a callback runs with the favourites it closed over being
    the current ones, then after [addFavorite], [removeFavorite] or
    [toggleFavorite] the stored array, read back through [new Set], is
    exactly the new in-memory set, in the same order; membership of the
    toggled paper is flipped and that of every other paper is kept. *)
Theorem favorites_reload_to_state :
  forall (st : Favorites) (paperId : string),
    List.NoDup (favorites st) ->
    let added := addFavorite (favorites st) paperId st in
    let removed := removeFavorite (favorites st) paperId st in
    let toggled := toggleFavorite (favorites st) paperId st in
    loadFavorites (stored added) = favorites added /\
    loadFavorites (stored removed) = favorites removed /\
    loadFavorites (stored toggled) = favorites toggled /\
    set_has (favorites added) paperId = true /\
    set_has (favorites removed) paperId = false /\
    (forall other,
        set_has (favorites toggled) other
        = if String.eqb other paperId
          then negb (set_has (favorites st) paperId)
          else set_has (favorites st) other).
Proof.
  intros st paperId Hnd added removed toggled.
  assert (Hadd : loadFavorites (stored added) = favorites added).
  { unfold added, addFavorite, loadFavorites. cbn [stored favorites].
    rewrite set_of_append, (set_of_NoDup _ Hnd). reflexivity. }
  assert (Hremove : loadFavorites (stored removed) = favorites removed).
  { unfold removed, removeFavorite, loadFavorites. cbn [stored favorites].
    apply set_of_NoDup. apply (set_delete_NoDup _ paperId Hnd). }
  split; [exact Hadd |]. split; [exact Hremove |]. split; [| split; [| split]].
  - unfold toggled, toggleFavorite.
    destruct (set_has (favorites st) paperId); assumption.
  - unfold added, addFavorite. cbn [favorites].
    rewrite set_has_add, String.eqb_refl. reflexivity.
  - unfold removed, removeFavorite. cbn [favorites].
    rewrite set_has_delete, String.eqb_refl. reflexivity.
  - intros other. unfold toggled, toggleFavorite.
    destruct (set_has (favorites st) paperId) eqn:Hhas;
      unfold removeFavorite, addFavorite; cbn [favorites].
    + rewrite set_has_delete.
      destruct (String.eqb_spec other paperId); reflexivity.
    + rewrite set_has_add.
      destruct (String.eqb_spec other paperId) as [-> | Hne];
        [reflexivity | reflexivity].
Qed.

Lemma favorites_reload_to_state_witness :
  loadFavorites (stored (addFavorite ["1706.03762"] "1706.03762"
                           {| favorites := ["1706.03762"]; stored := ["1706.03762"] |}))
  = favorites (addFavorite ["1706.03762"] "1706.03762"
                 {| favorites := ["1706.03762"]; stored := ["1706.03762"] |}).
Proof.
  apply (favorites_reload_to_state
           {| favorites := ["1706.03762"]; stored := ["1706.03762"] |} "1706.03762").
  cbn [favorites]. repeat constructor. intros [].
Defined.

(** X17: two [addFavorite] calls made with one and the same closed-over
    [favorites] (no render in between) leave both papers in memory but only
    the second in [localStorage]: if the first paper was new and differs from
    the second, reloading loses it. *)
Theorem favorites_stale_closure_loses_first :
  forall (st : Favorites) (first second : string),
    List.NoDup (favorites st) ->
    set_has (favorites st) first = false ->
    first <> second ->
    let after := addFavorite (favorites st) second
                   (addFavorite (favorites st) first st) in
    set_has (favorites after) first = true /\
    set_has (favorites after) second = true /\
    set_has (loadFavorites (stored after)) first = false /\
    set_has (loadFavorites (stored after)) second = true.
Proof.
  intros st first second Hnd Hnew Hne after.
  unfold after, addFavorite, loadFavorites. cbn [favorites stored].
  rewrite set_of_append, (set_of_NoDup _ Hnd), !set_has_add, !String.eqb_refl.
  destruct (String.eqb_spec first second) as [Heq | _]; [contradiction |].
  rewrite Hnew. cbn [orb]. repeat split.
Qed.

Lemma favorites_stale_closure_loses_first_witness :
  set_has (loadFavorites
             (stored (addFavorite [] "b" (addFavorite [] "a"
                        {| favorites := []; stored := [] |})))) "a" = false.
Proof.
  apply (favorites_stale_closure_loses_first {| favorites := []; stored := [] |} "a" "b").
  - constructor.
  - reflexivity.
  - discriminate.
Defined.

(** ** More on the rank step and the choice *)

Lemma index_in_range {A : Type} (arr : list A) (r : Q) :
  arr <> [] -> (0 <= r)%Q -> (r < 1)%Q ->
  exists a, index arr (Qfloor (r * inject_Z (Z.of_nat (length arr)))) = RObj a
            /\ In a arr.
Proof.
  intros Hne Hr0 Hr1.
  set (n := Z.of_nat (length arr)).
  assert (Hn : 0 < n).
  { unfold n. destruct arr; [contradiction | cbn [length]; lia]. }
  assert (HnQ : (0 < inject_Z n)%Q).
  { change 0%Q with (inject_Z 0). rewrite <- Zlt_Qlt. exact Hn. }
  set (i := Qfloor (r * inject_Z n)).
  assert (Hlo : 0 <= i).
  { unfold i. rewrite <- (Qfloor_Z 0). apply Qfloor_resp_le.
    change (inject_Z 0) with 0%Q. apply Qmult_le_0_compat; [exact Hr0 |].
    apply Qlt_le_weak. exact HnQ. }
  assert (Hhi : i < n).
  { unfold i. rewrite Zlt_Qlt.
    apply Qle_lt_trans with (r * inject_Z n)%Q; [apply Qfloor_le |].
    rewrite <- (Qmult_1_l (inject_Z n)) at 2.
    apply Qmult_lt_compat_r; assumption. }
  unfold index. destruct (Z.ltb_spec i 0) as [Hneg | _]; [lia |].
  destruct (nth_error arr (Z.to_nat i)) as [a |] eqn:Hnth.
  - exists a. split; [reflexivity | eapply nth_error_In; exact Hnth].
  - apply nth_error_None in Hnth. unfold n in Hhi. lia.
Qed.

(** X18: when the cache is missed, there is at least one candidate and the
    value drawn from Math.random() lies in [0, 1), [selectDailyPaper] returns
    a paper, never [undefined], and that paper is one of the ranked
    shortlist. *)
Theorem selectDailyPaper_chooses_from_shortlist :
  forall (arxiv : CalendarDate -> option string -> list Paper)
         (citations : string -> option Z) (random : nat -> Q)
         (date : CalendarDate) (category : option string) (db : Db),
    ref_truthy (getCachedPaper date category db) = false ->
    candidates arxiv citations date category <> [] ->
    (0 <= random (draws db))%Q -> (random (draws db) < 1)%Q ->
    exists p,
      fst (selectDailyPaper arxiv citations random date category db) = RObj p /\
      In p (rank (candidates arxiv citations date category)).
Proof.
  intros arxiv citations random date category db Hmiss Hsome Hr0 Hr1.
  rewrite (select_miss arxiv citations random date category db Hmiss).
  cbn [fst].
  apply index_in_range; try assumption.
  intros Hnil. apply (f_equal (@length Paper)) in Hnil.
  rewrite rank_length in Hnil. cbn [length] in Hnil.
  destruct (candidates arxiv citations date category); [contradiction |].
  cbn [length] in Hnil. lia.
Qed.

Lemma selectDailyPaper_chooses_from_shortlist_witness :
  exists p,
    fst (selectDailyPaper two_per_date no_citations first_always
           june_12_2024 None empty_db) = RObj p /\
    In p (rank (candidates two_per_date no_citations june_12_2024 None)).
Proof.
  apply (selectDailyPaper_chooses_from_shortlist two_per_date no_citations
           first_always june_12_2024 None empty_db).
  - reflexivity.
  - discriminate.
  - unfold Qle. simpl. lia.
  - unfold Qlt. simpl. lia.
Defined.

Lemma StronglySorted_app_cross {A : Type} (R : A -> A -> Prop) (l1 l2 : list A) :
  StronglySorted R (l1 ++ l2) ->
  forall x y, In x l1 -> In y l2 -> R x y.
Proof.
  induction l1 as [| a l1 IH]; intros Hs x y Hx Hy; [destruct Hx |].
  cbn [app] in Hs. inversion Hs as [| ? ? Hs' Hall]; subst.
  destruct Hx as [<- | Hx].
  - rewrite List.Forall_forall in Hall. apply Hall. apply in_or_app. now right.
  - apply (IH Hs' x y Hx Hy).
Qed.

Lemma sort_StronglySorted (l : list Paper) :
  StronglySorted cited_at_least (sort byCitationsDesc l).
Proof.
  apply Sorted_StronglySorted; [exact cited_at_least_trans | apply sort_Sorted].
Qed.

(** X19: the shortlist is the top of the candidates. The ranked papers
    together with the papers left out are a rearrangement of the candidates
    (nothing is invented, lost or repeated), and every paper left out has a
    citation count no higher than that of every ranked paper. *)
Theorem rank_keeps_the_most_cited :
  forall (papers : list Paper),
  exists leftOut,
    Permutation (rank papers ++ leftOut) papers /\
    length leftOut = (length papers - 10)%nat /\
    forall p q, In p (rank papers) -> In q leftOut ->
                citationCount q <= citationCount p.
Proof.
  intros papers. exists (skipn 10 (sort byCitationsDesc papers)).
  unfold rank, slice0. split; [| split].
  - rewrite firstn_skipn. apply sort_perm.
  - rewrite length_skipn, sort_length. reflexivity.
  - intros p q Hp Hq.
    apply (StronglySorted_app_cross cited_at_least
             (firstn 10 (sort byCitationsDesc papers))
             (skipn 10 (sort byCitationsDesc papers))); try assumption.
    rewrite firstn_skipn. apply sort_StronglySorted.
Qed.

Lemma sort_sorted_id (l : list Paper) :
  Sorted cited_at_least l -> sort byCitationsDesc l = l.
Proof.
  induction 1 as [| a l Hs IH Hhd]; [reflexivity |].
  cbn [sort]. rewrite IH. destruct Hhd as [| b l Hab]; [reflexivity |].
  apply insert_sorted_front. exact Hab.
Qed.

(** X20: ranking is idempotent, and ranking leaves a list alone that is
    already in descending citation order and has at most ten papers. *)
Theorem rank_idempotent :
  forall (papers : list Paper),
    rank (rank papers) = rank papers /\
    (Sorted cited_at_least papers -> (length papers <= 10)%nat ->
     rank papers = papers).
Proof.
  intros papers.
  assert (Hfix : forall l, Sorted cited_at_least l -> (length l <= 10)%nat ->
                           rank l = l).
  { intros l Hs Hlen. unfold rank, slice0. rewrite (sort_sorted_id l Hs).
    apply firstn_all2. exact Hlen. }
  split; [| apply Hfix].
  apply Hfix.
  - apply StronglySorted_Sorted. unfold rank, slice0.
    apply StronglySorted_firstn, sort_StronglySorted.
  - rewrite rank_length. lia.
Qed.

Lemma rank_idempotent_witness :
  rank [paper_of "1706.00001" 7; paper_of "1706.00002" 5]
  = [paper_of "1706.00001" 7; paper_of "1706.00002" 5].
Proof.
  apply (proj2 (rank_idempotent [paper_of "1706.00001" 7; paper_of "1706.00002" 5])).
  - repeat constructor. unfold cited_at_least. simpl. lia.
  - simpl. lia.
Defined.

(** X21: if the candidates carry pairwise distinct arXiv identifiers, so do
    the ranked papers: no paper appears twice in a shortlist. *)
Theorem shortlist_has_no_duplicates :
  forall (papers : list Paper),
    List.NoDup (map arxivId papers) ->
    List.NoDup (map arxivId (rank papers)).
Proof.
  intros papers Hnd.
  unfold rank, slice0. rewrite <- firstn_map. apply NoDup_firstn.
  eapply Permutation_NoDup; [| exact Hnd].
  apply Permutation_map, Permutation_sym, sort_perm.
Qed.

Lemma shortlist_has_no_duplicates_witness :
  List.NoDup (map arxivId (rank [paper_of "1706.00001" 7; paper_of "1706.00002" 5])).
Proof.
  apply (shortlist_has_no_duplicates
           [paper_of "1706.00001" 7; paper_of "1706.00002" 5]).
  simpl. constructor.
  - simpl. intros [H | []]. discriminate.
  - constructor; [intros [] | constructor].
Defined.

(** ** Encoding and trimming of the category *)

Lemma decode_first_encode_unit (c : ascii) (rest : string) :
  decode_first (encode_unit c ++ rest) = Some (c, rest).
Proof.
  destruct c as [[] [] [] [] [] [] [] []]; vm_compute; reflexivity.
Qed.

Lemma encodeURIComponent_injective (s1 s2 : string) :
  encodeURIComponent s1 = encodeURIComponent s2 -> s1 = s2.
Proof.
  revert s2. induction s1 as [| c1 s1 IH]; intros [| c2 s2] Heq.
  - reflexivity.
  - apply (f_equal decode_first) in Heq. cbn [encodeURIComponent] in Heq.
    rewrite decode_first_encode_unit in Heq. discriminate.
  - apply (f_equal decode_first) in Heq. cbn [encodeURIComponent] in Heq.
    rewrite decode_first_encode_unit in Heq. discriminate.
  - apply (f_equal decode_first) in Heq. cbn [encodeURIComponent] in Heq.
    rewrite !decode_first_encode_unit in Heq. injection Heq as -> Hrest.
    rewrite (IH s2 Hrest). reflexivity.
Qed.

Lemma append_cancel_l (p x y : string) :
  String.append p x = String.append p y -> x = y.
Proof.
  induction p as [| c p IH]; intros H; [exact H |].
  change (String c (String.append p x) = String c (String.append p y)) in H.
  injection H as H. apply IH. exact H.
Qed.

(** X22: [encodeURIComponent] loses nothing, so two different (trimmed)
    categories are never asked for under the same endpoint. *)
Theorem category_endpoint_injective :
  forall (a b : string),
    (encodeURIComponent a = encodeURIComponent b -> a = b) /\
    (category_endpoint a = category_endpoint b -> a = b).
Proof.
  intros a b. split; [apply encodeURIComponent_injective |].
  unfold category_endpoint. intros Heq.
  apply encodeURIComponent_injective.
  apply (append_cancel_l "/"), (append_cancel_l CATEGORY_PAPER). exact Heq.
Qed.

Lemma category_endpoint_injective_witness :
  "cs.AI" = "cs.AI".
Proof.
  apply (proj2 (category_endpoint_injective "cs.AI" "cs.AI")). reflexivity.
Defined.

Lemma trimStart_cases (s : string) :
  trimStart s = "" \/
  exists c rest, trimStart s = String c rest /\ isWhiteSpace c = false.
Proof.
  induction s as [| c s IH]; [now left |].
  cbn [trimStart]. destruct (isWhiteSpace c) eqn:Hc; [exact IH |].
  right. exists c, s. split; [reflexivity | exact Hc].
Qed.

Lemma trimEnd_idempotent (s : string) : trimEnd (trimEnd s) = trimEnd s.
Proof.
  induction s as [| c s IH]; [reflexivity |].
  cbn [trimEnd]. destruct (trimEnd s) as [| d t] eqn:Ht.
  - destruct (isWhiteSpace c) eqn:Hc; [reflexivity |].
    cbn [trimEnd]. rewrite Hc. reflexivity.
  - cbn [trimEnd]. cbn [trimEnd] in IH. rewrite IH. reflexivity.
Qed.

Lemma trimEnd_head (c : ascii) (rest : string) :
  isWhiteSpace c = false -> exists t, trimEnd (String c rest) = String c t.
Proof.
  intros Hc. cbn [trimEnd]. destruct (trimEnd rest); [rewrite Hc |]; eauto.
Qed.

Lemma trim_idempotent (s : string) : trim (trim s) = trim s.
Proof.
  unfold trim. destruct (trimStart_cases s) as [-> | (c & rest & -> & Hc)];
    [reflexivity |].
  destruct (trimEnd_head c rest Hc) as [t Ht]. rewrite Ht.
  cbn [trimStart]. rewrite Hc, <- Ht. apply trimEnd_idempotent.
Qed.

Lemma trim_nonblank (s : string) :
  all_white s = false -> all_white (trim s) = false.
Proof.
  intros Hw. destruct (all_white (trim s)) eqn:Ht; [| reflexivity].
  apply trim_empty_iff in Ht. rewrite trim_idempotent in Ht.
  apply trim_empty_iff in Ht. congruence.
Qed.

(** X23: white space around a category changes nothing. For a non-blank
    category, [categoryPaperQuery] and [historyQuery] give the same result
    and perform the same sends and sleeps for the category as for its
    trimmed form, and trimming twice is trimming once. *)
Theorem category_whitespace_is_ignored :
  forall (config : ApiConfig) (s : string) (page limit : JsValue) (net : Net),
    all_white s = false ->
    trim (trim s) = trim s /\
    categoryPaperQuery config (JStr s) net
    = categoryPaperQuery config (JStr (trim s)) net /\
    historyQuery config
      (Some {| hp_page := page; hp_limit := limit; hp_category := JStr s |}) net
    = historyQuery config
        (Some {| hp_page := page; hp_limit := limit;
                 hp_category := JStr (trim s) |}) net.
Proof.
  intros config s page limit net Hw.
  pose proof (trim_nonblank s Hw) as Hw'.
  split; [apply trim_idempotent |]. split.
  - unfold categoryPaperQuery.
    rewrite (validateCategory_nonblank s Hw), (validateCategory_nonblank _ Hw').
    rewrite trim_idempotent. reflexivity.
  - unfold historyQuery, validateHistoryParams.
    cbn [hp_page hp_limit hp_category is_undefined negb andb blank_category trimmed].
    rewrite trim_idempotent.
    assert (Hs : Nat.eqb (String.length (trim s)) 0 = false).
    { destruct (Nat.eqb (String.length (trim s)) 0) eqn:Hlen; [| reflexivity].
      apply trim_empty_iff in Hlen. congruence. }
    rewrite Hs. reflexivity.
Qed.

Lemma category_whitespace_is_ignored_witness :
  categoryPaperQuery default_config (JStr "  cs.AI ") (always_answers JNull)
  = categoryPaperQuery default_config (JStr (trim "  cs.AI ")) (always_answers JNull).
Proof.
  apply (category_whitespace_is_ignored default_config "  cs.AI "
           JUndefined JUndefined (always_answers JNull)).
  reflexivity.
Defined.

(** ** What a returned history body guarantees *)

Lemma validateEntry_sound (entry : JsValue) :
  validateEntry entry = true ->
  typeof (get (get entry "paper") "citationCount") = TNumber /\
  typeof (get entry "featuredDate") = TString.
Proof.
  unfold validateEntry.
  destruct (negb (truthy entry) || _ || _); [discriminate |].
  intros H. apply andb_prop in H. destruct H as [Hp Hd].
  split; [apply validatePaper_citationCount; exact Hp | apply is_type_true; exact Hd].
Qed.

Lemma validateHistoryResponse_sound (d : JsValue) :
  validateHistoryResponse d = true ->
  exists entries,
    get d "papers" = JArr entries /\
    Forall (fun entry =>
              typeof (get (get entry "paper") "citationCount") = TNumber /\
              typeof (get entry "featuredDate") = TString) entries /\
    typeof (get (get d "pagination") "page") = TNumber /\
    typeof (get (get d "pagination") "limit") = TNumber /\
    typeof (get (get d "pagination") "total") = TNumber /\
    exists b, get (get d "pagination") "hasNext" = JBool b.
Proof.
  unfold validateHistoryResponse.
  destruct (negb (truthy d) || _ || _); [discriminate |].
  destruct (get d "papers") as [| | b | n | s | entries | l] eqn:Hpapers;
    cbn [isArray negb orb items_of];
    try (rewrite orb_true_r; discriminate).
  destruct (negb (has "papers" d)); [discriminate |]. cbn [orb].
  destruct (forallb validateEntry entries) eqn:Hall; [| discriminate].
  cbn [negb orb].
  destruct (negb (has "pagination" d) || _ || _); [discriminate |].
  intros H. repeat (apply andb_prop in H; destruct H as [H ?]).
  exists entries. split; [reflexivity |]. split.
  - apply List.Forall_forall. intros entry Hin.
    apply validateEntry_sound.
    rewrite forallb_forall in Hall. apply Hall. exact Hin.
  - repeat match goal with
           | Hx : is_type _ _ = true |- _ => apply is_type_true in Hx
           end.
    repeat split; try assumption.
    destruct (get (get d "pagination") "hasNext"); try discriminate. eauto.
Qed.

(** X24: what callers may rely on. Every body [historyQuery] returns has an
    array [papers] whose entries each hold a paper with a numeric
    [citationCount] and a string [featuredDate], and a [pagination] with
    numeric [page], [limit], [total] and a boolean [hasNext]; in particular
    the hook's reads of [pagination.hasNext] always find a boolean. *)
Theorem historyQuery_returned_body_shape :
  forall (config : ApiConfig) (params : option HistoryQueryParams) (net : Net)
         (d : JsValue),
    fst (historyQuery config params net) = Return d ->
    exists entries,
      get d "papers" = JArr entries /\
      Forall (fun entry =>
                typeof (get (get entry "paper") "citationCount") = TNumber /\
                typeof (get entry "featuredDate") = TString) entries /\
      typeof (get (get d "pagination") "page") = TNumber /\
      typeof (get (get d "pagination") "limit") = TNumber /\
      typeof (get (get d "pagination") "total") = TNumber /\
      exists b, get (get d "pagination") "hasNext" = JBool b.
Proof.
  intros config params net d. unfold historyQuery.
  destruct (validateHistoryParams params) as [e | validated]; [discriminate |].
  destruct (get_ config HISTORY (queryParams_of validated) net) as [[resp | e] net'];
    [| discriminate].
  destruct (validateHistoryResponse (resp_data resp)) eqn:Hvalid;
    cbn [negb fst]; [| discriminate].
  intros H. injection H as <-. apply validateHistoryResponse_sound. exact Hvalid.
Qed.

Lemma historyQuery_returned_body_shape_witness :
  exists entries,
    get (history_json sample_history) "papers" = JArr entries /\
    Forall (fun entry =>
              typeof (get (get entry "paper") "citationCount") = TNumber /\
              typeof (get entry "featuredDate") = TString) entries /\
    typeof (get (get (history_json sample_history) "pagination") "page") = TNumber /\
    typeof (get (get (history_json sample_history) "pagination") "limit") = TNumber /\
    typeof (get (get (history_json sample_history) "pagination") "total") = TNumber /\
    exists b, get (get (history_json sample_history) "pagination") "hasNext" = JBool b.
Proof.
  apply (historyQuery_returned_body_shape default_config None
           (always_answers (history_json sample_history))).
  reflexivity.
Defined.

Lemma rank_keeps_the_most_cited_witness :
  exists leftOut,
    Permutation (rank [paper_of "1706.00002" 5; paper_of "1706.00001" 7] ++ leftOut)
                [paper_of "1706.00002" 5; paper_of "1706.00001" 7] /\
    length leftOut = 0%nat /\
    forall p q,
      In p (rank [paper_of "1706.00002" 5; paper_of "1706.00001" 7]) ->
      In q leftOut -> citationCount q <= citationCount p.
Proof.
  apply (rank_keeps_the_most_cited [paper_of "1706.00002" 5; paper_of "1706.00001" 7]).
Defined.
